(** * AssetService: the asset telemetry handlers of the REST layer

    A shallow embedding of [src/server/rest/v1/service/AssetService.ts]:
    [handleGetAssetConsumption], [handleCheckAssetConnection],
    [handleRetrieveConsumption] and [handleGetAssetsInError], and, in the
    module [Crud], the other six handlers of the service.

    The handlers are [async] functions that call collaborators one after
    the other.  They are embedded in a small monad that carries the result
    of the handler (a value or a thrown exception) and the sequence of
    collaborator calls the handler made, in program order. *)

From Stdlib Require Import ZArith Ascii String List.
From stdpp Require Import gmap strings list fin_maps.

Local Open Scope string_scope.
Local Open Scope Z_scope.

(** ** JavaScript values and objects *)

(** A time value is a count of milliseconds since the epoch; a [Date]
    whose time value is NaN is an invalid date. *)
Inductive Date : Type :=
| TimeValue (ms : Z)
| InvalidDate.

(** Numbers are only ever copied by the handlers, never computed with, so
    the carrier of [JsNumber] plays no role. *)
#[warnings="-register-all"]
Inductive JsValue : Type :=
| JsUndefined
| JsNull
| JsBool (b : bool)
| JsNumber (n : Z)
| JsString (s : string)
| JsDate (d : Date)
| JsArray (l : list JsValue)
| JsObject (o : gmap string JsValue).

(** A plain object: own properties from names to values. *)
Abbreviation JsObj := (gmap string JsValue).

(** [o.k]: reading a property the object does not have gives [undefined]. *)
Definition get (o : JsObj) (k : string) : JsValue :=
  default JsUndefined (o !! k).

(** [o.k = v] *)
Definition set (o : JsObj) (k : string) (v : JsValue) : JsObj :=
  <[k := v]> o.

(** [Object.assign(target, source)]: the properties of [source] are copied
    onto [target], overwriting those [target] already has. *)
Definition Object_assign (target source : JsObj) : JsObj :=
  source ∪ target.

(** ToBoolean, as applied by [if (v)], [!v] and [v ? a : b]. *)
Definition toBoolean (v : JsValue) : bool :=
  match v with
  | JsUndefined | JsNull => false
  | JsBool b => b
  | JsNumber n => negb (n =? 0)
  | JsString s => negb (String.eqb s "")
  | JsDate _ | JsArray _ | JsObject _ => true
  end.

(** Whether an optional object is there; an object is truthy. *)
Definition present {A} (x : option A) : bool :=
  match x with
  | Some _ => true
  | None => false
  end.

(** Truthiness of an optional string ([undefined] when absent). *)
Definition truthy (s : option string) : bool :=
  match s with
  | Some s => negb (String.eqb s "")
  | None => false
  end.

(** The string an optional string holds when it is truthy. *)
Definition str (s : option string) : string := default "" s.

(** An [Error] object as seen by a [catch] clause; more generally, what a
    [catch] clause sees of a thrown value that is neither [null] nor
    [undefined]: its [message] and its [stack], [undefined] when the value
    has none. *)
Record JsError := {
  error_name : string;
  error_message : JsValue;
  error_stack : JsValue
}.

(** The two values no property can be read of. *)
Inductive Nullish : Type := Null | Undefined.

(** ** [String.prototype.split] with a one-character separator *)

(** [s.split(sep)]: the pieces of [s] between the occurrences of [sep], in
    order; an empty piece is kept, and a string without [sep] is its own
    single piece. *)
Fixpoint split (sep : ascii) (s : string) : list string :=
  match s with
  | EmptyString => [EmptyString]
  | String c rest =>
      if Ascii.eqb c sep then EmptyString :: split sep rest
      else match split sep rest with
           | piece :: pieces => String c piece :: pieces
           | [] => [String c EmptyString]
           end
  end.

(** [pieces.join(sep)] *)
Fixpoint join (sep : ascii) (pieces : list string) : string :=
  match pieces with
  | [] => EmptyString
  | [piece] => piece
  | piece :: rest => piece ++ String sep (join sep rest)
  end.

(** Number of occurrences of a character. *)
Fixpoint occurrences (sep : ascii) (s : string) : nat :=
  match s with
  | EmptyString => O
  | String c rest => ((if Ascii.eqb c sep then 1 else 0) + occurrences sep rest)%nat
  end.

Definition BAR : ascii := "|"%char.

(** ** [Date.prototype.toISOString] and [moment(a).isAfter(moment(b))] *)

Definition msPerDay : Z := 86400000.

(** One decimal digit. *)
Definition digit (n : Z) : string :=
  String (ascii_of_nat (48 + Z.to_nat (n mod 10))) EmptyString.

(** [n] written with exactly [width] decimal digits, zero-padded. *)
Fixpoint padded (width : nat) (n : Z) : string :=
  match width with
  | O => EmptyString
  | S w => padded w (n / 10) ++ digit n
  end.

(** The civil date (year, month 1..12, day 1..31) of a day number counted
    from 1970-01-01, in the proleptic Gregorian calendar. *)
Definition civilFromDays (days : Z) : Z * Z * Z :=
  let z := days + 719468 in
  let era := z / 146097 in
  let doe := z - era * 146097 in
  let yoe := (doe - doe / 1460 + doe / 36524 - doe / 146096) / 365 in
  let doy := doe - (365 * yoe + yoe / 4 - yoe / 100) in
  let mp := (5 * doy + 2) / 153 in
  let d := doy - (153 * mp + 2) / 5 + 1 in
  let m := if mp <? 10 then mp + 3 else mp - 9 in
  let y := yoe + era * 400 + (if m <=? 2 then 1 else 0) in
  (y, m, d).

(** The year is written with four digits between 0 and 9999 and as a sign
    and six digits outside. *)
Definition isoYear (y : Z) : string :=
  if (0 <=? y) && (y <=? 9999) then padded 4 y
  else if y <? 0 then "-" ++ padded 6 (- y)
  else "+" ++ padded 6 y.

(** [YYYY-MM-DDTHH:mm:ss.sssZ] of a time value. *)
Definition isoOfTimeValue (t : Z) : string :=
  let '(y, m, d) := civilFromDays (t / msPerDay) in
  let r := t mod msPerDay in
  isoYear y ++ "-" ++ padded 2 m ++ "-" ++ padded 2 d ++ "T" ++
  padded 2 (r / 3600000) ++ ":" ++ padded 2 (r / 60000 mod 60) ++ ":" ++
  padded 2 (r / 1000 mod 60) ++ "." ++ padded 3 (r mod 1000) ++ "Z".

(** [moment(a).isAfter(moment(b))]: false as soon as one of the two is not
    a valid date, else the comparison of the time values. *)
Definition isAfter (a b : Date) : bool :=
  match a, b with
  | TimeValue x, TimeValue y => y <? x
  | _, _ => false
  end.

(** ** Enumerations and constants of the server *)

Module TenantComponents.
Inductive t := ASSET.
End TenantComponents.

Module Action.
Inductive t := LIST | READ | CHECK_CONNECTION | RETRIEVE_CONSUMPTION | IN_ERROR.
End Action.

Module Entity.
Inductive t := ASSET | ASSETS.
End Entity.

Module ServerAction.
(** Only [RETRIEVE_ASSET_CONSUMPTION] is named by the service; the
    router passes any other action through. *)
Inductive t := RETRIEVE_ASSET_CONSUMPTION | OTHER (name : string).
End ServerAction.

Module HTTPError.
Inductive t := GENERAL_ERROR.
End HTTPError.

Module HTTPAuthError.
Inductive t := FORBIDDEN.
End HTTPAuthError.

Module AssetInErrorType.
(** Modelled from the spec: [types/InError] is not among the sources; the
    spec gives the default category as the tag "missing site area". *)
Definition MISSING_SITE_AREA : string := "missing site area".
End AssetInErrorType.

Definition MODULE_NAME : string := "AssetService".

(** ** Requests *)

Record UserToken := {
  user_id : string;
  tenantID : string;
  (** the rest of the token, read by the authorization layer only *)
  claims : JsObj
}.

Module Request.
Record t := {
  user : UserToken;
  query : JsObj
}.
End Request.

(** What [AssetSecurity.filterAssetConsumptionRequest] returns; a date that
    was not given is [None]. *)
Record HttpAssetConsumptionRequest := {
  AssetID : string;
  StartDate : option Date;
  EndDate : option Date
}.

(** What [AssetSecurity.filterAssetsRequest] returns, as far as
    [handleGetAssetsInError] reads it. *)
Record HttpAssetsRequest := {
  Search : option string;
  SiteAreaID : option string;
  SiteID : option string;
  ErrorType : option string;
  Limit : JsValue;
  Skip : JsValue;
  SortFields : JsValue;
  OnlyRecordCount : JsValue
}.

(** ** Exceptions *)

Module AppError.
Inductive source := CENTRAL_SERVER.
Record t := {
  source_ : source;
  errorCode : HTTPError.t;
  message : string;
  module : string;
  method : string;
  user : option UserToken;
  action : option ServerAction.t;
  detailedMessages : option JsValue
}.
End AppError.

Module AppAuthError.
Record t := {
  errorCode : HTTPAuthError.t;
  user : UserToken;
  action : Action.t;
  entity : Entity.t;
  module : string;
  method : string;
  value : option string
}.
End AppAuthError.

Inductive Exception : Type :=
| AppError_ (params : AppError.t)
| AppAuthError_ (params : AppAuthError.t)
(** Modelled from the spec: what [UtilsService.assertObjectExists], which is
    not among the sources, throws for an absent object; the spec calls it
    [NotFound]. *)
| NotFound (action : ServerAction.t) (message module method : string)
           (user : UserToken)
(** a native [Error], such as a connector raises *)
| Error_ (e : JsError)
(** [null] or [undefined], thrown as it is *)
| Nullish_ (reason : Nullish)
(** the [TypeError] of reading a property of [null] or [undefined] *)
| TypeError_ (property : string) (receiver : Nullish).

(** ** The handler monad: a result and the collaborator calls made *)

Inductive Outcome (A : Type) : Type :=
| Return (a : A)
| Throw (e : Exception).
Arguments Return {A} a.
Arguments Throw {A} e.

(** Filter handed to [AssetStorage.getAssetsInError]; [None] is [null]. *)
Record InErrorFilter := {
  search : option string;
  siteAreaIDs : option (list string);
  siteIDs : option (list string);
  errorType : list string
}.

Record DbParams := {
  limit : JsValue;
  skip : JsValue;
  sort : JsValue;
  onlyRecordCount : JsValue
}.

Record ConsumptionFilter := {
  assetID : string;
  startDate : option Date;
  endDate : option Date
}.

Module Log.
Record t := {
  tenantID : string;
  user : UserToken;
  module : string;
  method : string;
  message : string;
  action : ServerAction.t;
  detailedMessages : JsValue
}.
End Log.

Inductive Call : Type :=
| AssetStorage_getAsset (tenant id : string) (params : option JsObj)
                        (projectFields : option (list string))
| AssetStorage_saveAsset (tenant : string) (asset : JsObj)
| AssetStorage_getAssetsInError (tenant : string) (filter : InErrorFilter)
                                (dbParams : DbParams) (projectFields : list string)
| ConsumptionStorage_getAssetConsumptions (tenant : string)
                                          (filter : ConsumptionFilter)
                                          (projectFields : list string)
| AssetFactory_getAssetImpl (tenant : string) (connection : JsValue)
| AssetIntegration_checkConnection
| AssetIntegration_retrieveConsumptions (asset : JsObj) (manualCall : bool)
| Logging_logError (log : Log.t)
| res_json (body : JsValue)
| next.

Definition M (A : Type) : Type := (Outcome A * list Call)%type.

Definition ret {A} (a : A) : M A := (Return a, []).

Definition throw {A} (e : Exception) : M A := (Throw e, []).

Definition bind {A B} (m : M A) (k : A -> M B) : M B :=
  match m with
  | (Return a, calls) => let '(r, calls') := k a in (r, (calls ++ calls')%list)
  | (Throw e, calls) => (Throw e, calls)
  end.

(** A call whose result the handler awaits. *)
Definition call {A} (c : Call) (result : A) : M A := (Return result, [c]).

#[global] Instance M_ret : MRet M := @ret.
#[global] Instance M_bind : MBind M := fun A B k m => bind m k.

Definition outcome {A} (m : M A) : Outcome A := fst m.
Definition calls {A} (m : M A) : list Call := snd m.

(** ** Collaborators *)

(** The settled state of a promise returned by a connector.  The reason of
    a rejection is any value: one that is neither [null] nor [undefined] is
    seen through its message and stack, and [RejectedNullish] is the
    rejection with [null] or [undefined] ([Promise.reject()],
    [throw undefined]). *)
Inductive Settled (A : Type) : Type :=
| Resolved (a : A)
| Rejected (error : JsError)
| RejectedNullish (reason : Nullish).
Arguments Resolved {A} a.
Arguments Rejected {A} error.
Arguments RejectedNullish {A} reason.

(** The value a [catch] clause binds. *)
Inductive Caught : Type :=
| CaughtError (error : JsError)
| CaughtNullish (reason : Nullish).

(** A connector handle, as resolved by [AssetFactory.getAssetImpl].  The
    asset is handed to [retrieveConsumptions] by reference: the result
    carries the asset object as the connector leaves it, together with the
    array of samples; an array element is [None] when it is [null] or
    [undefined]. *)
Record AssetIntegration := {
  checkConnection : Settled unit;
  retrieveConsumptions : JsObj -> bool -> Settled (JsObj * list (option JsObj))
}.

(** The services the handlers call, none of which is defined in
    [AssetService.ts].  An assertion of [UtilsService] answers [Some e] when
    it throws [e] and [None] when it returns. *)
Record Collaborators := {
  (* UtilsService *)
  assertComponentIsActiveFromToken :
    UserToken -> TenantComponents.t -> Action.t -> Entity.t ->
    string -> string -> option Exception;
  assertIdIsProvided :
    ServerAction.t -> string -> string -> string -> UserToken -> option Exception;
  (* Authorizations *)
  canReadAsset : UserToken -> bool;
  canCheckAssetConnection : UserToken -> bool;
  canRetrieveAssetConsumption : UserToken -> bool;
  canListAssetsInError : UserToken -> bool;
  (* AssetSecurity *)
  filterAssetConsumptionRequest : JsObj -> HttpAssetConsumptionRequest;
  filterAssetRequestByID : JsObj -> string;
  filterAssetsRequest : JsObj -> HttpAssetsRequest;
  (* AssetStorage *)
  getAsset : string -> string -> option JsObj -> option (list string) -> option JsObj;
  getAssetsInError : string -> InErrorFilter -> DbParams -> list string -> JsValue;
  (* ConsumptionStorage *)
  getAssetConsumptions : string -> ConsumptionFilter -> list string -> list JsValue;
  (* AssetFactory *)
  getAssetImpl : string -> JsValue -> option AssetIntegration;
  (* Constants *)
  REST_RESPONSE_SUCCESS : JsObj
}.

(** An assertion of [UtilsService], run for its exception only. *)
Definition assert (check : option Exception) : M unit :=
  match check with
  | Some e => throw e
  | None => ret tt
  end.

(** Modelled from the spec: [UtilsService.assertObjectExists] is not among
    the sources; the spec has a handler fail with [NotFound] when the object
    it loaded is absent.  The object is handed back when it exists. *)
Definition assertObjectExists {A} (action : ServerAction.t) (object : option A)
    (errorMsg module method : string) (userToken : UserToken) : M A :=
  match object with
  | Some o => ret o
  | None => throw (NotFound action errorMsg module method userToken)
  end.

(** Modelled from the spec: [Utils.isEmptyArray] is not among the sources;
    the spec speaks of the sample sequence being empty. *)
Definition isEmptyArray {A} (array : list A) : bool :=
  match array with
  | [] => true
  | _ :: _ => false
  end.

(** [await promise], the rejection of a connector being thrown on. *)
Definition await {A} (c : Call) (promise : Settled A) : M A :=
  match promise with
  | Resolved a => call c a
  | Rejected error => (Throw (Error_ error), [c])
  | RejectedNullish reason => (Throw (Nullish_ reason), [c])
  end.

(** [try { await promise; ok } catch (error) { handler }], for a block
    whose only throwing statement is the awaited connector call. *)
Definition try_await {A B} (c : Call) (promise : Settled A)
    (ok : A -> M B) (handler : Caught -> M B) : M B :=
  match promise with
  | Resolved a => _ ← call c tt; ok a
  | Rejected error => _ ← call c tt; handler (CaughtError error)
  | RejectedNullish reason => _ ← call c tt; handler (CaughtNullish reason)
  end.

(** [error.message] and [error.stack] on the value a [catch] clause binds:
    a [TypeError] when the value is [null] or [undefined]. *)
Definition messageOf (error : Caught) : M JsValue :=
  match error with
  | CaughtError e => ret (error_message e)
  | CaughtNullish reason => throw (TypeError_ "message" reason)
  end.

Definition stackOf (error : Caught) : M JsValue :=
  match error with
  | CaughtError e => ret (error_stack e)
  | CaughtNullish reason => throw (TypeError_ "stack" reason)
  end.

(** [date.toISOString()]: a [RangeError] on an invalid date. *)
Definition toISOString (d : Date) : M string :=
  match d with
  | TimeValue t => ret (isoOfTimeValue t)
  | InvalidDate =>
      throw (Error_ {| error_name := "RangeError";
                       error_message := JsString "Invalid time value";
                       error_stack := JsUndefined |})
  end.

(** ** The handlers *)

Section Handlers.
Context (c : Collaborators).

Definition handleGetAssetConsumption (action : ServerAction.t) (req : Request.t)
  : M unit :=
  (* Check if component is active *)
  _ ← assert (assertComponentIsActiveFromToken c (Request.user req)
                TenantComponents.ASSET Action.LIST Entity.ASSETS
                MODULE_NAME "handleGetAssetConsumption");
  (* Filter *)
  let filteredRequest := filterAssetConsumptionRequest c (Request.query req) in
  _ ← assert (assertIdIsProvided c action (AssetID filteredRequest) MODULE_NAME
                "handleGetAssetConsumption" (Request.user req));
  (* Check auth *)
  if negb (canReadAsset c (Request.user req)) then
    throw (AppAuthError_ {|
      AppAuthError.errorCode := HTTPAuthError.FORBIDDEN;
      AppAuthError.user := Request.user req;
      AppAuthError.action := Action.READ;
      AppAuthError.entity := Entity.ASSET;
      AppAuthError.module := MODULE_NAME;
      AppAuthError.method := "handleGetAsset";
      AppAuthError.value := Some (AssetID filteredRequest) |})
  else
  (* Get it *)
  asset ← call (AssetStorage_getAsset (tenantID (Request.user req))
                  (AssetID filteredRequest) (Some ∅) (Some ["id"; "name"]))
               (getAsset c (tenantID (Request.user req))
                  (AssetID filteredRequest) (Some ∅) (Some ["id"; "name"]));
  asset ← assertObjectExists action asset
            ("Asset ID '" ++ AssetID filteredRequest ++ "' does not exist")
            MODULE_NAME "handleGetAssetConsumption" (Request.user req);
  (* Check dates *)
  _ ← (if negb (present (StartDate filteredRequest))
          || negb (present (EndDate filteredRequest)) then
         throw (AppError_ {|
           AppError.source_ := AppError.CENTRAL_SERVER;
           AppError.errorCode := HTTPError.GENERAL_ERROR;
           AppError.message := "Start date and end date must be provided";
           AppError.module := MODULE_NAME;
           AppError.method := "handleGetAssetConsumption";
           AppError.user := Some (Request.user req);
           AppError.action := Some action;
           AppError.detailedMessages := None |})
       else ret tt);
  (* Check dates order *)
  _ ← match StartDate filteredRequest, EndDate filteredRequest with
      | Some StartDate, Some EndDate =>
          if isAfter StartDate EndDate then
            start ← toISOString StartDate;
            end_ ← toISOString EndDate;
            throw (AppError_ {|
              AppError.source_ := AppError.CENTRAL_SERVER;
              AppError.errorCode := HTTPError.GENERAL_ERROR;
              AppError.message :=
                "The requested start date '" ++ start ++
                "' is after the end date '" ++ end_ ++ "' ";
              AppError.module := MODULE_NAME;
              AppError.method := "handleGetAssetConsumption";
              AppError.user := Some (Request.user req);
              AppError.action := Some action;
              AppError.detailedMessages := None |})
          else ret tt
      | _, _ => ret tt
      end;
  (* Get the ConsumptionValues *)
  let filter := {| assetID := AssetID filteredRequest;
                   startDate := StartDate filteredRequest;
                   endDate := EndDate filteredRequest |} in
  let fields := ["startedAt"; "instantWatts"; "instantAmps"; "limitWatts";
                 "limitAmps"; "endedAt"; "stateOfCharge"] in
  consumptions ← call (ConsumptionStorage_getAssetConsumptions
                         (tenantID (Request.user req)) filter fields)
                      (getAssetConsumptions c (tenantID (Request.user req))
                         filter fields);
  (* Assign *)
  let asset := set asset "values" (JsArray consumptions) in
  (* Return *)
  _ ← call (res_json (JsObject asset)) tt;
  call next tt.

Definition handleCheckAssetConnection (action : ServerAction.t) (req : Request.t)
  : M unit :=
  (* Check if component is active *)
  _ ← assert (assertComponentIsActiveFromToken c (Request.user req)
                TenantComponents.ASSET Action.CHECK_CONNECTION Entity.ASSET
                MODULE_NAME "handleCheckAssetConnection");
  (* Filter request *)
  let filteredRequest := filterAssetRequestByID c (Request.query req) in
  (* Get asset connection type *)
  assetImpl ← call (AssetFactory_getAssetImpl (tenantID (Request.user req))
                      (JsString filteredRequest))
                   (getAssetImpl c (tenantID (Request.user req))
                      (JsString filteredRequest));
  (* Asset has unknown connection type *)
  match assetImpl with
  | None =>
      throw (AppError_ {|
        AppError.source_ := AppError.CENTRAL_SERVER;
        AppError.errorCode := HTTPError.GENERAL_ERROR;
        AppError.message := "Asset service is not configured";
        AppError.module := MODULE_NAME;
        AppError.method := "handleCheckAssetConnection";
        AppError.user := Some (Request.user req);
        AppError.action := Some action;
        AppError.detailedMessages := None |})
  | Some assetImpl =>
      (* Is authorized to check connection ? *)
      if negb (canCheckAssetConnection c (Request.user req)) then
        throw (AppAuthError_ {|
          AppAuthError.errorCode := HTTPAuthError.FORBIDDEN;
          AppAuthError.user := Request.user req;
          AppAuthError.action := Action.CHECK_CONNECTION;
          AppAuthError.entity := Entity.ASSET;
          AppAuthError.module := MODULE_NAME;
          AppAuthError.method := "handleCheckAssetConnection";
          AppAuthError.value := None |})
      else
      _ ← try_await AssetIntegration_checkConnection (checkConnection assetImpl)
            (fun _ =>
               (* Success *)
               call (res_json (JsObject
                 (Object_assign {[ "connectionIsValid" := JsBool true ]}
                                (REST_RESPONSE_SUCCESS c)))) tt)
            (fun error =>
               (* KO *)
               message ← messageOf error;
               stack ← stackOf error;
               _ ← call (Logging_logError {|
                 Log.tenantID := tenantID (Request.user req);
                 Log.user := Request.user req;
                 Log.module := MODULE_NAME;
                 Log.method := "handleCheckAssetConnection";
                 Log.message := "Asset connection failed";
                 Log.action := action;
                 Log.detailedMessages :=
                   JsObject {[ "error" := message;
                               "stack" := stack ]} |}) tt;
               (* Create fail response *)
               call (res_json (JsObject
                 (Object_assign {[ "connectionIsValid" := JsBool false ]}
                                (REST_RESPONSE_SUCCESS c)))) tt);
      call next tt
  end.

Definition handleRetrieveConsumption (action : ServerAction.t) (req : Request.t)
  : M unit :=
  (* Check if component is active *)
  _ ← assert (assertComponentIsActiveFromToken c (Request.user req)
                TenantComponents.ASSET Action.RETRIEVE_CONSUMPTION Entity.ASSET
                MODULE_NAME "handleRetrieveConsumption");
  (* Is authorized to check connection ? *)
  if negb (canRetrieveAssetConsumption c (Request.user req)) then
    throw (AppAuthError_ {|
      AppAuthError.errorCode := HTTPAuthError.FORBIDDEN;
      AppAuthError.user := Request.user req;
      AppAuthError.action := Action.RETRIEVE_CONSUMPTION;
      AppAuthError.entity := Entity.ASSET;
      AppAuthError.module := MODULE_NAME;
      AppAuthError.method := "handleRetrieveConsumption";
      AppAuthError.value := None |})
  else
  (* Filter request *)
  let assetID := filterAssetRequestByID c (Request.query req) in
  _ ← assert (assertIdIsProvided c action assetID MODULE_NAME
                "handleRetrieveConsumption" (Request.user req));
  (* Get *)
  asset ← call (AssetStorage_getAsset (tenantID (Request.user req)) assetID
                  None None)
               (getAsset c (tenantID (Request.user req)) assetID None None);
  asset ← assertObjectExists action asset
            ("Asset ID '" ++ assetID ++ "' does not exist")
            MODULE_NAME "handleRetrieveConsumption" (Request.user req);
  (* Dynamic asset ? *)
  if negb (toBoolean (get asset "dynamicAsset")) then
    throw (AppError_ {|
      AppError.source_ := AppError.CENTRAL_SERVER;
      AppError.errorCode := HTTPError.GENERAL_ERROR;
      AppError.message :=
        "This Asset is not dynamic, no consumption can be retrieved";
      AppError.module := MODULE_NAME;
      AppError.method := "handleRetrieveConsumption";
      AppError.user := Some (Request.user req);
      AppError.action := Some action;
      AppError.detailedMessages :=
        Some (JsObject {[ "asset" := JsObject asset ]}) |})
  else
  (* Get asset factory *)
  assetImpl ← call (AssetFactory_getAssetImpl (tenantID (Request.user req))
                      (get asset "connectionID"))
                   (getAssetImpl c (tenantID (Request.user req))
                      (get asset "connectionID"));
  match assetImpl with
  | None =>
      throw (AppError_ {|
        AppError.source_ := AppError.CENTRAL_SERVER;
        AppError.errorCode := HTTPError.GENERAL_ERROR;
        AppError.message := "Asset service is not configured";
        AppError.module := MODULE_NAME;
        AppError.method := "handleRetrieveConsumption";
        AppError.user := None;
        AppError.action := Some ServerAction.RETRIEVE_ASSET_CONSUMPTION;
        AppError.detailedMessages := None |})
  | Some assetImpl =>
      (* Retrieve consumption *)
      '(asset, consumptions) ←
        await (AssetIntegration_retrieveConsumptions asset true)
              (retrieveConsumptions assetImpl asset true);
      _ ← (if negb (isEmptyArray consumptions) then
             let consumption := mjoin (consumptions !! 0%nat) in
             (* Assign *)
             match consumption with
             | Some consumption =>
                 let asset := set asset "lastConsumption" (get consumption "lastConsumption") in
                 let asset := set asset "currentConsumptionWh" (get consumption "currentConsumptionWh") in
                 let asset := set asset "currentInstantAmps" (get consumption "currentInstantAmps") in
                 let asset := set asset "currentInstantAmpsL1" (get consumption "currentInstantAmpsL1") in
                 let asset := set asset "currentInstantAmpsL2" (get consumption "currentInstantAmpsL2") in
                 let asset := set asset "currentInstantAmpsL3" (get consumption "currentInstantAmpsL3") in
                 let asset := set asset "currentInstantVolts" (get consumption "currentInstantVolts") in
                 let asset := set asset "currentInstantVoltsL1" (get consumption "currentInstantVoltsL1") in
                 let asset := set asset "currentInstantVoltsL2" (get consumption "currentInstantVoltsL2") in
                 let asset := set asset "currentInstantVoltsL3" (get consumption "currentInstantVoltsL3") in
                 let asset := set asset "currentInstantWatts" (get consumption "currentInstantWatts") in
                 let asset := set asset "currentInstantWattsL1" (get consumption "currentInstantWattsL1") in
                 let asset := set asset "currentInstantWattsL2" (get consumption "currentInstantWattsL2") in
                 let asset := set asset "currentInstantWattsL3" (get consumption "currentInstantWattsL3") in
                 let asset := set asset "currentStateOfCharge" (get consumption "currentStateOfCharge") in
                 (* Save Asset *)
                 call (AssetStorage_saveAsset (tenantID (Request.user req)) asset) tt
             | None => ret tt
             end
           else ret tt);
      (* Ok *)
      _ ← call (res_json (JsObject (REST_RESPONSE_SUCCESS c))) tt;
      call next tt
  end.

Definition handleGetAssetsInError (action : ServerAction.t) (req : Request.t)
  : M unit :=
  (* Check if component is active *)
  _ ← assert (assertComponentIsActiveFromToken c (Request.user req)
                TenantComponents.ASSET Action.LIST Entity.ASSETS
                MODULE_NAME "handleGetAssetsInError");
  (* Check auth *)
  if negb (canListAssetsInError c (Request.user req)) then
    throw (AppAuthError_ {|
      AppAuthError.errorCode := HTTPAuthError.FORBIDDEN;
      AppAuthError.user := Request.user req;
      AppAuthError.action := Action.IN_ERROR;
      AppAuthError.entity := Entity.ASSETS;
      AppAuthError.module := MODULE_NAME;
      AppAuthError.method := "handleGetAssetsInError";
      AppAuthError.value := None |})
  else
  (* Filter *)
  let filteredRequest := filterAssetsRequest c (Request.query req) in
  (* Build error type *)
  let errorType :=
    if truthy (ErrorType filteredRequest)
    then split BAR (str (ErrorType filteredRequest))
    else [AssetInErrorType.MISSING_SITE_AREA] in
  (* Get the assets *)
  let filter := {|
    search := Search filteredRequest;
    siteAreaIDs := if truthy (SiteAreaID filteredRequest)
                   then Some (split BAR (str (SiteAreaID filteredRequest)))
                   else None;
    siteIDs := if truthy (SiteID filteredRequest)
               then Some (split BAR (str (SiteID filteredRequest)))
               else None;
    errorType := errorType |} in
  let dbParams := {| limit := Limit filteredRequest;
                     skip := Skip filteredRequest;
                     sort := SortFields filteredRequest;
                     onlyRecordCount := OnlyRecordCount filteredRequest |} in
  let fields := ["id"; "name"; "errorCodeDetails"; "errorCode"] in
  assets ← call (AssetStorage_getAssetsInError (tenantID (Request.user req))
                   filter dbParams fields)
                (getAssetsInError c (tenantID (Request.user req))
                   filter dbParams fields);
  _ ← call (res_json assets) tt;
  call next tt.

End Handlers.

(** ** Observations on the calls of a run *)

(** The assets handed to [AssetStorage.saveAsset], in order. *)
Definition savedAssets (l : list Call) : list (string * JsObj) :=
  omap (fun x => match x with
                 | AssetStorage_saveAsset t a => Some (t, a)
                 | _ => None
                 end) l.

(** The bodies handed to [res.json], in order. *)
Definition responses (l : list Call) : list JsValue :=
  omap (fun x => match x with res_json b => Some b | _ => None end) l.

(** The diagnostics handed to [Logging.logError], in order. *)
Definition loggedErrors (l : list Call) : list Log.t :=
  omap (fun x => match x with Logging_logError d => Some d | _ => None end) l.

(** The queries made to [ConsumptionStorage.getAssetConsumptions]. *)
Definition consumptionQueries (l : list Call) : list ConsumptionFilter :=
  omap (fun x => match x with
                 | ConsumptionStorage_getAssetConsumptions _ f _ => Some f
                 | _ => None
                 end) l.

(** The queries made to [AssetStorage.getAssetsInError]. *)
Definition inErrorQueries (l : list Call) : list (InErrorFilter * DbParams) :=
  omap (fun x => match x with
                 | AssetStorage_getAssetsInError _ f p _ => Some (f, p)
                 | _ => None
                 end) l.

(** The connector look-ups made through [AssetFactory.getAssetImpl]. *)
Definition connectorLookups (l : list Call) : list (string * JsValue) :=
  omap (fun x => match x with
                 | AssetFactory_getAssetImpl t r => Some (t, r)
                 | _ => None
                 end) l.

(** The live-state field group, in the order the merge assigns it. *)
Definition liveStateFields : list string :=
  ["lastConsumption"; "currentConsumptionWh";
   "currentInstantAmps"; "currentInstantAmpsL1"; "currentInstantAmpsL2";
   "currentInstantAmpsL3";
   "currentInstantVolts"; "currentInstantVoltsL1"; "currentInstantVoltsL2";
   "currentInstantVoltsL3";
   "currentInstantWatts"; "currentInstantWattsL1"; "currentInstantWattsL2";
   "currentInstantWattsL3";
   "currentStateOfCharge"].

(** Copying the listed properties of [from] onto [onto], one after the
    other. *)
Definition overlay (fields : list string) (from onto : JsObj) : JsObj :=
  foldl (fun o k => set o k (get from k)) onto fields.

(** ** Entry checks and expected errors *)

(** The entry checks of [handleRetrieveConsumption] before the asset is looked
    at: the component is active, the caller is authorized, an identifier
    was given, and the storage knows the asset. *)
Definition loads (c : Collaborators) (action : ServerAction.t)
    (req : Request.t) (asset : JsObj) : Prop :=
  assertComponentIsActiveFromToken c (Request.user req)
    TenantComponents.ASSET Action.RETRIEVE_CONSUMPTION Entity.ASSET
    MODULE_NAME "handleRetrieveConsumption" = None ∧
  canRetrieveAssetConsumption c (Request.user req) = true ∧
  assertIdIsProvided c action (filterAssetRequestByID c (Request.query req))
    MODULE_NAME "handleRetrieveConsumption" (Request.user req) = None ∧
  getAsset c (tenantID (Request.user req))
    (filterAssetRequestByID c (Request.query req)) None None = Some asset.

(** The component check of [handleCheckAssetConnection]. *)
Definition checkable (c : Collaborators) (req : Request.t) : Prop :=
  assertComponentIsActiveFromToken c (Request.user req)
    TenantComponents.ASSET Action.CHECK_CONNECTION Entity.ASSET
    MODULE_NAME "handleCheckAssetConnection" = None.

(** The entry checks of [handleGetAssetConsumption] before the asset is loaded. *)
Definition readable (c : Collaborators) (action : ServerAction.t)
    (req : Request.t) : Prop :=
  assertComponentIsActiveFromToken c (Request.user req)
    TenantComponents.ASSET Action.LIST Entity.ASSETS
    MODULE_NAME "handleGetAssetConsumption" = None ∧
  assertIdIsProvided c action
    (AssetID (filterAssetConsumptionRequest c (Request.query req)))
    MODULE_NAME "handleGetAssetConsumption" (Request.user req) = None ∧
  canReadAsset c (Request.user req) = true.

(** The entry checks of [handleGetAssetsInError]. *)
Definition listable (c : Collaborators) (req : Request.t) : Prop :=
  assertComponentIsActiveFromToken c (Request.user req)
    TenantComponents.ASSET Action.LIST Entity.ASSETS
    MODULE_NAME "handleGetAssetsInError" = None ∧
  canListAssetsInError c (Request.user req) = true.

(** An [AppError] of the central server with the general error code. *)
Definition generalError (message method : string) (user : option UserToken)
    (action : ServerAction.t) (details : option JsValue) : Exception :=
  AppError_ {|
    AppError.source_ := AppError.CENTRAL_SERVER;
    AppError.errorCode := HTTPError.GENERAL_ERROR;
    AppError.message := message;
    AppError.module := MODULE_NAME;
    AppError.method := method;
    AppError.user := user;
    AppError.action := Some action;
    AppError.detailedMessages := details |}.

(** InvalidOperation: live retrieval asked of an asset that is not dynamic. *)
Definition InvalidOperation (action : ServerAction.t) (req : Request.t)
    (asset : JsObj) : Exception :=
  generalError "This Asset is not dynamic, no consumption can be retrieved"
    "handleRetrieveConsumption" (Some (Request.user req)) action
    (Some (JsObject {[ "asset" := JsObject asset ]})).

(** NotConfigured, as [handleCheckAssetConnection] raises it. *)
Definition NotConfigured_check (action : ServerAction.t) (req : Request.t)
  : Exception :=
  generalError "Asset service is not configured" "handleCheckAssetConnection"
    (Some (Request.user req)) action None.

(** NotConfigured, as [handleRetrieveConsumption] raises it. *)
Definition NotConfigured_retrieve : Exception :=
  generalError "Asset service is not configured" "handleRetrieveConsumption"
    None ServerAction.RETRIEVE_ASSET_CONSUMPTION None.

(** The authorization failure of [handleCheckAssetConnection]. *)
Definition Forbidden_check (req : Request.t) : Exception :=
  AppAuthError_ {|
    AppAuthError.errorCode := HTTPAuthError.FORBIDDEN;
    AppAuthError.user := Request.user req;
    AppAuthError.action := Action.CHECK_CONNECTION;
    AppAuthError.entity := Entity.ASSET;
    AppAuthError.module := MODULE_NAME;
    AppAuthError.method := "handleCheckAssetConnection";
    AppAuthError.value := None |}.

(** ValidationError: a date of the range is missing. *)
Definition DatesMissing (action : ServerAction.t) (req : Request.t) : Exception :=
  generalError "Start date and end date must be provided"
    "handleGetAssetConsumption" (Some (Request.user req)) action None.

(** ValidationError: the range starts after it ends. *)
Definition StartAfterEnd (action : ServerAction.t) (req : Request.t)
    (start end_ : Z) : Exception :=
  generalError
    ("The requested start date '" ++ isoOfTimeValue start ++
     "' is after the end date '" ++ isoOfTimeValue end_ ++ "' ")
    "handleGetAssetConsumption" (Some (Request.user req)) action None.

(** The diagnostic logged when the probe of a connector fails. *)
Definition connectionFailed (action : ServerAction.t) (req : Request.t)
    (error : JsError) : Log.t :=
  {| Log.tenantID := tenantID (Request.user req);
     Log.user := Request.user req;
     Log.module := MODULE_NAME;
     Log.method := "handleCheckAssetConnection";
     Log.message := "Asset connection failed";
     Log.action := action;
     Log.detailedMessages :=
       JsObject {[ "error" := error_message error;
                   "stack" := error_stack error ]} |}.

(** The body of the answer of a connection check. *)
Definition connectionIsValid (c : Collaborators) (valid : bool) : JsValue :=
  JsObject (Object_assign {[ "connectionIsValid" := JsBool valid ]}
                          (REST_RESPONSE_SUCCESS c)).

(** The first element of the sample array, when it is a sample. *)
Definition firstSample (consumptions : list (option JsObj)) : option JsObj :=
  mjoin (consumptions !! 0%nat).

(** ** A scenario: asset A1 behind the connector meter-7 *)

Module Scenario.

Definition user : UserToken :=
  {| user_id := "u1"; tenantID := "t1"; claims := ∅ |}.

Definition A1 : JsObj :=
  {[ "id" := JsString "A1"; "name" := JsString "Battery";
     "siteAreaID" := JsString "sa1"; "assetType" := JsString "CO";
     "dynamicAsset" := JsBool true; "connectionID" := JsString "meter-7";
     "currentInstantWatts" := JsNumber 10;
     "currentInstantAmps" := JsNumber 3 ]}.

Definition A0 : JsObj :=
  {[ "id" := JsString "A0"; "name" := JsString "Roof";
     "dynamicAsset" := JsBool false ]}.

Definition sample : JsObj :=
  {[ "currentInstantWatts" := JsNumber 4200;
     "currentStateOfCharge" := JsNumber 73 ]}.

Definition probeError : JsError :=
  {| error_name := "Error"; error_message := JsString "ECONNREFUSED";
     error_stack := JsString "at connect" |}.

(** A connector whose probe answers as given and which returns the given
    samples, leaving the asset as it is. *)
Definition connector (probe : Settled unit) (samples : list (option JsObj))
  : AssetIntegration :=
  {| checkConnection := probe;
     retrieveConsumptions := fun asset _ => Resolved (asset, samples) |}.

Definition request (id : string) : Request.t :=
  {| Request.user := user; Request.query := {[ "ID" := JsString id ]} |}.

(** Collaborators that let [allowed] through, know the assets A0 and A1,
    resolve [registry] and answer the filters as given. *)
Definition world (allowed : bool) (registry : option AssetIntegration)
    (dates : option Date * option Date) (listing : HttpAssetsRequest)
  : Collaborators :=
  {| assertComponentIsActiveFromToken := fun _ _ _ _ _ _ => None;
     assertIdIsProvided := fun _ _ _ _ _ => None;
     canReadAsset := fun _ => allowed;
     canCheckAssetConnection := fun _ => allowed;
     canRetrieveAssetConsumption := fun _ => allowed;
     canListAssetsInError := fun _ => allowed;
     filterAssetConsumptionRequest := fun q =>
       {| AssetID := match get q "ID" with JsString s => s | _ => "" end;
          StartDate := dates.1; EndDate := dates.2 |};
     filterAssetRequestByID := fun q =>
       match get q "ID" with JsString s => s | _ => "" end;
     filterAssetsRequest := fun _ => listing;
     getAsset := fun _ id _ _ =>
       if String.eqb id "A1" then Some A1
       else if String.eqb id "A0" then Some A0 else None;
     getAssetsInError := fun _ _ _ _ => JsArray [];
     getAssetConsumptions := fun _ _ _ => [];
     getAssetImpl := fun _ _ => registry;
     REST_RESPONSE_SUCCESS := {[ "status" := JsString "Success" ]} |}.

Definition noListing : HttpAssetsRequest :=
  {| Search := None; SiteAreaID := None; SiteID := None; ErrorType := None;
     Limit := JsUndefined; Skip := JsUndefined; SortFields := JsUndefined;
     OnlyRecordCount := JsUndefined |}.

Definition act : ServerAction.t := ServerAction.OTHER "RestAssetAction".

(** No connector is configured; the caller is let through. *)
Definition unconfigured : Collaborators :=
world true None (None, None) noListing.

(** No connector is configured, and the caller is refused everywhere. *)
Definition intruder : Collaborators :=
world false None (None, None) noListing.

(** The connector meter-7 is configured. *)
Definition metered (probe : Settled unit) (samples : list (option JsObj))
: Collaborators :=
world true (Some (connector probe samples)) (None, None) noListing.

(** A historical query over the given range of time values. *)
Definition ranged (start end_ : Z) : Collaborators :=
world true None (Some (TimeValue start), Some (TimeValue end_)) noListing.

(** An error listing restricted to the site areas s1 and s2. *)
Definition listing : Collaborators :=
world true None (None, None)
  {| Search := None; SiteAreaID := Some "s1|s2"; SiteID := None;
     ErrorType := None; Limit := JsNumber 50; Skip := JsNumber 0;
     SortFields := JsUndefined; OnlyRecordCount := JsUndefined |}.

End Scenario.

(** ** [String.prototype] functions used on stored images *)

(** [s.startsWith(prefix)] *)
Definition startsWith (s prefix : string) : bool := String.prefix prefix s.

Fixpoint indexOfFrom (ch : ascii) (s : string) (i : Z) : Z :=
  match s with
  | EmptyString => -1
  | String c rest => if Ascii.eqb c ch then i else indexOfFrom ch rest (i + 1)
  end.

(** [s.indexOf(ch)] for a one-character [ch]: the position of its first
    occurrence, or -1. *)
Definition indexOf (s : string) (ch : ascii) : Z := indexOfFrom ch s 0.

(** [s.substring(start, end)]: both positions are clamped to the string and
    taken in increasing order. *)
Definition substring (s : string) (start end_ : Z) : string :=
  let len := Z.of_nat (String.length s) in
  let a := Z.min (Z.max start 0) len in
  let b := Z.min (Z.max end_ 0) len in
  String.substring (Z.to_nat (Z.min a b)) (Z.to_nat (Z.max a b - Z.min a b)) s.

(** [s.substring(start)] *)
Definition substringFrom (s : string) (start : Z) : string :=
  substring s start (Z.of_nat (String.length s)).

Definition SEMICOLON : ascii := ";"%char.
Definition COMMA : ascii := ","%char.

(** An optional string as a value: [undefined] when absent. *)
Definition ofString (s : option string) : JsValue :=
  match s with
  | Some s => JsString s
  | None => JsUndefined
  end.

(** An optional list of strings as a value: [null] when absent. *)
Definition ofStrings (l : option (list string)) : JsValue :=
  match l with
  | Some l => JsArray (JsString <$> l)
  | None => JsNull
  end.

(** Assigning the listed properties to an object, one after the other. *)
Definition assign (properties : list (string * JsValue)) (o : JsObj) : JsObj :=
  foldl (fun o p => set o p.1 p.2) o properties.

(** ** The other handlers of the service

    [handleDeleteAsset], [handleGetAsset], [handleGetAssetImage],
    [handleGetAssets], [handleCreateAsset] and [handleUpdateAsset] name
    actions, raise authorization errors and call collaborators that the
    telemetry handlers do not; their vocabulary extends the one above. *)

Module Crud.

Module Action.
Inductive t := LIST | READ | DELETE | CREATE | UPDATE.
End Action.

Module AppAuthError.
Record t := {
  errorCode : HTTPAuthError.t;
  user : UserToken;
  action : Action.t;
  entity : Entity.t;
  module : string;
  method : string;
  value : option string
}.
End AppAuthError.

Inductive Thrown : Type :=
(** an exception of the kinds the telemetry handlers raise *)
| Base (e : Exception)
| AppAuthError_ (params : AppAuthError.t).

Inductive Result (A : Type) : Type :=
| Returned (a : A)
| Threw (e : Thrown).
Arguments Returned {A} a.
Arguments Threw {A} e.

(** The bytes [Buffer.from] makes of a string. *)
Definition Buffer : Type := list Byte.byte.

(** The request as these handlers read it: besides the user and the query,
    the tenant and the body. *)
Module HttpRequest.
Record t := {
  base : Request.t;
  tenant : JsValue;
  body : JsObj
}.
Definition user (req : t) : UserToken := Request.user (base req).
Definition query (req : t) : JsObj := Request.query (base req).
End HttpRequest.

(** What [AssetSecurity.filterAssetRequest] returns. *)
Module HttpAssetRequest.
Record t := {
  ID : string;
  WithSiteArea : JsValue
}.
End HttpAssetRequest.

(** What [AssetSecurity.filterAssetImageRequest] returns. *)
Module HttpAssetImageRequest.
Record t := {
  ID : string;
  TenantID : string
}.
End HttpAssetImageRequest.

(** The fields of what [AssetSecurity.filterAssetsRequest] returns that only
    [handleGetAssets] reads. *)
Record HttpAssetsFlags := {
  WithSiteArea : JsValue;
  WithNoSiteArea : JsValue;
  DynamicOnly : JsValue
}.

(** What [AssetStorage.getAssetImage] returns. *)
Module AssetImage.
Record t := {
  asset_id : string;
  image : option string
}.
End AssetImage.

(** What [AuthorizationService.checkAndGetAssetsAuthorizationFilters]
    returns. *)
Record AuthorizationFilter := {
  authorized : bool;
  filters : JsObj;
  projectFields : JsValue
}.

Inductive Effect : Type :=
(** a call the telemetry handlers make too *)
| Telemetry (c : Call)
| AssetStorage_deleteAsset (tenant : string) (id : JsValue)
| AssetStorage_getAssetImage (tenant id : string)
| AssetStorage_getAssets (tenant : string) (filter : JsObj)
                         (dbParams : DbParams) (projectFields : JsValue)
| SiteAreaStorage_getSiteArea (tenant : string) (id : JsValue)
| AuthorizationService_checkAndGetAssetsAuthorizationFilters
    (tenant : JsValue) (user : UserToken)
    (filteredRequest : HttpAssetsRequest) (flags : HttpAssetsFlags)
| UtilsService_sendEmptyDataResult
| Logging_logSecurityInfo (log : Log.t)
| res_setHeader (name value : string)
| res_send (body : option Buffer).

(** The services these handlers call besides the collaborators above;
    [assertComponentIsActiveFromToken] is the same assertion, over the
    actions of these handlers.  [filterAssetUpdateRequest]
    answers the filtered request as an object together with its [id], which
    the interface types as a string; [Buffer_from] answers the error
    [Buffer.from] throws when it refuses the encoding; [ToString_other] is
    the conversion to a string of a value that is neither a string,
    [undefined], [null] nor a boolean; [now] is what [new Date()] reads. *)
Record Services := {
  (* UtilsService *)
  assertComponentIsActiveFromToken :
    UserToken -> TenantComponents.t -> Action.t -> Entity.t ->
    string -> string -> option Exception;
  checkIfAssetValid : JsObj -> HttpRequest.t -> option Exception;
  (* Authorizations *)
  canDeleteAsset : UserToken -> bool;
  canListAssets : UserToken -> bool;
  canCreateAsset : UserToken -> bool;
  canUpdateAsset : UserToken -> bool;
  (* AssetSecurity *)
  filterAssetRequest : JsObj -> HttpAssetRequest.t;
  filterAssetImageRequest : JsObj -> HttpAssetImageRequest.t;
  filterAssetsFlags : JsObj -> HttpAssetsFlags;
  filterAssetCreateRequest : JsObj -> JsObj;
  filterAssetUpdateRequest : JsObj -> string * JsObj;
  (* AuthorizationService *)
  checkAndGetAssetsAuthorizationFilters :
    JsValue -> UserToken -> HttpAssetsRequest -> HttpAssetsFlags ->
    AuthorizationFilter;
  (* AssetStorage *)
  saveAsset : string -> JsObj -> string;
  getAssetImage : string -> string -> option AssetImage.t;
  getAssets : string -> JsObj -> DbParams -> JsValue -> JsValue;
  (* SiteAreaStorage *)
  getSiteArea : string -> JsValue -> option JsObj;
  (* the runtime *)
  Buffer_from : string -> string -> JsError + Buffer;
  ToString_other : JsValue -> string;
  now : Date
}.

(** ** The handler monad over the extended vocabulary *)

Definition Run (A : Type) : Type := (Result A * list Effect)%type.

Definition ret {A} (a : A) : Run A := (Returned a, []).

Definition throw {A} (e : Thrown) : Run A := (Threw e, []).

Definition bind {A B} (m : Run A) (k : A -> Run B) : Run B :=
  match m with
  | (Returned a, effects) =>
      let '(r, effects') := k a in (r, (effects ++ effects')%list)
  | (Threw e, effects) => (Threw e, effects)
  end.

Definition perform {A} (e : Effect) (result : A) : Run A :=
  (Returned result, [e]).

(** A computation of the telemetry handlers, run here. *)
Definition lift {A} (m : M A) : Run A :=
  (match outcome m with
   | Return a => Returned a
   | Throw e => Threw (Base e)
   end, Telemetry <$> calls m).

#[local] Instance Run_ret : MRet Run := @ret.
#[local] Instance Run_bind : MBind Run := fun A B k m => bind m k.

Definition result {A} (m : Run A) : Result A := fst m.
Definition effects {A} (m : Run A) : list Effect := snd m.

(** [`${v}`]: the conversion of a value to a string in a template. *)
Definition ToString (other : JsValue -> string) (v : JsValue) : string :=
  match v with
  | JsString s => s
  | JsUndefined => "undefined"
  | JsNull => "null"
  | JsBool true => "true"
  | JsBool false => "false"
  | _ => other v
  end.

(** [Buffer.from(data, encoding)] *)
Definition Buffer_from_ (d : Services) (data encoding : string) : Run Buffer :=
  match Buffer_from d data encoding with
  | inr buffer => ret buffer
  | inl error => throw (Base (Error_ error))
  end.

(** The properties the object literal of [handleGetAssets] gives the
    filter, before the authorization filters are spread over it. *)
Definition requestedFilter (filteredRequest : HttpAssetsRequest)
    (flags : HttpAssetsFlags) : JsObj :=
  {[ "search" := ofString (Search filteredRequest);
     "siteAreaIDs" :=
       ofStrings (if truthy (SiteAreaID filteredRequest)
                  then Some (split BAR (str (SiteAreaID filteredRequest)))
                  else None);
     "siteIDs" :=
       ofStrings (if truthy (SiteID filteredRequest)
                  then Some (split BAR (str (SiteID filteredRequest)))
                  else None);
     "withSiteArea" := WithSiteArea flags;
     "withNoSiteArea" := WithNoSiteArea flags;
     "dynamicOnly" := DynamicOnly flags ]}.

(** ** The handlers *)

Section Handlers.
Context (c : Collaborators) (d : Services).

Definition handleDeleteAsset (action : ServerAction.t) (req : HttpRequest.t)
  : Run unit :=
  (* Check if component is active *)
  _ ← lift (assert (assertComponentIsActiveFromToken d (HttpRequest.user req)
                      TenantComponents.ASSET Action.DELETE Entity.ASSET
                      MODULE_NAME "handleDeleteAsset"));
  (* Filter *)
  let filteredRequest := filterAssetRequest d (HttpRequest.query req) in
  (* Check Mandatory fields *)
  _ ← lift (assert (assertIdIsProvided c action
                      (HttpAssetRequest.ID filteredRequest) MODULE_NAME
                      "handleDeleteAsset" (HttpRequest.user req)));
  (* Check auth *)
  if negb (canDeleteAsset d (HttpRequest.user req)) then
    throw (AppAuthError_ {|
      AppAuthError.errorCode := HTTPAuthError.FORBIDDEN;
      AppAuthError.user := HttpRequest.user req;
      AppAuthError.action := Action.DELETE;
      AppAuthError.entity := Entity.ASSET;
      AppAuthError.module := MODULE_NAME;
      AppAuthError.method := "handleDeleteAsset";
      AppAuthError.value := Some (HttpAssetRequest.ID filteredRequest) |})
  else
  (* Get *)
  let params : JsObj :=
    {[ "withSiteArea" := HttpAssetRequest.WithSiteArea filteredRequest ]} in
  asset ← lift (call (AssetStorage_getAsset (tenantID (HttpRequest.user req))
                        (HttpAssetRequest.ID filteredRequest) (Some params) None)
                     (getAsset c (tenantID (HttpRequest.user req))
                        (HttpAssetRequest.ID filteredRequest) (Some params) None));
  (* Found? *)
  asset ← lift (assertObjectExists action asset
                  ("Asset ID '" ++ HttpAssetRequest.ID filteredRequest ++
                   "' does not exist")
                  MODULE_NAME "handleDeleteAsset" (HttpRequest.user req));
  (* Delete *)
  _ ← perform (AssetStorage_deleteAsset (tenantID (HttpRequest.user req))
                 (get asset "id")) tt;
  (* Log *)
  _ ← perform (Logging_logSecurityInfo {|
        Log.tenantID := tenantID (HttpRequest.user req);
        Log.user := HttpRequest.user req;
        Log.module := MODULE_NAME;
        Log.method := "handleDeleteAsset";
        Log.message :=
          "Asset '" ++ ToString (ToString_other d) (get asset "name") ++
          "' has been deleted successfully";
        Log.action := action;
        Log.detailedMessages := JsObject {[ "asset" := JsObject asset ]} |}) tt;
  (* Ok *)
  _ ← perform (Telemetry (res_json (JsObject (REST_RESPONSE_SUCCESS c)))) tt;
  perform (Telemetry next) tt.

Definition handleGetAsset (action : ServerAction.t) (req : HttpRequest.t)
  : Run unit :=
  (* Check if component is active *)
  _ ← lift (assert (assertComponentIsActiveFromToken d (HttpRequest.user req)
                      TenantComponents.ASSET Action.READ Entity.ASSET
                      MODULE_NAME "handleGetAsset"));
  (* Filter *)
  let filteredRequest := filterAssetRequest d (HttpRequest.query req) in
  (* ID is mandatory *)
  _ ← lift (assert (assertIdIsProvided c action
                      (HttpAssetRequest.ID filteredRequest) MODULE_NAME
                      "handleGetAsset" (HttpRequest.user req)));
  (* Check auth *)
  if negb (canReadAsset c (HttpRequest.user req)) then
    throw (AppAuthError_ {|
      AppAuthError.errorCode := HTTPAuthError.FORBIDDEN;
      AppAuthError.user := HttpRequest.user req;
      AppAuthError.action := Action.READ;
      AppAuthError.entity := Entity.ASSET;
      AppAuthError.module := MODULE_NAME;
      AppAuthError.method := "handleGetAsset";
      AppAuthError.value := Some (HttpAssetRequest.ID filteredRequest) |})
  else
  (* Get it *)
  let params : JsObj :=
    {[ "withSiteArea" := HttpAssetRequest.WithSiteArea filteredRequest ]} in
  asset ← lift (call (AssetStorage_getAsset (tenantID (HttpRequest.user req))
                        (HttpAssetRequest.ID filteredRequest) (Some params) None)
                     (getAsset c (tenantID (HttpRequest.user req))
                        (HttpAssetRequest.ID filteredRequest) (Some params) None));
  asset ← lift (assertObjectExists action asset
                  ("Asset ID '" ++ HttpAssetRequest.ID filteredRequest ++
                   "' does not exist")
                  MODULE_NAME "handleGetAsset" (HttpRequest.user req));
  _ ← perform (Telemetry (res_json (JsObject asset))) tt;
  perform (Telemetry next) tt.

Definition handleGetAssetImage (action : ServerAction.t) (req : HttpRequest.t)
  : Run unit :=
  (* Filter *)
  let filteredRequest := filterAssetImageRequest d (HttpRequest.query req) in
  _ ← lift (assert (assertIdIsProvided c action
                      (HttpAssetImageRequest.ID filteredRequest) MODULE_NAME
                      "handleGetAssetImage" (HttpRequest.user req)));
  (* Get it *)
  assetImage ← perform (AssetStorage_getAssetImage
                          (HttpAssetImageRequest.TenantID filteredRequest)
                          (HttpAssetImageRequest.ID filteredRequest))
                       (getAssetImage d
                          (HttpAssetImageRequest.TenantID filteredRequest)
                          (HttpAssetImageRequest.ID filteredRequest));
  (* Return *)
  _ ← (if truthy (assetImage ≫= AssetImage.image) then
         let image := str (assetImage ≫= AssetImage.image) in
         let header := "image" in
         let encoding := "base64" in
         (* Remove encoding header *)
         let '(header, encoding, image) :=
           if startsWith image "data:image/" then
             (substring image 5 (indexOf image SEMICOLON),
              substring image (indexOf image SEMICOLON + 1) (indexOf image COMMA),
              substringFrom image (indexOf image COMMA + 1))
           else (header, encoding, image) in
         _ ← perform (res_setHeader "content-type" header) tt;
         body ← (if truthy (Some image)
                 then buffer ← Buffer_from_ d image encoding; ret (Some buffer)
                 else ret None);
         perform (res_send body) tt
       else perform (res_send None) tt);
  perform (Telemetry next) tt.

Definition handleGetAssets (action : ServerAction.t) (req : HttpRequest.t)
  : Run unit :=
  (* Check if component is active *)
  _ ← lift (assert (assertComponentIsActiveFromToken d (HttpRequest.user req)
                      TenantComponents.ASSET Action.LIST Entity.ASSETS
                      MODULE_NAME "handleGetAssets"));
  (* Check auth *)
  if negb (canListAssets d (HttpRequest.user req)) then
    throw (AppAuthError_ {|
      AppAuthError.errorCode := HTTPAuthError.FORBIDDEN;
      AppAuthError.user := HttpRequest.user req;
      AppAuthError.action := Action.LIST;
      AppAuthError.entity := Entity.ASSETS;
      AppAuthError.module := MODULE_NAME;
      AppAuthError.method := "handleGetAssets";
      AppAuthError.value := None |})
  else
  (* Filter *)
  let filteredRequest := filterAssetsRequest c (HttpRequest.query req) in
  let flags := filterAssetsFlags d (HttpRequest.query req) in
  (* Get authorization filters *)
  authorizationAssetsFilters ←
    perform (AuthorizationService_checkAndGetAssetsAuthorizationFilters
               (HttpRequest.tenant req) (HttpRequest.user req)
               filteredRequest flags)
            (checkAndGetAssetsAuthorizationFilters d
               (HttpRequest.tenant req) (HttpRequest.user req)
               filteredRequest flags);
  if negb (authorized authorizationAssetsFilters) then
    perform UtilsService_sendEmptyDataResult tt
  else
  (* Get the assets *)
  let filter := Object_assign (requestedFilter filteredRequest flags)
                              (filters authorizationAssetsFilters) in
  let dbParams := {| limit := Limit filteredRequest;
                     skip := Skip filteredRequest;
                     sort := SortFields filteredRequest;
                     onlyRecordCount := OnlyRecordCount filteredRequest |} in
  assets ← perform (AssetStorage_getAssets (tenantID (HttpRequest.user req))
                      filter dbParams
                      (projectFields authorizationAssetsFilters))
                   (getAssets d (tenantID (HttpRequest.user req))
                      filter dbParams
                      (projectFields authorizationAssetsFilters));
  _ ← perform (Telemetry (res_json assets)) tt;
  perform (Telemetry next) tt.

(** [siteArea ? siteArea.siteID : null] *)
Definition siteIDOf (siteArea : option JsObj) : JsValue :=
  match siteArea with
  | Some siteArea => get siteArea "siteID"
  | None => JsNull
  end.

(** The site area a request names, looked up when it names one. *)
Definition checkSiteArea (action : ServerAction.t) (req : HttpRequest.t)
    (filteredRequest : JsObj) (method : string) : Run (option JsObj) :=
  if toBoolean (get filteredRequest "siteAreaID") then
    siteArea ← perform (SiteAreaStorage_getSiteArea
                          (tenantID (HttpRequest.user req))
                          (get filteredRequest "siteAreaID"))
                       (getSiteArea d (tenantID (HttpRequest.user req))
                          (get filteredRequest "siteAreaID"));
    siteArea ← lift (assertObjectExists action siteArea
                       ("Site Area ID '" ++
                        ToString (ToString_other d)
                          (get filteredRequest "siteAreaID") ++
                        "' does not exist")
                       MODULE_NAME method (HttpRequest.user req));
    ret (Some siteArea)
  else ret None.

Definition handleCreateAsset (action : ServerAction.t) (req : HttpRequest.t)
  : Run unit :=
  (* Check if component is active *)
  _ ← lift (assert (assertComponentIsActiveFromToken d (HttpRequest.user req)
                      TenantComponents.ASSET Action.CREATE Entity.ASSET
                      MODULE_NAME "handleCreateAsset"));
  (* Check auth *)
  if negb (canCreateAsset d (HttpRequest.user req)) then
    throw (AppAuthError_ {|
      AppAuthError.errorCode := HTTPAuthError.FORBIDDEN;
      AppAuthError.user := HttpRequest.user req;
      AppAuthError.action := Action.CREATE;
      AppAuthError.entity := Entity.ASSET;
      AppAuthError.module := MODULE_NAME;
      AppAuthError.method := "handleCreateAsset";
      AppAuthError.value := None |})
  else
  (* Filter *)
  let filteredRequest := filterAssetCreateRequest d (HttpRequest.body req) in
  (* Check Asset *)
  _ ← lift (assert (checkIfAssetValid d filteredRequest req));
  (* Check Site Area *)
  siteArea ← checkSiteArea action req filteredRequest "handleCreateAsset";
  (* Create asset *)
  let newAsset : JsObj := ∅ in
  let newAsset := set newAsset "name" (get filteredRequest "name") in
  let newAsset := set newAsset "siteAreaID" (get filteredRequest "siteAreaID") in
  let newAsset := set newAsset "siteID" (siteIDOf siteArea) in
  let newAsset := set newAsset "assetType" (get filteredRequest "assetType") in
  let newAsset := set newAsset "excludeFromSmartCharging"
                    (get filteredRequest "excludeFromSmartCharging") in
  let newAsset := set newAsset "fluctuationPercent"
                    (get filteredRequest "fluctuationPercent") in
  let newAsset := set newAsset "staticValueWatt"
                    (get filteredRequest "staticValueWatt") in
  let newAsset := set newAsset "coordinates" (get filteredRequest "coordinates") in
  let newAsset := set newAsset "image" (get filteredRequest "image") in
  let newAsset := set newAsset "dynamicAsset" (get filteredRequest "dynamicAsset") in
  let newAsset := set newAsset "connectionID" (get filteredRequest "connectionID") in
  let newAsset := set newAsset "meterID" (get filteredRequest "meterID") in
  let newAsset := set newAsset "createdBy"
                    (JsObject {[ "id" := JsString (user_id (HttpRequest.user req)) ]}) in
  let newAsset := set newAsset "createdOn" (JsDate (now d)) in
  (* Save *)
  id ← lift (call (AssetStorage_saveAsset (tenantID (HttpRequest.user req))
                     newAsset)
                  (saveAsset d (tenantID (HttpRequest.user req)) newAsset));
  let newAsset := set newAsset "id" (JsString id) in
  (* Log *)
  _ ← perform (Logging_logSecurityInfo {|
        Log.tenantID := tenantID (HttpRequest.user req);
        Log.user := HttpRequest.user req;
        Log.module := MODULE_NAME;
        Log.method := "handleCreateAsset";
        Log.message := "Asset '" ++ id ++ "' has been created successfully";
        Log.action := action;
        Log.detailedMessages := JsObject {[ "asset" := JsObject newAsset ]} |}) tt;
  (* Ok *)
  _ ← perform (Telemetry (res_json (JsObject
        (Object_assign {[ "id" := get newAsset "id" ]}
                       (REST_RESPONSE_SUCCESS c))))) tt;
  perform (Telemetry next) tt.

Definition handleUpdateAsset (action : ServerAction.t) (req : HttpRequest.t)
  : Run unit :=
  (* Check if component is active *)
  _ ← lift (assert (assertComponentIsActiveFromToken d (HttpRequest.user req)
                      TenantComponents.ASSET Action.UPDATE Entity.ASSET
                      MODULE_NAME "handleUpdateAsset"));
  (* Filter *)
  let '(id, filteredRequest) :=
    filterAssetUpdateRequest d (HttpRequest.body req) in
  (* Check auth *)
  if negb (canUpdateAsset d (HttpRequest.user req)) then
    throw (AppAuthError_ {|
      AppAuthError.errorCode := HTTPAuthError.FORBIDDEN;
      AppAuthError.user := HttpRequest.user req;
      AppAuthError.action := Action.UPDATE;
      AppAuthError.entity := Entity.ASSET;
      AppAuthError.module := MODULE_NAME;
      AppAuthError.method := "handleUpdateAsset";
      AppAuthError.value := Some id |})
  else
  (* Check Site Area *)
  siteArea ← checkSiteArea action req filteredRequest "handleUpdateAsset";
  (* Check email *)
  asset ← lift (call (AssetStorage_getAsset (tenantID (HttpRequest.user req))
                        id None None)
                     (getAsset c (tenantID (HttpRequest.user req)) id None None));
  (* Check *)
  asset ← lift (assertObjectExists action asset
                  ("Site Area ID '" ++ id ++ "' does not exist")
                  MODULE_NAME "handleUpdateAsset" (HttpRequest.user req));
  (* Check Mandatory fields *)
  _ ← lift (assert (checkIfAssetValid d filteredRequest req));
  (* Update *)
  let asset := set asset "name" (get filteredRequest "name") in
  let asset := set asset "siteAreaID" (get filteredRequest "siteAreaID") in
  let asset := set asset "siteID" (siteIDOf siteArea) in
  let asset := set asset "assetType" (get filteredRequest "assetType") in
  let asset := set asset "excludeFromSmartCharging"
                 (get filteredRequest "excludeFromSmartCharging") in
  let asset := set asset "fluctuationPercent"
                 (get filteredRequest "fluctuationPercent") in
  let asset := set asset "staticValueWatt" (get filteredRequest "staticValueWatt") in
  let asset := set asset "coordinates" (get filteredRequest "coordinates") in
  let asset := set asset "image" (get filteredRequest "image") in
  let asset := set asset "dynamicAsset" (get filteredRequest "dynamicAsset") in
  let asset := set asset "connectionID" (get filteredRequest "connectionID") in
  let asset := set asset "meterID" (get filteredRequest "meterID") in
  let asset := set asset "lastChangedBy"
                 (JsObject {[ "id" := JsString (user_id (HttpRequest.user req)) ]}) in
  let asset := set asset "lastChangedOn" (JsDate (now d)) in
  (* Update Asset *)
  _ ← lift (call (AssetStorage_saveAsset (tenantID (HttpRequest.user req)) asset)
                 (saveAsset d (tenantID (HttpRequest.user req)) asset));
  (* Log *)
  _ ← perform (Logging_logSecurityInfo {|
        Log.tenantID := tenantID (HttpRequest.user req);
        Log.user := HttpRequest.user req;
        Log.module := MODULE_NAME;
        Log.method := "handleUpdateAsset";
        Log.message :=
          "Asset '" ++ ToString (ToString_other d) (get asset "name") ++
          "' has been updated successfully";
        Log.action := action;
        Log.detailedMessages := JsObject {[ "asset" := JsObject asset ]} |}) tt;
  (* Ok *)
  _ ← perform (Telemetry (res_json (JsObject (REST_RESPONSE_SUCCESS c)))) tt;
  perform (Telemetry next) tt.

End Handlers.

(** ** Observations on the effects of a run *)

(** The assets handed to [AssetStorage.saveAsset], in order. *)
Definition saved (l : list Effect) : list (string * JsObj) :=
  omap (fun x => match x with
                 | Telemetry (AssetStorage_saveAsset t a) => Some (t, a)
                 | _ => None
                 end) l.

(** The identifiers handed to [AssetStorage.deleteAsset], in order. *)
Definition deleted (l : list Effect) : list (string * JsValue) :=
  omap (fun x => match x with
                 | AssetStorage_deleteAsset t i => Some (t, i)
                 | _ => None
                 end) l.

(** The bodies handed to [res.json], in order. *)
Definition answers (l : list Effect) : list JsValue :=
  omap (fun x => match x with
                 | Telemetry (res_json b) => Some b
                 | _ => None
                 end) l.

(** The headers set and the bodies sent, in order. *)
Definition headers (l : list Effect) : list (string * string) :=
  omap (fun x => match x with res_setHeader n v => Some (n, v) | _ => None end) l.

Definition sent (l : list Effect) : list (option Buffer) :=
  omap (fun x => match x with res_send b => Some b | _ => None end) l.

(** The queries made to [AssetStorage.getAssets]: the filter and the
    projected fields. *)
Definition listed (l : list Effect) : list (JsObj * JsValue) :=
  omap (fun x => match x with
                 | AssetStorage_getAssets _ f _ p => Some (f, p)
                 | _ => None
                 end) l.

(** The assets looked up through [AssetStorage.getAsset]. *)
Definition loaded (l : list Effect) : list (string * string) :=
  omap (fun x => match x with
                 | Telemetry (AssetStorage_getAsset t i _ _) => Some (t, i)
                 | _ => None
                 end) l.

(** The properties [handleUpdateAsset] assigns, in its order. *)
Definition updates (filteredRequest : JsObj) (siteArea : option JsObj)
    (user : UserToken) (now : Date) : list (string * JsValue) :=
  [("name", get filteredRequest "name");
   ("siteAreaID", get filteredRequest "siteAreaID");
   ("siteID", siteIDOf siteArea);
   ("assetType", get filteredRequest "assetType");
   ("excludeFromSmartCharging", get filteredRequest "excludeFromSmartCharging");
   ("fluctuationPercent", get filteredRequest "fluctuationPercent");
   ("staticValueWatt", get filteredRequest "staticValueWatt");
   ("coordinates", get filteredRequest "coordinates");
   ("image", get filteredRequest "image");
   ("dynamicAsset", get filteredRequest "dynamicAsset");
   ("connectionID", get filteredRequest "connectionID");
   ("meterID", get filteredRequest "meterID");
   ("lastChangedBy", JsObject {[ "id" := JsString (user_id user) ]});
   ("lastChangedOn", JsDate now)].

(** The properties the object literal of [handleCreateAsset] defines. *)
Definition creations (filteredRequest : JsObj) (siteArea : option JsObj)
    (user : UserToken) (now : Date) : list (string * JsValue) :=
  [("name", get filteredRequest "name");
   ("siteAreaID", get filteredRequest "siteAreaID");
   ("siteID", siteIDOf siteArea);
   ("assetType", get filteredRequest "assetType");
   ("excludeFromSmartCharging", get filteredRequest "excludeFromSmartCharging");
   ("fluctuationPercent", get filteredRequest "fluctuationPercent");
   ("staticValueWatt", get filteredRequest "staticValueWatt");
   ("coordinates", get filteredRequest "coordinates");
   ("image", get filteredRequest "image");
   ("dynamicAsset", get filteredRequest "dynamicAsset");
   ("connectionID", get filteredRequest "connectionID");
   ("meterID", get filteredRequest "meterID");
   ("createdBy", JsObject {[ "id" := JsString (user_id user) ]});
   ("createdOn", JsDate now)].

(** The properties of an asset that come from the request as they are. *)
Definition requestProperties : list string :=
  ["name"; "siteAreaID"; "assetType"; "excludeFromSmartCharging";
   "fluctuationPercent"; "staticValueWatt"; "coordinates"; "image";
   "dynamicAsset"; "connectionID"; "meterID"].

(** The site area a request names, as the storage knows it. *)
Definition siteAreaOf (d : Services) (req : HttpRequest.t)
    (filteredRequest : JsObj) : option JsObj :=
  if toBoolean (get filteredRequest "siteAreaID")
  then getSiteArea d (tenantID (HttpRequest.user req))
         (get filteredRequest "siteAreaID")
  else None.

(** A request that names a site area names one the storage knows. *)
Definition siteAreaKnown (d : Services) (req : HttpRequest.t)
    (filteredRequest : JsObj) : Prop :=
  toBoolean (get filteredRequest "siteAreaID") = true ->
  is_Some (getSiteArea d (tenantID (HttpRequest.user req))
             (get filteredRequest "siteAreaID")).

End Crud.

(** ** A scenario for the other handlers *)

Module CrudScenario.



(** A historical query whose start is an invalid date. *)
Definition undated : Collaborators :=
  Scenario.world true None (Some InvalidDate, Some (TimeValue 0))
    Scenario.noListing.

Definition siteArea : JsObj :=
  {[ "id" := JsString "sa1"; "siteID" := JsString "site1" ]}.

Definition text (v : JsValue) : string :=
  match v with JsString s => s | _ => "" end.

(** Services that let [allowed] through, store [image] for every asset,
    know the site area sa1 and answer the authorization filters given; the
    buffer of a string is its bytes, whatever the encoding. *)
Definition services (allowed : bool) (image : option string)
    (authorization : Crud.AuthorizationFilter) : Crud.Services :=
  {| Crud.assertComponentIsActiveFromToken := fun _ _ _ _ _ _ => None;
     Crud.checkIfAssetValid := fun _ _ => None;
     Crud.canDeleteAsset := fun _ => allowed;
     Crud.canListAssets := fun _ => allowed;
     Crud.canCreateAsset := fun _ => allowed;
     Crud.canUpdateAsset := fun _ => allowed;
     Crud.filterAssetRequest := fun q =>
       {| Crud.HttpAssetRequest.ID := text (get q "ID");
          Crud.HttpAssetRequest.WithSiteArea := get q "WithSiteArea" |};
     Crud.filterAssetImageRequest := fun q =>
       {| Crud.HttpAssetImageRequest.ID := text (get q "ID");
          Crud.HttpAssetImageRequest.TenantID := "t1" |};
     Crud.filterAssetsFlags := fun q =>
       {| Crud.WithSiteArea := get q "WithSiteArea";
          Crud.WithNoSiteArea := get q "WithNoSiteArea";
          Crud.DynamicOnly := get q "DynamicOnly" |};
     Crud.filterAssetCreateRequest := fun b => b;
     Crud.filterAssetUpdateRequest := fun b => (text (get b "id"), b);
     Crud.checkAndGetAssetsAuthorizationFilters := fun _ _ _ _ => authorization;
     Crud.saveAsset := fun _ _ => "A9";
     Crud.getAssetImage := fun _ id =>
       Some {| Crud.AssetImage.asset_id := id; Crud.AssetImage.image := image |};
     Crud.getAssets := fun _ _ _ _ => JsArray [];
     Crud.getSiteArea := fun _ id =>
       if String.eqb (text id) "sa1" then Some siteArea else None;
     Crud.Buffer_from := fun data _ => inr (list_byte_of_string data);
     Crud.ToString_other := fun _ => "[object Object]";
     Crud.now := TimeValue 1700000000000 |}.

(** Authorization filters that restrict a listing to the site site1. *)
Definition restricted : Crud.AuthorizationFilter :=
  {| Crud.authorized := true;
     Crud.filters := {[ "siteIDs" := JsArray [JsString "site1"] ]};
     Crud.projectFields := JsArray [JsString "id"; JsString "name"] |}.

Definition unauthorized : Crud.AuthorizationFilter :=
  {| Crud.authorized := false; Crud.filters := ∅;
     Crud.projectFields := JsUndefined |}.

Definition request (id : string) (body : JsObj) : Crud.HttpRequest.t :=
  {| Crud.HttpRequest.base := Scenario.request id;
     Crud.HttpRequest.tenant := JsString "t1";
     Crud.HttpRequest.body := body |}.

(** The body of a request that moves the asset A1 to the site area given. *)
Definition move (siteAreaID : string) : JsObj :=
  {[ "id" := JsString "A1"; "name" := JsString "Battery";
     "siteAreaID" := JsString siteAreaID; "assetType" := JsString "CO" ]}.

End CrudScenario.


(** * Properties *)

(** ** The monad *)

Lemma bind_ret {A B} (a : A) (k : A -> M B) : ret a ≫= k = k a.
Proof. unfold mbind, M_bind, bind, ret. destruct (k a); reflexivity. Qed.

Lemma bind_throw {A B} (e : Exception) (k : A -> M B) : throw e ≫= k = throw e.
Proof. reflexivity. Qed.

Lemma bind_call {A B} (x : Call) (a : A) (k : A -> M B) :
  call x a ≫= k = (outcome (k a), x :: calls (k a)).
Proof. unfold mbind, M_bind, bind, call. destruct (k a); reflexivity. Qed.

Lemma bind_bind {A B C} (m : M A) (k : A -> M B) (h : B -> M C) :
  (m ≫= k) ≫= h = m ≫= (fun a => k a ≫= h).
Proof.
  unfold mbind, M_bind, bind.
  destruct m as [[a|e] l]; [|reflexivity].
  destruct (k a) as [[b|e] l']; [|reflexivity].
  destruct (h b) as [r l'']. by rewrite app_assoc.
Qed.

Lemma assert_None {B} (k : unit -> M B) : assert None ≫= k = k tt.
Proof. apply bind_ret. Qed.

Lemma assert_Some {B} (e : Exception) (k : unit -> M B) :
  assert (Some e) ≫= k = throw e.
Proof. reflexivity. Qed.

(** ** Objects *)

Lemma get_set_eq (o : JsObj) k v : get (set o k v) k = v.
Proof. unfold get, set. by rewrite lookup_insert_eq. Qed.

Lemma get_set_ne (o : JsObj) k k' v : k ≠ k' -> get (set o k v) k' = get o k'.
Proof. intros. unfold get, set. by rewrite lookup_insert_ne. Qed.

Lemma assign_own (target source : JsObj) k :
  source !! k = None -> Object_assign target source !! k = target !! k.
Proof. intros H. unfold Object_assign. by rewrite lookup_union_r. Qed.

Lemma assign_source (target source : JsObj) k v :
  source !! k = Some v -> Object_assign target source !! k = Some v.
Proof. intros H. unfold Object_assign. by apply lookup_union_Some_l. Qed.

(** What a connection check answers can be read back, as long as the
    success constant has no property of that name. *)
Lemma connectionIsValid_read c valid :
  REST_RESPONSE_SUCCESS c !! "connectionIsValid" = None ->
  connectionIsValid c valid = JsObject (Object_assign
    {[ "connectionIsValid" := JsBool valid ]} (REST_RESPONSE_SUCCESS c)) ∧
  get (Object_assign {[ "connectionIsValid" := JsBool valid ]}
         (REST_RESPONSE_SUCCESS c)) "connectionIsValid" = JsBool valid.
Proof.
  intros Hfree. split; [reflexivity|].
  unfold get. rewrite assign_own by assumption.
  by rewrite lookup_singleton_eq.
Qed.

(** The properties outside [fields] are those of [onto]. *)
Lemma overlay_other fields (from onto : JsObj) k :
  k ∉ fields -> overlay fields from onto !! k = onto !! k.
Proof.
  unfold overlay. revert onto.
  induction fields as [|f fields IH]; intros onto Hk; [reflexivity|].
  apply not_elem_of_cons in Hk as [Hne Hk].
  cbn [foldl]. rewrite IH by assumption.
  unfold set. by rewrite lookup_insert_ne.
Qed.

(** The properties in [fields] are those of [from], [undefined] included. *)
Lemma overlay_field fields (from onto : JsObj) k :
  k ∈ fields -> overlay fields from onto !! k = Some (get from k).
Proof.
  unfold overlay. revert onto.
  induction fields as [|f fields IH]; intros onto Hk.
  - by apply elem_of_nil in Hk.
  - cbn [foldl]. destruct (decide (k ∈ fields)) as [Hin|Hout].
    + by apply IH.
    + apply elem_of_cons in Hk as [->|Hin]; [|done].
      fold (overlay fields from (set onto f (get from f))).
      rewrite overlay_other by assumption.
      unfold set. by rewrite lookup_insert_eq.
Qed.

Lemma liveStateFields_NoDup : NoDup liveStateFields.
Proof. apply (bool_decide_unpack _). vm_compute. reflexivity. Qed.

(** ** [split] *)

Example split_bar : split BAR "s1|s2" = ["s1"; "s2"].
Proof. reflexivity. Qed.

Example split_keeps_empty_pieces : split BAR "a||b|" = ["a"; ""; "b"; ""].
Proof. reflexivity. Qed.

Example split_empty : split BAR "" = [""].
Proof. reflexivity. Qed.

Lemma split_nonempty sep s : split sep s ≠ [].
Proof.
  destruct s as [|ch s]; cbn; [discriminate|].
  destruct (Ascii.eqb ch sep); [discriminate|].
  destruct (split sep s); discriminate.
Qed.

(** Joining the pieces with the separator gives the string back. *)
Lemma join_split sep s : join sep (split sep s) = s.
Proof.
  induction s as [|ch s IH]; [reflexivity|].
  cbn [split]. destruct (Ascii.eqb ch sep) eqn:E.
  - apply Ascii.eqb_eq in E as ->.
    pose proof (split_nonempty sep s) as Hne.
    destruct (split sep s) as [|p ps]; [done|].
    by rewrite <- IH.
  - pose proof (split_nonempty sep s) as Hne.
    destruct (split sep s) as [|p ps]; [done|].
    rewrite <- IH. by destruct ps.
Qed.

(** No piece contains the separator. *)
Lemma split_pieces_free sep s :
  Forall (fun piece => occurrences sep piece = 0%nat) (split sep s).
Proof.
  induction s as [|ch s IH]; cbn [split].
  - by constructor.
  - destruct (Ascii.eqb ch sep) eqn:E.
    + by constructor.
    + destruct (split sep s) as [|p ps]; cbn.
      * constructor; [by cbn; rewrite E | constructor].
      * apply Forall_cons in IH as [Hp Hps].
        constructor; [by cbn; rewrite E | done].
Qed.

(** There is one more piece than there are separators. *)
Lemma length_split sep s : length (split sep s) = S (occurrences sep s).
Proof.
  induction s as [|ch s IH]; [reflexivity|].
  cbn [split occurrences]. destruct (Ascii.eqb ch sep).
  - cbn. by rewrite IH.
  - pose proof (split_nonempty sep s) as Hne.
    destruct (split sep s) as [|p ps]; [done|]. cbn in *. lia.
Qed.

Lemma split_free sep s : occurrences sep s = 0%nat -> split sep s = [s].
Proof.
  induction s as [|ch s IH]; [reflexivity|].
  cbn [split occurrences]. destruct (Ascii.eqb ch sep); [discriminate|].
  intros H. by rewrite IH.
Qed.

Lemma split_String sep ch s :
  split sep (String ch s) =
  if Ascii.eqb ch sep then EmptyString :: split sep s
  else match split sep s with
       | piece :: pieces => String ch piece :: pieces
       | [] => [String ch EmptyString]
       end.
Proof. reflexivity. Qed.

Lemma split_app_free sep p rest :
  occurrences sep p = 0%nat ->
  split sep (p ++ String sep rest) = p :: split sep rest.
Proof.
  induction p as [|ch p IH]; intros H.
  - change ("" ++ String sep rest) with (String sep rest).
    by rewrite split_String, Ascii.eqb_refl.
  - cbn [occurrences] in H.
    change (String ch p ++ String sep rest)
      with (String ch (p ++ String sep rest)).
    rewrite split_String.
    destruct (Ascii.eqb ch sep); [discriminate|].
    by rewrite IH.
Qed.

(** [split] is the only way to cut a string into separator-free pieces. *)
Lemma split_join sep pieces :
  pieces ≠ [] ->
  Forall (fun piece => occurrences sep piece = 0%nat) pieces ->
  split sep (join sep pieces) = pieces.
Proof.
  induction pieces as [|p ps IH]; [done|].
  intros _ Hfree. apply Forall_cons in Hfree as [Hp Hps].
  destruct ps as [|q ps].
  - cbn [join]. by apply split_free.
  - change (join sep (p :: q :: ps)) with (p ++ String sep (join sep (q :: ps))).
    rewrite split_app_free by assumption.
    by rewrite IH.
Qed.

(** ** Dates *)

Example iso_epoch : isoOfTimeValue 0 = "1970-01-01T00:00:00.000Z".
Proof. reflexivity. Qed.

Example iso_before_epoch : isoOfTimeValue (-1) = "1969-12-31T23:59:59.999Z".
Proof. reflexivity. Qed.

Example iso_leap_day :
  isoOfTimeValue 1709251199999 = "2024-02-29T23:59:59.999Z".
Proof. reflexivity. Qed.

Example iso_century_leap_day :
  isoOfTimeValue 951782400000 = "2000-02-29T00:00:00.000Z".
Proof. reflexivity. Qed.

Example iso_year_10000 :
  isoOfTimeValue 253402300800000 = "+010000-01-01T00:00:00.000Z".
Proof. reflexivity. Qed.

Example iso_year_before_0 :
  isoOfTimeValue (-62167219200001) = "-000001-12-31T23:59:59.999Z".
Proof. reflexivity. Qed.

Lemma isAfter_true a b :
  isAfter a b = true <-> exists x y, a = TimeValue x ∧ b = TimeValue y ∧ y < x.
Proof.
  split.
  - destruct a as [x|], b as [y|]; cbn; try discriminate.
    intros H. exists x, y. repeat split. by apply Z.ltb_lt.
  - intros (x & y & -> & -> & H). cbn. by apply Z.ltb_lt.
Qed.

Lemma length_append (s t : string) :
  String.length (s ++ t) = (String.length s + String.length t)%nat.
Proof. induction s as [|ch s IH]; simpl; [reflexivity | by f_equal]. Qed.

(** A padded number has the width asked for, whatever the number. *)
Lemma length_padded width n : String.length (padded width n) = width.
Proof.
  revert n. induction width as [|w IH]; intros n; [reflexivity|].
  cbn [padded]. rewrite length_append, IH. cbn. lia.
Qed.

(** ** Runs of [handleRetrieveConsumption] *)

Section RetrieveRuns.
Context (c : Collaborators) (action : ServerAction.t) (req : Request.t).

Local Abbreviation tenant := (tenantID (Request.user req)).
Local Abbreviation assetID := (filterAssetRequestByID c (Request.query req)).

Ltac enter H :=
  destruct H as (Hactive & Hauth & Hid & Hget);
  unfold handleRetrieveConsumption;
  rewrite Hactive, assert_None, Hauth; cbn [negb];
  rewrite Hid, assert_None, Hget, bind_call;
  unfold assertObjectExists; rewrite bind_ret.

Lemma retrieve_not_dynamic asset :
  loads c action req asset ->
  toBoolean (get asset "dynamicAsset") = false ->
  handleRetrieveConsumption c action req =
  (Throw (InvalidOperation action req asset),
   [AssetStorage_getAsset tenant assetID None None]).
Proof. intros H Hdyn. enter H. rewrite Hdyn. reflexivity. Qed.

Lemma retrieve_not_configured asset :
  loads c action req asset ->
  toBoolean (get asset "dynamicAsset") = true ->
  getAssetImpl c tenant (get asset "connectionID") = None ->
  handleRetrieveConsumption c action req =
  (Throw NotConfigured_retrieve,
   [AssetStorage_getAsset tenant assetID None None;
    AssetFactory_getAssetImpl tenant (get asset "connectionID")]).
Proof.
  intros H Hdyn Himpl. enter H. rewrite Hdyn. cbn [negb].
  rewrite bind_call, Himpl. reflexivity.
Qed.

Lemma retrieve_rejected asset impl error :
  loads c action req asset ->
  toBoolean (get asset "dynamicAsset") = true ->
  getAssetImpl c tenant (get asset "connectionID") = Some impl ->
  retrieveConsumptions impl asset true = Rejected error ->
  handleRetrieveConsumption c action req =
  (Throw (Error_ error),
   [AssetStorage_getAsset tenant assetID None None;
    AssetFactory_getAssetImpl tenant (get asset "connectionID");
    AssetIntegration_retrieveConsumptions asset true]).
Proof.
  intros H Hdyn Himpl Hret. enter H. rewrite Hdyn. cbn [negb].
  rewrite bind_call, Himpl. cbn [outcome calls fst snd].
  rewrite Hret. reflexivity.
Qed.

Lemma retrieve_rejected_nullish asset impl reason :
  loads c action req asset ->
  toBoolean (get asset "dynamicAsset") = true ->
  getAssetImpl c tenant (get asset "connectionID") = Some impl ->
  retrieveConsumptions impl asset true = RejectedNullish reason ->
  handleRetrieveConsumption c action req =
  (Throw (Nullish_ reason),
   [AssetStorage_getAsset tenant assetID None None;
    AssetFactory_getAssetImpl tenant (get asset "connectionID");
    AssetIntegration_retrieveConsumptions asset true]).
Proof.
  intros H Hdyn Himpl Hret. enter H. rewrite Hdyn. cbn [negb].
  rewrite bind_call, Himpl. cbn [outcome calls fst snd].
  rewrite Hret. reflexivity.
Qed.

Lemma retrieve_resolved asset impl asset' consumptions :
  loads c action req asset ->
  toBoolean (get asset "dynamicAsset") = true ->
  getAssetImpl c tenant (get asset "connectionID") = Some impl ->
  retrieveConsumptions impl asset true = Resolved (asset', consumptions) ->
  handleRetrieveConsumption c action req =
  (Return tt,
   [AssetStorage_getAsset tenant assetID None None;
    AssetFactory_getAssetImpl tenant (get asset "connectionID");
    AssetIntegration_retrieveConsumptions asset true] ++
   match firstSample consumptions with
   | Some consumption =>
       [AssetStorage_saveAsset tenant
          (overlay liveStateFields consumption asset')]
   | None => []
   end ++
   [res_json (JsObject (REST_RESPONSE_SUCCESS c)); next])%list.
Proof.
  intros H Hdyn Himpl Hret. enter H. rewrite Hdyn. cbn [negb].
  rewrite bind_call, Himpl. cbn [outcome calls fst snd].
  rewrite Hret. unfold await. rewrite bind_call.
  destruct consumptions as [|[consumption|] rest]; reflexivity.
Qed.

(** Whatever the entry checks answer, a run that loads an asset that is not
    dynamic saves nothing. *)
Lemma retrieve_not_dynamic_saves_nothing asset :
  getAsset c tenant assetID None None = Some asset ->
  toBoolean (get asset "dynamicAsset") = false ->
  savedAssets (calls (handleRetrieveConsumption c action req)) = [].
Proof.
  intros Hget Hdyn. unfold handleRetrieveConsumption.
  destruct (assertComponentIsActiveFromToken _ _ _ _ _ _ _); [reflexivity|].
  rewrite assert_None.
  destruct (canRetrieveAssetConsumption _ _); [|reflexivity]. cbn [negb].
  destruct (assertIdIsProvided _ _ _ _ _ _); [reflexivity|].
  rewrite assert_None, Hget, bind_call.
  unfold assertObjectExists. rewrite bind_ret, Hdyn. reflexivity.
Qed.

End RetrieveRuns.

(** ** Runs of [handleCheckAssetConnection] *)

Section CheckRuns.
Context (c : Collaborators) (action : ServerAction.t) (req : Request.t).

Local Abbreviation tenant := (tenantID (Request.user req)).
Local Abbreviation connection :=
  (JsString (filterAssetRequestByID c (Request.query req))).

Lemma check_not_configured :
  checkable c req ->
  getAssetImpl c tenant connection = None ->
  handleCheckAssetConnection c action req =
  (Throw (NotConfigured_check action req),
   [AssetFactory_getAssetImpl tenant connection]).
Proof.
  intros Hactive Himpl. unfold handleCheckAssetConnection.
  rewrite Hactive, assert_None, bind_call, Himpl. reflexivity.
Qed.

Lemma check_forbidden impl :
  checkable c req ->
  getAssetImpl c tenant connection = Some impl ->
  canCheckAssetConnection c (Request.user req) = false ->
  handleCheckAssetConnection c action req =
  (Throw (Forbidden_check req),
   [AssetFactory_getAssetImpl tenant connection]).
Proof.
  intros Hactive Himpl Hauth. unfold handleCheckAssetConnection.
  rewrite Hactive, assert_None, bind_call, Himpl, Hauth. reflexivity.
Qed.

Lemma check_probed impl :
  checkable c req ->
  getAssetImpl c tenant connection = Some impl ->
  canCheckAssetConnection c (Request.user req) = true ->
  handleCheckAssetConnection c action req =
  match checkConnection impl with
  | Resolved _ =>
      (Return tt,
       [AssetFactory_getAssetImpl tenant connection;
        AssetIntegration_checkConnection;
        res_json (connectionIsValid c true);
        next])
  | Rejected error =>
      (Return tt,
       [AssetFactory_getAssetImpl tenant connection;
        AssetIntegration_checkConnection;
        Logging_logError (connectionFailed action req error);
        res_json (connectionIsValid c false);
        next])
  | RejectedNullish reason =>
      (Throw (TypeError_ "message" reason),
       [AssetFactory_getAssetImpl tenant connection;
        AssetIntegration_checkConnection])
  end.
Proof.
  intros Hactive Himpl Hauth. unfold handleCheckAssetConnection.
  rewrite Hactive, assert_None, bind_call, Himpl, Hauth.
  destruct (checkConnection impl); reflexivity.
Qed.

End CheckRuns.

(** ** Runs of [handleGetAssetConsumption] *)

Section ConsumptionRuns.
Context (c : Collaborators) (action : ServerAction.t) (req : Request.t).

Local Abbreviation tenant := (tenantID (Request.user req)).
Local Abbreviation filtered := (filterAssetConsumptionRequest c (Request.query req)).
Local Abbreviation loadAsset :=
  (AssetStorage_getAsset tenant (AssetID filtered) (Some ∅) (Some ["id"; "name"])).

Ltac enter H :=
  destruct H as (Hactive & Hid & Hauth);
  unfold handleGetAssetConsumption;
  rewrite Hactive, assert_None, Hid, assert_None, Hauth; cbn [negb];
  rewrite bind_call.

Lemma consumption_not_found :
  readable c action req ->
  getAsset c tenant (AssetID filtered) (Some ∅) (Some ["id"; "name"]) = None ->
  handleGetAssetConsumption c action req =
  (Throw (NotFound action ("Asset ID '" ++ AssetID filtered ++ "' does not exist")
            MODULE_NAME "handleGetAssetConsumption" (Request.user req)),
   [loadAsset]).
Proof. intros H Hget. enter H. rewrite Hget. reflexivity. Qed.

Lemma consumption_dates_missing asset :
  readable c action req ->
  getAsset c tenant (AssetID filtered) (Some ∅) (Some ["id"; "name"]) = Some asset ->
  present (StartDate filtered) && present (EndDate filtered) = false ->
  handleGetAssetConsumption c action req =
  (Throw (DatesMissing action req), [loadAsset]).
Proof.
  intros H Hget Hdates. enter H. rewrite Hget.
  unfold assertObjectExists. rewrite bind_ret.
  destruct (StartDate filtered), (EndDate filtered); try discriminate;
    reflexivity.
Qed.

Lemma consumption_start_after_end asset start end_ :
  readable c action req ->
  getAsset c tenant (AssetID filtered) (Some ∅) (Some ["id"; "name"]) = Some asset ->
  StartDate filtered = Some (TimeValue start) ->
  EndDate filtered = Some (TimeValue end_) ->
  end_ < start ->
  handleGetAssetConsumption c action req =
  (Throw (StartAfterEnd action req start end_), [loadAsset]).
Proof.
  intros H Hget Hstart Hend Hlt. enter H. rewrite Hget.
  unfold assertObjectExists. rewrite bind_ret, Hstart, Hend.
  cbn [present negb orb isAfter]. rewrite bind_ret.
  apply Z.ltb_lt in Hlt. rewrite Hlt. reflexivity.
Qed.

Lemma consumption_queried asset start end_ :
  readable c action req ->
  getAsset c tenant (AssetID filtered) (Some ∅) (Some ["id"; "name"]) = Some asset ->
  StartDate filtered = Some start ->
  EndDate filtered = Some end_ ->
  isAfter start end_ = false ->
  let filter := {| assetID := AssetID filtered;
                   startDate := Some start; endDate := Some end_ |} in
  let fields := ["startedAt"; "instantWatts"; "instantAmps"; "limitWatts";
                 "limitAmps"; "endedAt"; "stateOfCharge"] in
  handleGetAssetConsumption c action req =
  (Return tt,
   [loadAsset;
    ConsumptionStorage_getAssetConsumptions tenant filter fields;
    res_json (JsObject (set asset "values"
                (JsArray (getAssetConsumptions c tenant filter fields))));
    next]).
Proof.
  intros H Hget Hstart Hend Hord. enter H. rewrite Hget.
  unfold assertObjectExists. rewrite bind_ret, Hstart, Hend.
  cbn [present negb orb]. rewrite bind_ret, Hord. reflexivity.
Qed.

(** Whatever the entry checks answer, a run whose range starts after it ends does
    not reach the consumption store. *)
Lemma consumption_start_after_end_no_query start end_ :
  StartDate filtered = Some start ->
  EndDate filtered = Some end_ ->
  isAfter start end_ = true ->
  consumptionQueries (calls (handleGetAssetConsumption c action req)) = [].
Proof.
  intros Hstart Hend Hord. unfold handleGetAssetConsumption.
  destruct (assertComponentIsActiveFromToken _ _ _ _ _ _ _); [reflexivity|].
  rewrite assert_None.
  destruct (assertIdIsProvided _ _ _ _ _ _); [reflexivity|].
  rewrite assert_None.
  destruct (canReadAsset _ _); [|reflexivity]. cbn [negb].
  rewrite bind_call.
  destruct (getAsset _ _ _ _ _) as [asset|]; [|reflexivity].
  unfold assertObjectExists. rewrite bind_ret, Hstart, Hend.
  cbn [present negb orb]. rewrite bind_ret, Hord.
  apply isAfter_true in Hord as (x & y & -> & -> & _). reflexivity.
Qed.

End ConsumptionRuns.

(** ** Runs of [handleGetAssetsInError] *)

Lemma listing_run c action req :
  listable c req ->
  let filtered := filterAssetsRequest c (Request.query req) in
  let tenant := tenantID (Request.user req) in
  let filter := {|
    search := Search filtered;
    siteAreaIDs := if truthy (SiteAreaID filtered)
                   then Some (split BAR (str (SiteAreaID filtered))) else None;
    siteIDs := if truthy (SiteID filtered)
               then Some (split BAR (str (SiteID filtered))) else None;
    errorType := if truthy (ErrorType filtered)
                 then split BAR (str (ErrorType filtered))
                 else [AssetInErrorType.MISSING_SITE_AREA] |} in
  let dbParams := {| limit := Limit filtered; skip := Skip filtered;
                     sort := SortFields filtered;
                     onlyRecordCount := OnlyRecordCount filtered |} in
  let fields := ["id"; "name"; "errorCodeDetails"; "errorCode"] in
  handleGetAssetsInError c action req =
  (Return tt,
   [AssetStorage_getAssetsInError tenant filter dbParams fields;
    res_json (getAssetsInError c tenant filter dbParams fields);
    next]).
Proof.
  intros [Hactive Hauth]. unfold handleGetAssetsInError.
  rewrite Hactive, assert_None, Hauth. reflexivity.
Qed.

(** ** The merge *)

Lemma get_overlay_field fields (from onto : JsObj) k :
  k ∈ fields -> get (overlay fields from onto) k = get from k.
Proof. intros H. unfold get at 1. by rewrite overlay_field. Qed.

Lemma get_overlay_other fields (from onto : JsObj) k :
  k ∉ fields -> get (overlay fields from onto) k = get onto k.
Proof. intros H. unfold get. by rewrite overlay_other. Qed.

Lemma savedAssets_resolved (pre post : list Call) tenant
    (first : option JsObj) (merge : JsObj -> JsObj) :
  savedAssets pre = [] -> savedAssets post = [] ->
  savedAssets (pre ++ match first with
                      | Some s => [AssetStorage_saveAsset tenant (merge s)]
                      | None => []
                      end ++ post) =
  match first with Some s => [(tenant, merge s)] | None => [] end.
Proof.
  intros Hpre Hpost. unfold savedAssets in *.
  rewrite !omap_app, Hpre, Hpost. by destruct first.
Qed.

(** * The claims *)

(** C1. For every asset with dynamicAsset == false that the storage hands
    to the live retrieval, [handleRetrieveConsumption] never calls
    [AssetStorage.saveAsset]; and once the request is through the checks
    that come first (component active, caller authorized, identifier
    given), it fails with the InvalidOperation error, whose message is
    'This Asset is not dynamic, no consumption can be retrieved'. *)
Theorem retrieve_static_asset_fails_unsaved c action req asset :
  getAsset c (tenantID (Request.user req))
    (filterAssetRequestByID c (Request.query req)) None None = Some asset ->
  get asset "dynamicAsset" = JsBool false ->
  savedAssets (calls (handleRetrieveConsumption c action req)) = [] ∧
  (loads c action req asset ->
   outcome (handleRetrieveConsumption c action req) =
   Throw (generalError
            "This Asset is not dynamic, no consumption can be retrieved"
            "handleRetrieveConsumption" (Some (Request.user req)) action
            (Some (JsObject {[ "asset" := JsObject asset ]})))).
Proof.
  intros Hget Hdyn.
  assert (toBoolean (get asset "dynamicAsset") = false) as Hfalsy
    by (rewrite Hdyn; reflexivity).
  split.
  - by apply retrieve_not_dynamic_saves_nothing with asset.
  - intros Hloads. by rewrite (retrieve_not_dynamic c action req asset).
Qed.

(** C2. For every asset and every retrieved sample, a successful merge in
    [handleRetrieveConsumption] hands to [saveAsset] an asset in which
    every field of the live-state group holds the value the sample has for
    it, and every other field (name, siteAreaID, assetType, connectionID
    and any field outside the group) is as it was when the merge began. *)
Theorem merge_touches_live_state_only c action req asset impl asset' consumption rest :
  loads c action req asset ->
  toBoolean (get asset "dynamicAsset") = true ->
  getAssetImpl c (tenantID (Request.user req)) (get asset "connectionID") = Some impl ->
  retrieveConsumptions impl asset true = Resolved (asset', Some consumption :: rest) ->
  exists merged : JsObj,
    savedAssets (calls (handleRetrieveConsumption c action req)) =
      [(tenantID (Request.user req), merged)] ∧
    (forall k, k ∈ liveStateFields -> merged !! k = Some (get consumption k)) ∧
    (forall k, k ∉ liveStateFields -> merged !! k = asset' !! k) ∧
    Forall (fun k => merged !! k = asset' !! k)
           ["name"; "siteAreaID"; "assetType"; "connectionID"].
Proof.
  intros Hloads Hdyn Himpl Hret.
  exists (overlay liveStateFields consumption asset').
  rewrite (retrieve_resolved c action req asset impl asset' _ Hloads Hdyn Himpl Hret).
  cbn [calls snd].
  rewrite (savedAssets_resolved _ _ _ _ (fun s => overlay liveStateFields s asset'))
    by reflexivity.
  split; [reflexivity|]. split; [|split].
  - intros k Hk. by apply overlay_field.
  - intros k Hk. by apply overlay_other.
  - repeat constructor; apply overlay_other;
      apply (bool_decide_unpack _); vm_compute; reflexivity.
Qed.

(** C3. For every dynamic asset whose connector returns a sample sequence
    that begins with a sample, [handleRetrieveConsumption] returns, and
    calls [saveAsset] exactly once, with the asset overlaid with the
    live-state values of that first sample; for the single sample
    {currentInstantWatts: 4200, currentStateOfCharge: 73} the persisted
    asset has currentInstantWatts = 4200 and currentStateOfCharge = 73. *)
Theorem retrieve_persists_first_sample c action req asset impl asset' consumption rest :
  loads c action req asset ->
  toBoolean (get asset "dynamicAsset") = true ->
  getAssetImpl c (tenantID (Request.user req)) (get asset "connectionID") = Some impl ->
  retrieveConsumptions impl asset true = Resolved (asset', Some consumption :: rest) ->
  let run := handleRetrieveConsumption c action req in
  let merged := overlay liveStateFields consumption asset' in
  outcome run = Return tt ∧
  savedAssets (calls run) = [(tenantID (Request.user req), merged)] ∧
  Forall (fun k => get merged k = get consumption k) liveStateFields ∧
  (consumption = Scenario.sample -> rest = [] ->
   get merged "currentInstantWatts" = JsNumber 4200 ∧
   get merged "currentStateOfCharge" = JsNumber 73).
Proof.
  intros Hloads Hdyn Himpl Hret run merged. subst run.
  rewrite (retrieve_resolved c action req asset impl asset' _ Hloads Hdyn Himpl Hret).
  cbn [outcome calls fst snd].
  rewrite (savedAssets_resolved _ _ _ _ (fun s => overlay liveStateFields s asset'))
    by reflexivity.
  split; [reflexivity|]. split; [reflexivity|]. split.
  - apply Forall_forall. intros k Hk. by apply get_overlay_field.
  - intros -> _. subst merged.
    rewrite !get_overlay_field
      by (apply (bool_decide_unpack _); vm_compute; reflexivity).
    split; reflexivity.
Qed.

(** C4. The claim is that for every connector handle whose
    [checkConnection] probe throws, [handleCheckAssetConnection] never lets
    the failure escape.  The code does let it escape when the probe rejects
    with [null] or [undefined]: the [catch] clause reads [error.message] to
    build the diagnostic, which throws a [TypeError]; nothing is logged,
    nothing is answered, and [next] is not called. *)
Theorem check_connection_nullish_rejection_escapes c action req impl reason :
  checkable c req ->
  getAssetImpl c (tenantID (Request.user req))
    (JsString (filterAssetRequestByID c (Request.query req))) = Some impl ->
  canCheckAssetConnection c (Request.user req) = true ->
  checkConnection impl = RejectedNullish reason ->
  let run := handleCheckAssetConnection c action req in
  outcome run = Throw (TypeError_ "message" reason) ∧
  loggedErrors (calls run) = [] ∧
  responses (calls run) = [] ∧
  calls run =
    [AssetFactory_getAssetImpl (tenantID (Request.user req))
       (JsString (filterAssetRequestByID c (Request.query req)));
     AssetIntegration_checkConnection].
Proof.
  intros Hactive Himpl Hauth Hprobe run. subst run.
  rewrite (check_probed c action req impl Hactive Himpl Hauth), Hprobe.
  repeat split; reflexivity.
Qed.

(** C5. For every request on which [AssetFactory.getAssetImpl] resolves no
    handle, the health check and the live retrieval both fail with the
    NotConfigured error 'Asset service is not configured', an [AppError]
    of the service and not an exception of the runtime. *)
Theorem no_connector_is_not_configured c action req :
  (checkable c req ->
   getAssetImpl c (tenantID (Request.user req))
     (JsString (filterAssetRequestByID c (Request.query req))) = None ->
   outcome (handleCheckAssetConnection c action req) =
   Throw (generalError "Asset service is not configured"
            "handleCheckAssetConnection" (Some (Request.user req)) action None)) ∧
  (forall asset,
   loads c action req asset ->
   toBoolean (get asset "dynamicAsset") = true ->
   getAssetImpl c (tenantID (Request.user req)) (get asset "connectionID") = None ->
   outcome (handleRetrieveConsumption c action req) =
   Throw (generalError "Asset service is not configured"
            "handleRetrieveConsumption" None
            ServerAction.RETRIEVE_ASSET_CONSUMPTION None)).
Proof.
  split.
  - intros Hactive Himpl. by rewrite check_not_configured.
  - intros asset Hloads Hdyn Himpl.
    by rewrite (retrieve_not_configured c action req asset).
Qed.

(** C6. For every dynamic asset whose connector returns an empty sample
    sequence, [handleRetrieveConsumption] merges and persists nothing
    ([saveAsset] is not called) and returns, having answered the generic
    success response. *)
Theorem retrieve_empty_sequence_succeeds c action req asset impl asset' :
  loads c action req asset ->
  toBoolean (get asset "dynamicAsset") = true ->
  getAssetImpl c (tenantID (Request.user req)) (get asset "connectionID") = Some impl ->
  retrieveConsumptions impl asset true = Resolved (asset', []) ->
  let run := handleRetrieveConsumption c action req in
  outcome run = Return tt ∧
  savedAssets (calls run) = [] ∧
  responses (calls run) = [JsObject (REST_RESPONSE_SUCCESS c)].
Proof.
  intros Hloads Hdyn Himpl Hret run. subst run.
  rewrite (retrieve_resolved c action req asset impl asset' _ Hloads Hdyn Himpl Hret).
  repeat split; reflexivity.
Qed.

(** C9. For every dynamic asset whose connector returns a sample sequence
    whose first element is null or undefined, [handleRetrieveConsumption]
    merges nothing and does not call [saveAsset], and still returns with
    the generic success response: the calls it makes are those of the
    empty-sequence case. *)
Theorem retrieve_null_first_sample_succeeds c action req asset impl asset' rest :
  loads c action req asset ->
  toBoolean (get asset "dynamicAsset") = true ->
  getAssetImpl c (tenantID (Request.user req)) (get asset "connectionID") = Some impl ->
  retrieveConsumptions impl asset true = Resolved (asset', None :: rest) ->
  let run := handleRetrieveConsumption c action req in
  outcome run = Return tt ∧
  savedAssets (calls run) = [] ∧
  responses (calls run) = [JsObject (REST_RESPONSE_SUCCESS c)] ∧
  calls run =
    [AssetStorage_getAsset (tenantID (Request.user req))
       (filterAssetRequestByID c (Request.query req)) None None;
     AssetFactory_getAssetImpl (tenantID (Request.user req))
       (get asset "connectionID");
     AssetIntegration_retrieveConsumptions asset true;
     res_json (JsObject (REST_RESPONSE_SUCCESS c));
     next].
Proof.
  intros Hloads Hdyn Himpl Hret run. subst run.
  rewrite (retrieve_resolved c action req asset impl asset' _ Hloads Hdyn Himpl Hret).
  repeat split; reflexivity.
Qed.

(** C7. Past its entry checks, [handleGetAssetConsumption] validates in this
    order: the asset exists (NotFound otherwise); both dates are present
    (ValidationError 'Start date and end date must be provided'
    otherwise); the start date is not after the end date (ValidationError
    whose message gives both dates in ISO format and says that the start is
    after the end otherwise).  The consumption store is queried, once, only
    when all three pass; and whatever the entry checks answer, a range whose start
    is after its end never reaches [getAssetConsumptions]. *)
Theorem consumption_validates_in_order c action req :
  let filtered := filterAssetConsumptionRequest c (Request.query req) in
  let run := handleGetAssetConsumption c action req in
  (readable c action req ->
   match getAsset c (tenantID (Request.user req)) (AssetID filtered)
           (Some ∅) (Some ["id"; "name"]) with
   | None =>
       outcome run =
         Throw (NotFound action
                  ("Asset ID '" ++ AssetID filtered ++ "' does not exist")
                  MODULE_NAME "handleGetAssetConsumption" (Request.user req)) ∧
       consumptionQueries (calls run) = []
   | Some asset =>
       match StartDate filtered, EndDate filtered with
       | Some start, Some end_ =>
           if isAfter start end_ then
             exists x y, start = TimeValue x ∧ end_ = TimeValue y ∧
               outcome run =
                 Throw (generalError
                          ("The requested start date '" ++ isoOfTimeValue x ++
                           "' is after the end date '" ++ isoOfTimeValue y ++ "' ")
                          "handleGetAssetConsumption"
                          (Some (Request.user req)) action None) ∧
               consumptionQueries (calls run) = []
           else
             outcome run = Return tt ∧
             consumptionQueries (calls run) =
               [{| assetID := AssetID filtered;
                   startDate := Some start; endDate := Some end_ |}]
       | _, _ =>
           outcome run =
             Throw (generalError "Start date and end date must be provided"
                      "handleGetAssetConsumption"
                      (Some (Request.user req)) action None) ∧
           consumptionQueries (calls run) = []
       end
   end) ∧
  (forall start end_,
   StartDate filtered = Some start -> EndDate filtered = Some end_ ->
   isAfter start end_ = true ->
   consumptionQueries (calls run) = []).
Proof.
  intros filtered run. subst filtered run. split.
  - intros Hentry.
    destruct (getAsset _ _ _ _ _) as [asset|] eqn:Hget.
    + destruct (StartDate _) as [start|] eqn:Hstart;
        [destruct (EndDate _) as [end_|] eqn:Hend|].
      * destruct (isAfter start end_) eqn:Hord.
        -- apply isAfter_true in Hord as (x & y & -> & -> & Hlt).
           exists x, y.
           rewrite (consumption_start_after_end c action req asset x y)
             by assumption.
           repeat split; reflexivity.
        -- rewrite (consumption_queried c action req asset start end_)
             by assumption.
           split; reflexivity.
      * rewrite (consumption_dates_missing c action req asset)
          by (try assumption; rewrite Hstart, Hend; reflexivity).
        split; reflexivity.
      * rewrite (consumption_dates_missing c action req asset)
          by (try assumption; rewrite Hstart; reflexivity).
        split; reflexivity.
    + rewrite consumption_not_found by assumption. split; reflexivity.
  - intros start end_ Hstart Hend Hord.
    by apply consumption_start_after_end_no_query with start end_.
Qed.

(** C8. For every error-listing request past its entry checks,
    [handleGetAssetsInError] queries the store once; when ErrorType is
    absent the error filter is the single category 'missing site area';
    an ErrorType, SiteAreaID or SiteID present as a bar-delimited string
    (a truthy, that is non-empty, string) is split on '|' into a list, an
    empty ErrorType counting as absent; in particular SiteAreaID = 's1|s2'
    with no ErrorType gives siteAreaIDs = ['s1', 's2'] and
    errorType = ['missing site area']. *)
Theorem listing_splits_filters c action req :
  listable c req ->
  let filtered := filterAssetsRequest c (Request.query req) in
  exists filter dbParams,
    inErrorQueries (calls (handleGetAssetsInError c action req)) =
      [(filter, dbParams)] ∧
    (ErrorType filtered = None -> errorType filter = ["missing site area"]) ∧
    (forall s, ErrorType filtered = Some s -> s ≠ "" ->
               errorType filter = split BAR s) ∧
    (forall s, SiteAreaID filtered = Some s -> s ≠ "" ->
               siteAreaIDs filter = Some (split BAR s)) ∧
    (forall s, SiteID filtered = Some s -> s ≠ "" ->
               siteIDs filter = Some (split BAR s)) ∧
    (ErrorType filtered = Some "" -> errorType filter = ["missing site area"]) ∧
    (SiteAreaID filtered = Some "s1|s2" -> ErrorType filtered = None ->
     siteAreaIDs filter = Some ["s1"; "s2"] ∧
     errorType filter = ["missing site area"]).
Proof.
  intros Hentry filtered. subst filtered.
  rewrite (listing_run c action req Hentry). cbn zeta.
  eexists _, _. split; [reflexivity|]. cbn [errorType siteAreaIDs siteIDs].
  assert (forall s, s ≠ "" -> truthy (Some s) = true) as Htruthy.
  { intros s Hs. cbn. apply negb_true_iff, String.eqb_neq, Hs. }
  split; [by intros ->|].
  split; [intros s -> Hs; by rewrite Htruthy|].
  split; [intros s -> Hs; by rewrite Htruthy|].
  split; [intros s -> Hs; by rewrite Htruthy|].
  split; [by intros ->|].
  intros Hareas Htype. rewrite Hareas, Htype. split; reflexivity.
Qed.

(** C10. [handleCheckAssetConnection] resolves the connector, and raises
    NotConfigured, before it checks the authorization of the caller: when
    no connector resolves it fails with 'Asset service is not configured'
    whether or not the caller may check connections, whereas an
    unauthorized caller of a configured connector is refused; so the error
    an unauthorized caller gets tells whether a connector is configured. *)
Theorem check_resolves_before_authorizing c action req :
  checkable c req ->
  let run := handleCheckAssetConnection c action req in
  let tenant := tenantID (Request.user req) in
  let connection := JsString (filterAssetRequestByID c (Request.query req)) in
  connectorLookups (calls run) = [(tenant, connection)] ∧
  match getAssetImpl c tenant connection with
  | None =>
      outcome run =
        Throw (generalError "Asset service is not configured"
                 "handleCheckAssetConnection" (Some (Request.user req))
                 action None)
  | Some _ =>
      canCheckAssetConnection c (Request.user req) = false ->
      outcome run = Throw (Forbidden_check req)
  end.
Proof.
  intros Hactive run tenant connection. subst run tenant connection.
  destruct (getAssetImpl _ _ _) as [impl|] eqn:Himpl.
  - destruct (canCheckAssetConnection c (Request.user req)) eqn:Hauth.
    + rewrite (check_probed c action req impl) by assumption.
      split; [|discriminate]. by destruct (checkConnection impl).
    + rewrite (check_forbidden c action req impl) by assumption.
      split; [reflexivity|]. reflexivity.
  - rewrite check_not_configured by assumption. split; reflexivity.
Qed.

(** * The claims on the scenario *)

Lemma retrieve_static_asset_fails_unsaved_witness :
  savedAssets (calls (handleRetrieveConsumption Scenario.unconfigured
                        Scenario.act (Scenario.request "A0"))) = [] ∧
  outcome (handleRetrieveConsumption Scenario.unconfigured
             Scenario.act (Scenario.request "A0")) =
    Throw (generalError
             "This Asset is not dynamic, no consumption can be retrieved"
             "handleRetrieveConsumption" (Some Scenario.user) Scenario.act
             (Some (JsObject {[ "asset" := JsObject Scenario.A0 ]}))).
Proof.
  destruct (retrieve_static_asset_fails_unsaved Scenario.unconfigured
              Scenario.act (Scenario.request "A0") Scenario.A0
              eq_refl eq_refl) as [Hsaved Hthrown].
  split; [exact Hsaved|].
  apply Hthrown. repeat split; reflexivity.
Defined.

Lemma merge_touches_live_state_only_witness :
  exists merged : JsObj,
    savedAssets (calls (handleRetrieveConsumption
                          (Scenario.metered (Resolved tt) [Some Scenario.sample])
                          Scenario.act (Scenario.request "A1"))) =
      [("t1", merged)] ∧
    merged !! "currentInstantWatts" = Some (JsNumber 4200) ∧
    merged !! "currentInstantAmps" = Some JsUndefined ∧
    merged !! "name" = Some (JsString "Battery").
Proof.
  destruct (merge_touches_live_state_only
              (Scenario.metered (Resolved tt) [Some Scenario.sample])
              Scenario.act (Scenario.request "A1") Scenario.A1
              (Scenario.connector (Resolved tt) [Some Scenario.sample])
              Scenario.A1 Scenario.sample []
              (conj eq_refl (conj eq_refl (conj eq_refl eq_refl)))
              eq_refl eq_refl eq_refl)
    as (merged & Hsaved & Hlive & Hother & _).
  exists merged. split; [exact Hsaved|]. split; [|split].
  - apply (Hlive "currentInstantWatts").
    apply (bool_decide_unpack _). vm_compute. reflexivity.
  - apply (Hlive "currentInstantAmps").
    apply (bool_decide_unpack _). vm_compute. reflexivity.
  - rewrite (Hother "name"); [reflexivity|].
    apply (bool_decide_unpack _). vm_compute. reflexivity.
Defined.

Lemma retrieve_persists_first_sample_witness :
  outcome (handleRetrieveConsumption
             (Scenario.metered (Resolved tt) [Some Scenario.sample])
             Scenario.act (Scenario.request "A1")) = Return tt ∧
  savedAssets (calls (handleRetrieveConsumption
                        (Scenario.metered (Resolved tt) [Some Scenario.sample])
                        Scenario.act (Scenario.request "A1"))) =
    [("t1", overlay liveStateFields Scenario.sample Scenario.A1)] ∧
  get (overlay liveStateFields Scenario.sample Scenario.A1)
      "currentInstantWatts" = JsNumber 4200 ∧
  get (overlay liveStateFields Scenario.sample Scenario.A1)
      "currentStateOfCharge" = JsNumber 73.
Proof.
  destruct (retrieve_persists_first_sample
              (Scenario.metered (Resolved tt) [Some Scenario.sample])
              Scenario.act (Scenario.request "A1") Scenario.A1
              (Scenario.connector (Resolved tt) [Some Scenario.sample])
              Scenario.A1 Scenario.sample []
              (conj eq_refl (conj eq_refl (conj eq_refl eq_refl)))
              eq_refl eq_refl eq_refl)
    as (Hreturned & Hsaved & _ & Hscenario).
  destruct (Hscenario eq_refl eq_refl) as [Hwatts Hcharge].
  repeat split; assumption.
Defined.

Lemma check_connection_nullish_rejection_escapes_witness :
  outcome (handleCheckAssetConnection
             (Scenario.metered (RejectedNullish Undefined) [])
             Scenario.act (Scenario.request "meter-7")) =
    Throw (TypeError_ "message" Undefined) ∧
  loggedErrors (calls (handleCheckAssetConnection
                         (Scenario.metered (RejectedNullish Undefined) [])
                         Scenario.act (Scenario.request "meter-7"))) = [] ∧
  responses (calls (handleCheckAssetConnection
                      (Scenario.metered (RejectedNullish Undefined) [])
                      Scenario.act (Scenario.request "meter-7"))) = [].
Proof.
  destruct (check_connection_nullish_rejection_escapes
              (Scenario.metered (RejectedNullish Undefined) [])
              Scenario.act (Scenario.request "meter-7")
              (Scenario.connector (RejectedNullish Undefined) []) Undefined
              eq_refl eq_refl eq_refl eq_refl)
    as (Hthrown & Hlogged & Hanswered & _).
  repeat split; assumption.
Defined.

Lemma no_connector_is_not_configured_witness :
  outcome (handleCheckAssetConnection Scenario.unconfigured Scenario.act
             (Scenario.request "meter-7")) =
    Throw (generalError "Asset service is not configured"
             "handleCheckAssetConnection" (Some Scenario.user)
             Scenario.act None) ∧
  outcome (handleRetrieveConsumption Scenario.unconfigured Scenario.act
             (Scenario.request "A1")) =
    Throw (generalError "Asset service is not configured"
             "handleRetrieveConsumption" None
             ServerAction.RETRIEVE_ASSET_CONSUMPTION None).
Proof.
  split.
  - exact (proj1 (no_connector_is_not_configured Scenario.unconfigured
                    Scenario.act (Scenario.request "meter-7"))
                 eq_refl eq_refl).
  - exact (proj2 (no_connector_is_not_configured Scenario.unconfigured
                    Scenario.act (Scenario.request "A1"))
                 Scenario.A1
                 (conj eq_refl (conj eq_refl (conj eq_refl eq_refl)))
                 eq_refl eq_refl).
Defined.

Lemma retrieve_empty_sequence_succeeds_witness :
  outcome (handleRetrieveConsumption (Scenario.metered (Resolved tt) [])
             Scenario.act (Scenario.request "A1")) = Return tt ∧
  savedAssets (calls (handleRetrieveConsumption
                        (Scenario.metered (Resolved tt) [])
                        Scenario.act (Scenario.request "A1"))) = [] ∧
  responses (calls (handleRetrieveConsumption
                      (Scenario.metered (Resolved tt) [])
                      Scenario.act (Scenario.request "A1"))) =
    [JsObject {[ "status" := JsString "Success" ]}].
Proof.
  exact (retrieve_empty_sequence_succeeds
           (Scenario.metered (Resolved tt) [])
           Scenario.act (Scenario.request "A1") Scenario.A1
           (Scenario.connector (Resolved tt) []) Scenario.A1
           (conj eq_refl (conj eq_refl (conj eq_refl eq_refl)))
           eq_refl eq_refl eq_refl).
Defined.

Lemma retrieve_null_first_sample_succeeds_witness :
  outcome (handleRetrieveConsumption
             (Scenario.metered (Resolved tt) [None; Some Scenario.sample])
             Scenario.act (Scenario.request "A1")) = Return tt ∧
  savedAssets (calls (handleRetrieveConsumption
                        (Scenario.metered (Resolved tt) [None; Some Scenario.sample])
                        Scenario.act (Scenario.request "A1"))) = [] ∧
  responses (calls (handleRetrieveConsumption
                      (Scenario.metered (Resolved tt) [None; Some Scenario.sample])
                      Scenario.act (Scenario.request "A1"))) =
    [JsObject {[ "status" := JsString "Success" ]}].
Proof.
  destruct (retrieve_null_first_sample_succeeds
              (Scenario.metered (Resolved tt) [None; Some Scenario.sample])
              Scenario.act (Scenario.request "A1") Scenario.A1
              (Scenario.connector (Resolved tt) [None; Some Scenario.sample])
              Scenario.A1 [Some Scenario.sample]
              (conj eq_refl (conj eq_refl (conj eq_refl eq_refl)))
              eq_refl eq_refl eq_refl)
    as (Hreturned & Hsaved & Hanswered & _).
  repeat split; assumption.
Defined.

Lemma consumption_validates_in_order_witness :
  outcome (handleGetAssetConsumption
             (Scenario.ranged 1682899200000 1680307200000)
             Scenario.act (Scenario.request "A1")) =
    Throw (generalError
             "The requested start date '2023-05-01T00:00:00.000Z' is after the end date '2023-04-01T00:00:00.000Z' "
             "handleGetAssetConsumption" (Some Scenario.user)
             Scenario.act None) ∧
  consumptionQueries (calls (handleGetAssetConsumption
                               (Scenario.ranged 1682899200000 1680307200000)
                               Scenario.act (Scenario.request "A1"))) = [].
Proof.
  destruct (proj1 (consumption_validates_in_order
                     (Scenario.ranged 1682899200000 1680307200000)
                     Scenario.act (Scenario.request "A1"))
                  (conj eq_refl (conj eq_refl eq_refl)))
    as (x & y & Hx & Hy & Hthrown & Hqueries).
  injection Hx as <-. injection Hy as <-.
  split; [exact Hthrown | exact Hqueries].
Defined.

Lemma listing_splits_filters_witness :
  exists filter dbParams,
    inErrorQueries (calls (handleGetAssetsInError Scenario.listing
                             Scenario.act (Scenario.request ""))) =
      [(filter, dbParams)] ∧
    siteAreaIDs filter = Some ["s1"; "s2"] ∧
    errorType filter = ["missing site area"].
Proof.
  destruct (listing_splits_filters Scenario.listing Scenario.act
              (Scenario.request "") (conj eq_refl eq_refl))
    as (filter & dbParams & Hquery & _ & _ & _ & _ & _ & Hscenario).
  exists filter, dbParams. split; [exact Hquery|].
  exact (Hscenario eq_refl eq_refl).
Defined.

Lemma check_resolves_before_authorizing_witness :
  connectorLookups (calls (handleCheckAssetConnection Scenario.intruder
                             Scenario.act (Scenario.request "meter-7"))) =
    [("t1", JsString "meter-7")] ∧
  outcome (handleCheckAssetConnection Scenario.intruder Scenario.act
             (Scenario.request "meter-7")) =
    Throw (generalError "Asset service is not configured"
             "handleCheckAssetConnection" (Some Scenario.user)
             Scenario.act None).
Proof.
  exact (check_resolves_before_authorizing Scenario.intruder Scenario.act
           (Scenario.request "meter-7") eq_refl).
Defined.

(** * Further properties of the telemetry handlers *)

(** X1. Whatever the collaborators answer, [handleRetrieveConsumption]
    either saves nothing or saves exactly one asset: the asset of an
    authorized request for a dynamic asset with a resolved connector,
    overlaid with the first sample the connector returned. *)
Theorem retrieve_saves_only_merged_sample c action req :
  savedAssets (calls (handleRetrieveConsumption c action req)) = [] ∨
  exists asset impl asset' consumption rest,
    loads c action req asset ∧
    toBoolean (get asset "dynamicAsset") = true ∧
    getAssetImpl c (tenantID (Request.user req)) (get asset "connectionID") =
      Some impl ∧
    retrieveConsumptions impl asset true =
      Resolved (asset', Some consumption :: rest) ∧
    savedAssets (calls (handleRetrieveConsumption c action req)) =
      [(tenantID (Request.user req),
        overlay liveStateFields consumption asset')].
Proof.
  destruct (assertComponentIsActiveFromToken c (Request.user req)
              TenantComponents.ASSET Action.RETRIEVE_CONSUMPTION Entity.ASSET
              MODULE_NAME "handleRetrieveConsumption") as [e|] eqn:Hactive.
  { left. unfold handleRetrieveConsumption. by rewrite Hactive. }
  destruct (canRetrieveAssetConsumption c (Request.user req)) eqn:Hauth.
  2: { left. unfold handleRetrieveConsumption.
       by rewrite Hactive, assert_None, Hauth. }
  destruct (assertIdIsProvided c action
              (filterAssetRequestByID c (Request.query req)) MODULE_NAME
              "handleRetrieveConsumption" (Request.user req)) as [e|] eqn:Hid.
  { left. unfold handleRetrieveConsumption.
    by rewrite Hactive, assert_None, Hauth, Hid. }
  destruct (getAsset c (tenantID (Request.user req))
              (filterAssetRequestByID c (Request.query req)) None None)
    as [asset|] eqn:Hget.
  2: { left. unfold handleRetrieveConsumption.
       by rewrite Hactive, assert_None, Hauth, Hid, assert_None, Hget. }
  assert (loads c action req asset) as Hloads by done.
  destruct (toBoolean (get asset "dynamicAsset")) eqn:Hdyn.
  2: { left. by rewrite (retrieve_not_dynamic c action req asset). }
  destruct (getAssetImpl c (tenantID (Request.user req))
              (get asset "connectionID")) as [impl|] eqn:Himpl.
  2: { left. by rewrite (retrieve_not_configured c action req asset). }
  destruct (retrieveConsumptions impl asset true)
    as [[asset' consumptions]|error|reason] eqn:Hret.
  2: { left. by rewrite (retrieve_rejected c action req asset impl error). }
  2: { left.
       by rewrite (retrieve_rejected_nullish c action req asset impl reason). }
  rewrite (retrieve_resolved c action req asset impl asset' consumptions)
    by assumption.
  cbn [calls snd].
  rewrite (savedAssets_resolved _ _ _ _ (fun s => overlay liveStateFields s asset'))
    by reflexivity.
  destruct consumptions as [|[consumption|] rest]; [by left| |by left].
  right. by exists asset, impl, asset', consumption, rest.
Qed.


(** X3. [handleRetrieveConsumption] refuses a caller who may not retrieve
    consumptions before it calls any collaborator: the asset is not even
    loaded. *)
Theorem retrieve_refuses_before_loading c action req :
  assertComponentIsActiveFromToken c (Request.user req)
    TenantComponents.ASSET Action.RETRIEVE_CONSUMPTION Entity.ASSET
    MODULE_NAME "handleRetrieveConsumption" = None ->
  canRetrieveAssetConsumption c (Request.user req) = false ->
  handleRetrieveConsumption c action req =
  (Throw (AppAuthError_ {|
     AppAuthError.errorCode := HTTPAuthError.FORBIDDEN;
     AppAuthError.user := Request.user req;
     AppAuthError.action := Action.RETRIEVE_CONSUMPTION;
     AppAuthError.entity := Entity.ASSET;
     AppAuthError.module := MODULE_NAME;
     AppAuthError.method := "handleRetrieveConsumption";
     AppAuthError.value := None |}), []).
Proof.
  intros Hactive Hauth. unfold handleRetrieveConsumption.
  by rewrite Hactive, assert_None, Hauth.
Qed.

(** X4. [handleGetAssetConsumption] does not reject a range one of whose
    dates is invalid: the comparison of the dates is then false, and the
    consumption store is queried with the range as given. *)
Theorem consumption_invalid_date_reaches_store c action req asset start end_ :
  readable c action req ->
  getAsset c (tenantID (Request.user req))
    (AssetID (filterAssetConsumptionRequest c (Request.query req)))
    (Some ∅) (Some ["id"; "name"]) = Some asset ->
  StartDate (filterAssetConsumptionRequest c (Request.query req)) = Some start ->
  EndDate (filterAssetConsumptionRequest c (Request.query req)) = Some end_ ->
  start = InvalidDate ∨ end_ = InvalidDate ->
  outcome (handleGetAssetConsumption c action req) = Return tt ∧
  consumptionQueries (calls (handleGetAssetConsumption c action req)) =
    [{| assetID := AssetID (filterAssetConsumptionRequest c (Request.query req));
        startDate := Some start; endDate := Some end_ |}].
Proof.
  intros Hentry Hget Hstart Hend Hinvalid.
  assert (isAfter start end_ = false) as Hord.
  { destruct Hinvalid as [-> | ->]; [reflexivity | by destruct start]. }
  rewrite (consumption_queried c action req asset start end_) by assumption.
  split; reflexivity.
Qed.

(** X5. When [handleGetAssetConsumption] succeeds it answers once, with the
    asset it loaded whose [values] property is the result of the
    consumption store; every other property of the asset is as loaded. *)
Theorem consumption_answers_asset_with_values c action req asset start end_ :
  readable c action req ->
  getAsset c (tenantID (Request.user req))
    (AssetID (filterAssetConsumptionRequest c (Request.query req)))
    (Some ∅) (Some ["id"; "name"]) = Some asset ->
  StartDate (filterAssetConsumptionRequest c (Request.query req)) = Some start ->
  EndDate (filterAssetConsumptionRequest c (Request.query req)) = Some end_ ->
  isAfter start end_ = false ->
  exists body : JsObj,
    responses (calls (handleGetAssetConsumption c action req)) = [JsObject body] ∧
    body !! "values" =
      Some (JsArray (getAssetConsumptions c (tenantID (Request.user req))
              {| assetID := AssetID (filterAssetConsumptionRequest c
                                       (Request.query req));
                 startDate := Some start; endDate := Some end_ |}
              ["startedAt"; "instantWatts"; "instantAmps"; "limitWatts";
               "limitAmps"; "endedAt"; "stateOfCharge"])) ∧
    forall k, k ≠ "values" -> body !! k = asset !! k.
Proof.
  intros Hentry Hget Hstart Hend Hord.
  rewrite (consumption_queried c action req asset start end_) by assumption.
  eexists. split; [reflexivity|]. split.
  - unfold set. by rewrite lookup_insert_eq.
  - intros k Hk. unfold set. by rewrite lookup_insert_ne.
Qed.

(** X6. The handlers that read ([handleGetAssetConsumption],
    [handleCheckAssetConnection], [handleGetAssetsInError]) never call
    [AssetStorage.saveAsset], whatever the collaborators answer. *)
Theorem reading_handlers_save_nothing c action req :
  savedAssets (calls (handleGetAssetConsumption c action req)) = [] ∧
  savedAssets (calls (handleCheckAssetConnection c action req)) = [] ∧
  savedAssets (calls (handleGetAssetsInError c action req)) = [].
Proof.
  split; [|split].
  - unfold handleGetAssetConsumption.
    destruct (assertComponentIsActiveFromToken _ _ _ _ _ _ _); [reflexivity|].
    rewrite assert_None.
    destruct (assertIdIsProvided _ _ _ _ _ _); [reflexivity|].
    rewrite assert_None.
    destruct (canReadAsset _ _); [|reflexivity]. cbn [negb].
    rewrite bind_call.
    destruct (getAsset _ _ _ _ _) as [asset|]; [|reflexivity].
    unfold assertObjectExists. rewrite bind_ret.
    destruct (StartDate _) as [[x|]|], (EndDate _) as [[y|]|];
      try reflexivity.
    cbn [present negb orb isAfter]. rewrite bind_ret.
    destruct (y <? x); reflexivity.
  - unfold handleCheckAssetConnection.
    destruct (assertComponentIsActiveFromToken _ _ _ _ _ _ _); [reflexivity|].
    rewrite assert_None, bind_call.
    destruct (getAssetImpl _ _ _) as [impl|]; [|reflexivity].
    destruct (canCheckAssetConnection _ _); [|reflexivity].
    destruct (checkConnection impl); reflexivity.
  - unfold handleGetAssetsInError.
    destruct (assertComponentIsActiveFromToken _ _ _ _ _ _ _); [reflexivity|].
    rewrite assert_None.
    destruct (canListAssetsInError _ _); reflexivity.
Qed.

(** X7. The site-area identifiers [handleGetAssetsInError] hands to the
    store are the pieces of the SiteAreaID string between its bars: none of
    them contains a bar, there is one more of them than there are bars, and
    joined with bars they give the string back. *)
Theorem listing_ids_are_bar_free c action req s :
  listable c req ->
  SiteAreaID (filterAssetsRequest c (Request.query req)) = Some s ->
  s ≠ "" ->
  exists filter dbParams ids,
    inErrorQueries (calls (handleGetAssetsInError c action req)) =
      [(filter, dbParams)] ∧
    siteAreaIDs filter = Some ids ∧
    join BAR ids = s ∧
    Forall (fun id => occurrences BAR id = 0%nat) ids ∧
    length ids = S (occurrences BAR s).
Proof.
  intros Hentry Hareas Hs.
  rewrite (listing_run c action req Hentry). cbn zeta.
  eexists _, _, (split BAR s). split; [reflexivity|].
  cbn [siteAreaIDs]. rewrite Hareas.
  assert (truthy (Some s) = true) as ->.
  { cbn. by apply negb_true_iff, String.eqb_neq. }
  split; [reflexivity|]. split; [apply join_split|].
  split; [apply split_pieces_free | apply length_split].
Qed.

(** X8. The answer of a connection check carries the outcome of the probe
    under [connectionIsValid] and every property of the success constant,
    as long as the constant has no property of that name (it would take
    precedence).  A probe that rejects with [null] or [undefined] is the
    one case with no answer at all. *)
Theorem check_answer_reads_back c action req impl :
  checkable c req ->
  getAssetImpl c (tenantID (Request.user req))
    (JsString (filterAssetRequestByID c (Request.query req))) = Some impl ->
  canCheckAssetConnection c (Request.user req) = true ->
  REST_RESPONSE_SUCCESS c !! "connectionIsValid" = None ->
  let answered (valid : bool) :=
    exists body : JsObj,
      responses (calls (handleCheckAssetConnection c action req)) =
        [JsObject body] ∧
      get body "connectionIsValid" = JsBool valid ∧
      forall k v, REST_RESPONSE_SUCCESS c !! k = Some v -> body !! k = Some v in
  match checkConnection impl with
  | Resolved _ => answered true
  | Rejected _ => answered false
  | RejectedNullish _ =>
      responses (calls (handleCheckAssetConnection c action req)) = []
  end.
Proof.
  intros Hactive Himpl Hauth Hfree answered. subst answered. cbv beta.
  rewrite (check_probed c action req impl Hactive Himpl Hauth).
  destruct (checkConnection impl); [| |reflexivity];
    eexists; (split; [reflexivity|]); split.
  - apply (connectionIsValid_read c true Hfree).
  - intros k v Hk. by apply assign_source.
  - apply (connectionIsValid_read c false Hfree).
  - intros k v Hk. by apply assign_source.
Qed.

(** * Properties of the other handlers *)

(** ** Assignments *)

Lemma assign_lookup_ext ps (o1 o2 : JsObj) k :
  o1 !! k = o2 !! k -> assign ps o1 !! k = assign ps o2 !! k.
Proof.
  unfold assign. revert o1 o2.
  induction ps as [|[k' v] ps IH]; intros o1 o2 Hk; [assumption|].
  cbn [foldl]. apply IH. unfold set. cbn [fst snd].
  destruct (decide (k' = k)) as [->|Hne].
  - by rewrite !lookup_insert_eq.
  - by rewrite !lookup_insert_ne.
Qed.

(** The properties that are not assigned are kept. *)
Lemma assign_other ps (o : JsObj) k :
  k ∉ ps.*1 -> assign ps o !! k = o !! k.
Proof.
  unfold assign. revert o.
  induction ps as [|[k' v] ps IH]; intros o Hk; [reflexivity|].
  cbn [fmap list_fmap fst] in Hk. apply not_elem_of_cons in Hk as [Hne Hk].
  cbn [foldl]. rewrite IH by assumption.
  unfold set. cbn [fst snd]. by rewrite lookup_insert_ne.
Qed.

(** A property assigned once holds the value assigned. *)
Lemma assign_property ps (o : JsObj) k v :
  NoDup ps.*1 -> (k, v) ∈ ps -> assign ps o !! k = Some v.
Proof.
  unfold assign. revert o.
  induction ps as [|[k' v'] ps IH]; intros o Hnodup Hin.
  - by apply elem_of_nil in Hin.
  - cbn [fmap list_fmap fst] in Hnodup.
    apply NoDup_cons in Hnodup as [Hfresh Hnodup].
    cbn [foldl]. apply elem_of_cons in Hin as [[= -> ->]|Hin].
    + pose proof (assign_other ps (set o k' v') k' Hfresh) as Hkept.
      unfold assign in Hkept. cbn [fst snd]. rewrite Hkept.
      unfold set. by rewrite lookup_insert_eq.
    + by apply IH.
Qed.

(** Assigning properties and overlaying a sample on other properties can be
    done in either order. *)
Lemma overlay_assign fields (from : JsObj) ps (o : JsObj) :
  (forall k, k ∈ fields -> k ∉ ps.*1) ->
  overlay fields from (assign ps o) = assign ps (overlay fields from o).
Proof.
  intros Hdisjoint. apply map_eq. intros k.
  destruct (decide (k ∈ fields)) as [Hin|Hout].
  - rewrite overlay_field by assumption.
    rewrite assign_other by auto. by rewrite overlay_field.
  - rewrite overlay_other by assumption.
    apply assign_lookup_ext. by rewrite overlay_other.
Qed.

(** ** [handleDeleteAsset] *)

(** X9. Whatever the collaborators answer, [handleDeleteAsset] deletes
    nothing, or deletes once: for a caller who may delete assets, the asset
    the storage returned for the identifier of the request, by the [id] of
    that asset. *)
Theorem delete_only_loaded_assets c d action req :
  Crud.deleted (Crud.effects (Crud.handleDeleteAsset c d action req)) = [] ∨
  (Crud.canDeleteAsset d (Crud.HttpRequest.user req) = true ∧
   exists asset,
     getAsset c (tenantID (Crud.HttpRequest.user req))
       (Crud.HttpAssetRequest.ID
          (Crud.filterAssetRequest d (Crud.HttpRequest.query req)))
       (Some {[ "withSiteArea" :=
                  Crud.HttpAssetRequest.WithSiteArea
                    (Crud.filterAssetRequest d (Crud.HttpRequest.query req)) ]})
       None = Some asset ∧
     Crud.deleted (Crud.effects (Crud.handleDeleteAsset c d action req)) =
       [(tenantID (Crud.HttpRequest.user req), get asset "id")]).
Proof.
  unfold Crud.handleDeleteAsset.
  destruct (Crud.assertComponentIsActiveFromToken _ _ _ _ _ _ _);
    [by left|].
  destruct (assertIdIsProvided _ _ _ _ _ _); [by left|].
  destruct (Crud.canDeleteAsset _ _) eqn:Hauth; [|by left].
  destruct (getAsset _ _ _ _ _) as [asset|] eqn:Hget; [|by left].
  right. split; [reflexivity|]. by exists asset.
Qed.

(** ** Strings *)

Lemma append_String ch (s t : string) : String ch s ++ t = String ch (s ++ t).
Proof. reflexivity. Qed.

Lemma append_assoc (s t u : string) : (s ++ t) ++ u = s ++ t ++ u.
Proof.
  induction s as [|ch s IH]; [reflexivity|].
  by rewrite !append_String, IH.
Qed.

Lemma occurrences_append ch (s t : string) :
  occurrences ch (s ++ t) = (occurrences ch s + occurrences ch t)%nat.
Proof.
  induction s as [|c s IH]; [reflexivity|].
  rewrite append_String. cbn [occurrences]. rewrite IH. lia.
Qed.

Lemma indexOfFrom_absent ch s i :
  occurrences ch s = 0%nat -> indexOfFrom ch s i = -1.
Proof.
  revert i. induction s as [|c s IH]; intros i H; [reflexivity|].
  cbn [occurrences] in H. cbn [indexOfFrom].
  destruct (Ascii.eqb c ch); [discriminate|]. by apply IH.
Qed.

Lemma indexOfFrom_first ch s rest i :
  occurrences ch s = 0%nat ->
  indexOfFrom ch (s ++ String ch rest) i = i + Z.of_nat (String.length s).
Proof.
  revert i. induction s as [|c s IH]; intros i H.
  - change ("" ++ String ch rest) with (String ch rest).
    cbn [indexOfFrom String.length]. rewrite Ascii.eqb_refl. lia.
  - cbn [occurrences] in H. rewrite append_String.
    cbn [indexOfFrom String.length].
    destruct (Ascii.eqb c ch); [discriminate|].
    rewrite IH by assumption. lia.
Qed.

(** [indexOf] finds the first occurrence, and answers -1 when there is
    none. *)
Lemma indexOf_first s ch rest :
  occurrences ch s = 0%nat ->
  indexOf (s ++ String ch rest) ch = Z.of_nat (String.length s).
Proof. intros H. unfold indexOf. by rewrite indexOfFrom_first. Qed.

Lemma indexOf_absent s ch : occurrences ch s = 0%nat -> indexOf s ch = -1.
Proof. apply indexOfFrom_absent. Qed.

Lemma substring_skip (a s : string) n m :
  String.substring (String.length a + n) m (a ++ s) = String.substring n m s.
Proof.
  induction a as [|ch a IH]; [reflexivity|].
  rewrite append_String. cbn [String.length Nat.add String.substring].
  apply IH.
Qed.

Lemma substring_take (b c : string) :
  String.substring 0 (String.length b) (b ++ c) = b.
Proof.
  induction b as [|ch b IH].
  - by destruct c.
  - rewrite append_String. cbn [String.length String.substring].
    by rewrite IH.
Qed.

(** The part of a string between two positions is the piece that lies
    there. *)
Lemma substring_middle (a b c : string) :
  substring (a ++ b ++ c) (Z.of_nat (String.length a))
    (Z.of_nat (String.length a) + Z.of_nat (String.length b)) = b.
Proof.
  unfold substring. rewrite !length_append.
  replace (Z.min _ _) with (Z.of_nat (String.length a)) by lia.
  replace (Z.max _ _ - _) with (Z.of_nat (String.length b)) by lia.
  rewrite !Nat2Z.id.
  rewrite <- (Nat.add_0_r (String.length a)), substring_skip.
  apply substring_take.
Qed.

Lemma append_empty (s : string) : s ++ "" = s.
Proof.
  induction s as [|ch s IH]; [reflexivity|]. by rewrite append_String, IH.
Qed.

Lemma substringFrom_tail (a b : string) :
  substringFrom (a ++ b) (Z.of_nat (String.length a)) = b.
Proof.
  pose proof (substring_middle a b "") as H. rewrite append_empty in H.
  unfold substringFrom. by rewrite length_append, Nat2Z.inj_add.
Qed.

Lemma prefix_split p s :
  String.prefix p s = true -> exists rest, s = p ++ rest.
Proof.
  revert s. induction p as [|ch p IH]; intros s H.
  - by exists s.
  - destruct s as [|c s]; [discriminate|]. cbn [String.prefix] in H.
    destruct (ascii_dec ch c) as [->|]; [|discriminate].
    destruct (IH s H) as [rest ->]. by exists rest.
Qed.

Lemma prefix_append p s rest :
  String.prefix p s = true -> String.prefix p (s ++ rest) = true.
Proof.
  revert s. induction p as [|ch p IH]; intros s H.
  - by destruct (s ++ rest).
  - destruct s as [|c s]; [discriminate|]. rewrite append_String.
    cbn [String.prefix] in *.
    destruct (ascii_dec ch c); [by apply IH | discriminate].
Qed.

Example substring_swaps : substring "abcdef" 4 1 = "bcd".
Proof. reflexivity. Qed.

Example substring_clamps : substring "abcdef" 2 (-1) = "ab".
Proof. reflexivity. Qed.

Example indexOf_none : indexOf "abc" SEMICOLON = -1.
Proof. reflexivity. Qed.

(** ** Runs over the extended vocabulary *)

Lemma run_ret {A B} (a : A) (k : A -> Crud.Run B) :
  @mbind Crud.Run Crud.Run_bind _ _ k (Crud.ret a) = k a.
Proof.
  unfold mbind, Crud.Run_bind, Crud.bind, Crud.ret.
  destruct (k a); reflexivity.
Qed.

Lemma run_perform {A B} (e : Crud.Effect) (a : A) (k : A -> Crud.Run B) :
  @mbind Crud.Run Crud.Run_bind _ _ k (Crud.perform e a) =
  (Crud.result (k a), e :: Crud.effects (k a)).
Proof.
  unfold mbind, Crud.Run_bind, Crud.bind, Crud.perform.
  destruct (k a); reflexivity.
Qed.

Lemma run_assert_None {B} (k : unit -> Crud.Run B) :
  @mbind Crud.Run Crud.Run_bind _ _ k (Crud.lift (assert None)) = k tt.
Proof. apply run_ret. Qed.

Lemma run_call {A B} (x : Call) (a : A) (k : A -> Crud.Run B) :
  @mbind Crud.Run Crud.Run_bind _ _ k (Crud.lift (call x a)) =
  (Crud.result (k a), Crud.Telemetry x :: Crud.effects (k a)).
Proof. apply (run_perform (Crud.Telemetry x)). Qed.

Lemma run_exists {A B} action (o : A) message module method user
    (k : A -> Crud.Run B) :
  @mbind Crud.Run Crud.Run_bind _ _ k
    (Crud.lift (assertObjectExists action (Some o) message module method user)) =
  k o.
Proof. apply run_ret. Qed.

Lemma str_Some s : str (Some s) = s.
Proof. reflexivity. Qed.

Lemma truthy_Some s : s ≠ "" -> truthy (Some s) = true.
Proof. intros H. cbn. by apply negb_true_iff, String.eqb_neq. Qed.

(** ** [handleDeleteAsset] and [handleGetAsset] *)

(** X10. Past its entry checks, [handleDeleteAsset] on an identifier the
    storage does not know fails with NotFound and deletes, logs and answers
    nothing; on a known asset it returns, having deleted the asset by its
    [id], then logged the deletion with the asset in the details, then
    answered the success constant. *)
Theorem delete_existing_asset_only c d action req :
  Crud.assertComponentIsActiveFromToken d (Crud.HttpRequest.user req)
    TenantComponents.ASSET Crud.Action.DELETE Entity.ASSET
    MODULE_NAME "handleDeleteAsset" = None ->
  assertIdIsProvided c action
    (Crud.HttpAssetRequest.ID
       (Crud.filterAssetRequest d (Crud.HttpRequest.query req)))
    MODULE_NAME "handleDeleteAsset" (Crud.HttpRequest.user req) = None ->
  Crud.canDeleteAsset d (Crud.HttpRequest.user req) = true ->
  let filteredRequest := Crud.filterAssetRequest d (Crud.HttpRequest.query req) in
  let ID := Crud.HttpAssetRequest.ID filteredRequest in
  let tenant := tenantID (Crud.HttpRequest.user req) in
  let params : JsObj :=
    {[ "withSiteArea" := Crud.HttpAssetRequest.WithSiteArea filteredRequest ]} in
  let run := Crud.handleDeleteAsset c d action req in
  match getAsset c tenant ID (Some params) None with
  | None =>
      Crud.result run =
        Crud.Threw (Crud.Base
          (NotFound action ("Asset ID '" ++ ID ++ "' does not exist")
             MODULE_NAME "handleDeleteAsset" (Crud.HttpRequest.user req))) ∧
      Crud.effects run =
        [Crud.Telemetry (AssetStorage_getAsset tenant ID (Some params) None)]
  | Some asset =>
      Crud.result run = Crud.Returned tt ∧
      exists log,
        Log.detailedMessages log = JsObject {[ "asset" := JsObject asset ]} ∧
        Crud.effects run =
          [Crud.Telemetry (AssetStorage_getAsset tenant ID (Some params) None);
           Crud.AssetStorage_deleteAsset tenant (get asset "id");
           Crud.Logging_logSecurityInfo log;
           Crud.Telemetry (res_json (JsObject (REST_RESPONSE_SUCCESS c)));
           Crud.Telemetry next]
  end.
Proof.
  intros Hactive Hid Hauth filteredRequest ID tenant params run.
  subst run filteredRequest ID tenant params.
  unfold Crud.handleDeleteAsset. rewrite Hactive, Hid, Hauth.
  destruct (getAsset _ _ _ _ _) as [asset|].
  - split; [reflexivity|]. eexists. split; [|reflexivity]. reflexivity.
  - split; reflexivity.
Qed.

(** X11. Past its entry checks, [handleGetAsset] answers once, with the
    asset as the storage returned it, and fails with NotFound, answering
    nothing, when the storage knows no such asset. *)
Theorem get_asset_answers_stored_asset c d action req :
  Crud.assertComponentIsActiveFromToken d (Crud.HttpRequest.user req)
    TenantComponents.ASSET Crud.Action.READ Entity.ASSET
    MODULE_NAME "handleGetAsset" = None ->
  assertIdIsProvided c action
    (Crud.HttpAssetRequest.ID
       (Crud.filterAssetRequest d (Crud.HttpRequest.query req)))
    MODULE_NAME "handleGetAsset" (Crud.HttpRequest.user req) = None ->
  canReadAsset c (Crud.HttpRequest.user req) = true ->
  let filteredRequest := Crud.filterAssetRequest d (Crud.HttpRequest.query req) in
  let ID := Crud.HttpAssetRequest.ID filteredRequest in
  let params : JsObj :=
    {[ "withSiteArea" := Crud.HttpAssetRequest.WithSiteArea filteredRequest ]} in
  let run := Crud.handleGetAsset c d action req in
  match getAsset c (tenantID (Crud.HttpRequest.user req)) ID (Some params) None with
  | None =>
      Crud.result run =
        Crud.Threw (Crud.Base
          (NotFound action ("Asset ID '" ++ ID ++ "' does not exist")
             MODULE_NAME "handleGetAsset" (Crud.HttpRequest.user req))) ∧
      Crud.answers (Crud.effects run) = []
  | Some asset =>
      Crud.result run = Crud.Returned tt ∧
      Crud.answers (Crud.effects run) = [JsObject asset]
  end.
Proof.
  intros Hactive Hid Hauth filteredRequest ID params run.
  subst run filteredRequest ID params.
  unfold Crud.handleGetAsset. rewrite Hactive, Hid, Hauth.
  destruct (getAsset _ _ _ _ _) as [asset|]; split; reflexivity.
Qed.

(** X12. [handleGetAsset], [handleGetAssets] and [handleGetAssetImage]
    neither save nor delete an asset, whatever the collaborators answer. *)
Theorem crud_readers_write_nothing c d action req :
  (Crud.saved (Crud.effects (Crud.handleGetAsset c d action req)) = [] ∧
   Crud.deleted (Crud.effects (Crud.handleGetAsset c d action req)) = []) ∧
  (Crud.saved (Crud.effects (Crud.handleGetAssets c d action req)) = [] ∧
   Crud.deleted (Crud.effects (Crud.handleGetAssets c d action req)) = []) ∧
  (Crud.saved (Crud.effects (Crud.handleGetAssetImage c d action req)) = [] ∧
   Crud.deleted (Crud.effects (Crud.handleGetAssetImage c d action req)) = []).
Proof.
  split; [|split].
  - unfold Crud.handleGetAsset.
    destruct (Crud.assertComponentIsActiveFromToken _ _ _ _ _ _ _); [by split|].
    destruct (assertIdIsProvided _ _ _ _ _ _); [by split|].
    destruct (canReadAsset _ _); [|by split].
    destruct (getAsset _ _ _ _ _); by split.
  - unfold Crud.handleGetAssets.
    destruct (Crud.assertComponentIsActiveFromToken _ _ _ _ _ _ _); [by split|].
    destruct (Crud.canListAssets _ _); [|by split].
    rewrite run_assert_None. cbn [negb]. rewrite run_perform.
    destruct (Crud.authorized _); by split.
  - unfold Crud.handleGetAssetImage.
    destruct (assertIdIsProvided _ _ _ _ _ _); [by split|].
    rewrite run_assert_None, run_perform. cbv beta.
    destruct (truthy _); [|by split].
    destruct (startsWith _ _);
      (destruct (truthy _); [|by split]);
      unfold Crud.Buffer_from_; destruct (Crud.Buffer_from _ _ _); by split.
Qed.

(** ** [handleGetAssetImage] *)

(** The stored image of the request, when there is one. *)
Local Abbreviation storedImage d req :=
  (Crud.getAssetImage d
     (Crud.HttpAssetImageRequest.TenantID
        (Crud.filterAssetImageRequest d (Crud.HttpRequest.query req)))
     (Crud.HttpAssetImageRequest.ID
        (Crud.filterAssetImageRequest d (Crud.HttpRequest.query req)))
   ≫= Crud.AssetImage.image).

Local Abbreviation idProvided c d action req :=
  (assertIdIsProvided c action
     (Crud.HttpAssetImageRequest.ID
        (Crud.filterAssetImageRequest d (Crud.HttpRequest.query req)))
     MODULE_NAME "handleGetAssetImage" (Crud.HttpRequest.user req) = None).

Lemma data_url_parts mime encoding payload :
  occurrences SEMICOLON mime = 0%nat ->
  occurrences COMMA mime = 0%nat ->
  occurrences COMMA encoding = 0%nat ->
  let image := "data:" ++ mime ++ ";" ++ encoding ++ "," ++ payload in
  substring image 5 (indexOf image SEMICOLON) = mime ∧
  substring image (indexOf image SEMICOLON + 1) (indexOf image COMMA) = encoding ∧
  substringFrom image (indexOf image COMMA + 1) = payload.
Proof.
  intros Hmime Hmime' Hencoding image.
  assert (indexOf image SEMICOLON = 5 + Z.of_nat (String.length mime)) as ->.
  { subst image.
    change ("data:" ++ mime ++ ";" ++ encoding ++ "," ++ payload)
      with ("data:" ++ mime ++ String SEMICOLON (encoding ++ "," ++ payload)).
    rewrite <- append_assoc, indexOf_first.
    - rewrite length_append. cbn [String.length]. lia.
    - rewrite occurrences_append, Hmime. reflexivity. }
  assert (indexOf image COMMA =
          5 + Z.of_nat (String.length mime) + 1 +
          Z.of_nat (String.length encoding)) as ->.
  { subst image.
    change ("data:" ++ mime ++ ";" ++ encoding ++ "," ++ payload)
      with ("data:" ++ mime ++ ";" ++ encoding ++ String COMMA payload).
    rewrite <- (append_assoc ";"), <- (append_assoc mime),
      <- (append_assoc "data:"), indexOf_first.
    - rewrite !length_append. cbn [String.length]. lia.
    - rewrite !occurrences_append, Hmime', Hencoding. reflexivity. }
  split; [|split].
  - subst image.
    change 5 with (Z.of_nat (String.length "data:")).
    apply substring_middle.
  - subst image.
    rewrite <- (append_assoc mime), <- (append_assoc "data:").
    replace (5 + Z.of_nat (String.length mime) + 1)
      with (Z.of_nat (String.length ("data:" ++ mime ++ ";")))
      by (rewrite !length_append; cbn [String.length]; lia).
    apply substring_middle.
  - subst image.
    rewrite <- (append_assoc encoding), <- (append_assoc ";"),
      <- (append_assoc mime), <- (append_assoc "data:").
    replace (5 + Z.of_nat (String.length mime) + 1 +
             Z.of_nat (String.length encoding) + 1)
      with (Z.of_nat (String.length
              ("data:" ++ mime ++ ";" ++ encoding ++ ",")))
      by (rewrite !length_append; cbn [String.length]; lia).
    apply substringFrom_tail.
Qed.

(** X13. [handleGetAssetImage] takes a stored data URL
    [data:<mime>;<encoding>,<payload>] apart, for an image MIME type
    without ';' or ',' and an encoding without ',': the content type set is
    the MIME type, and the body sent is [Buffer.from(payload, encoding)];
    when the payload is empty the body is null, and when [Buffer.from]
    throws, the error is thrown on after the header is set and nothing is
    sent. *)
Theorem image_data_url_is_taken_apart c d action req mime encoding payload :
  idProvided c d action req ->
  storedImage d req =
    Some ("data:" ++ mime ++ ";" ++ encoding ++ "," ++ payload) ->
  startsWith mime "image/" = true ->
  occurrences SEMICOLON mime = 0%nat ->
  occurrences COMMA mime = 0%nat ->
  occurrences COMMA encoding = 0%nat ->
  let run := Crud.handleGetAssetImage c d action req in
  Crud.headers (Crud.effects run) = [("content-type", mime)] ∧
  if String.eqb payload "" then
    Crud.result run = Crud.Returned tt ∧ Crud.sent (Crud.effects run) = [None]
  else
    match Crud.Buffer_from d payload encoding with
    | inr buffer =>
        Crud.result run = Crud.Returned tt ∧
        Crud.sent (Crud.effects run) = [Some buffer]
    | inl error =>
        Crud.result run = Crud.Threw (Crud.Base (Error_ error)) ∧
        Crud.sent (Crud.effects run) = []
    end.
Proof.
  intros Hid Hstored Hmime Hsemi Hcomma Hcomma' run. subst run.
  destruct (data_url_parts mime encoding payload Hsemi Hcomma Hcomma')
    as (Hheader & Hencoding & Hpayload).
  unfold Crud.handleGetAssetImage.
  rewrite Hid, run_assert_None, run_perform. cbv beta.
  rewrite Hstored, str_Some.
  assert (startsWith ("data:" ++ mime ++ ";" ++ encoding ++ "," ++ payload)
            "data:image/" = true) as ->.
  { unfold startsWith in *.
    change ("data:" ++ mime ++ ";" ++ encoding ++ "," ++ payload)
      with ("data:" ++ (mime ++ ";" ++ encoding ++ "," ++ payload)).
    apply (prefix_append "image/") with (rest := ";" ++ encoding ++ "," ++ payload)
      in Hmime.
    exact Hmime. }
  rewrite Hheader, Hencoding, Hpayload.
  destruct (String.eqb_spec payload "") as [->|Hpayload'].
  - split; [reflexivity|]. split; reflexivity.
  - rewrite (truthy_Some _ Hpayload'). unfold Crud.Buffer_from_.
    destruct (Crud.Buffer_from d payload encoding);
      (split; [reflexivity|]); split; reflexivity.
Qed.

(** X14. [handleGetAssetImage] serves a stored image that is not a data
    URL of an image as it is: the content type is 'image' and the body is
    [Buffer.from(image, 'base64')]. *)
Theorem image_without_header_is_base64 c d action req image :
  idProvided c d action req ->
  storedImage d req = Some image ->
  image ≠ "" ->
  startsWith image "data:image/" = false ->
  let run := Crud.handleGetAssetImage c d action req in
  Crud.headers (Crud.effects run) = [("content-type", "image")] ∧
  match Crud.Buffer_from d image "base64" with
  | inr buffer =>
      Crud.result run = Crud.Returned tt ∧
      Crud.sent (Crud.effects run) = [Some buffer]
  | inl error =>
      Crud.result run = Crud.Threw (Crud.Base (Error_ error)) ∧
      Crud.sent (Crud.effects run) = []
  end.
Proof.
  intros Hid Hstored Himage Hplain run. subst run.
  unfold Crud.handleGetAssetImage.
  rewrite Hid, run_assert_None, run_perform. cbv beta.
  rewrite Hstored, str_Some, Hplain, (truthy_Some _ Himage).
  unfold Crud.Buffer_from_.
  destruct (Crud.Buffer_from d image "base64");
    (split; [reflexivity|]); split; reflexivity.
Qed.

(** X15. When the storage has no image for the asset (no record, no image
    in it, or an empty one), [handleGetAssetImage] sends null, sets no
    header and returns. *)
Theorem image_absent_sends_null c d action req :
  idProvided c d action req ->
  truthy (storedImage d req) = false ->
  let run := Crud.handleGetAssetImage c d action req in
  Crud.result run = Crud.Returned tt ∧
  Crud.headers (Crud.effects run) = [] ∧
  Crud.sent (Crud.effects run) = [None].
Proof.
  intros Hid Hnone run. subst run.
  unfold Crud.handleGetAssetImage.
  rewrite Hid, run_assert_None, run_perform. cbv beta.
  rewrite Hnone. repeat split; reflexivity.
Qed.

(** X16. For a stored image that starts with 'data:image/' and has no ';',
    [handleGetAssetImage] sets the content type 'data:': [indexOf] answers
    -1, and [substring(5, -1)] is the part of the string before
    position 5. *)
Theorem image_without_semicolon_has_type_data c d action req image :
  idProvided c d action req ->
  storedImage d req = Some image ->
  startsWith image "data:image/" = true ->
  occurrences SEMICOLON image = 0%nat ->
  Crud.headers (Crud.effects (Crud.handleGetAssetImage c d action req)) =
    [("content-type", "data:")].
Proof.
  intros Hid Hstored Hdata Hsemi.
  assert (image ≠ "") as Himage by (intros ->; discriminate).
  assert (substring image 5 (indexOf image SEMICOLON) = "data:") as Hheader.
  { rewrite indexOf_absent by assumption.
    destruct (prefix_split _ _ Hdata) as [rest ->].
    unfold substring. rewrite length_append. cbn [String.length].
    replace (Z.min _ _) with 0 by lia.
    replace (Z.max _ _ - 0) with 5 by lia.
    reflexivity. }
  unfold Crud.handleGetAssetImage.
  rewrite Hid, run_assert_None, run_perform. cbv beta.
  rewrite Hstored, str_Some, Hdata, (truthy_Some _ Himage), Hheader.
  destruct (truthy _); [|reflexivity].
  unfold Crud.Buffer_from_. destruct (Crud.Buffer_from _ _ _); reflexivity.
Qed.

(** ** [handleGetAssets] *)

Local Abbreviation authorization d req c :=
  (Crud.checkAndGetAssetsAuthorizationFilters d
     (Crud.HttpRequest.tenant req) (Crud.HttpRequest.user req)
     (filterAssetsRequest c (Crud.HttpRequest.query req))
     (Crud.filterAssetsFlags d (Crud.HttpRequest.query req))).

Local Abbreviation mayList d req :=
  (Crud.assertComponentIsActiveFromToken d (Crud.HttpRequest.user req)
     TenantComponents.ASSET Crud.Action.LIST Entity.ASSETS
     MODULE_NAME "handleGetAssets" = None ∧
   Crud.canListAssets d (Crud.HttpRequest.user req) = true).

(** X17. In the filter [handleGetAssets] hands to the storage, a property
    the authorization filters define holds their value, whatever the
    request asked for under that name; the other properties are those of
    the request.  The fields projected are those of the authorization. *)
Theorem assets_authorization_filters_prevail c d action req :
  mayList d req ->
  Crud.authorized (authorization d req c) = true ->
  exists filter : JsObj,
    Crud.listed (Crud.effects (Crud.handleGetAssets c d action req)) =
      [(filter, Crud.projectFields (authorization d req c))] ∧
    (forall k v, Crud.filters (authorization d req c) !! k = Some v ->
                 filter !! k = Some v) ∧
    (forall k, Crud.filters (authorization d req c) !! k = None ->
               filter !! k =
               Crud.requestedFilter
                 (filterAssetsRequest c (Crud.HttpRequest.query req))
                 (Crud.filterAssetsFlags d (Crud.HttpRequest.query req)) !! k).
Proof.
  intros [Hactive Hlist] Hauthorized.
  unfold Crud.handleGetAssets.
  rewrite Hactive, run_assert_None, Hlist. cbn [negb].
  rewrite run_perform. cbv beta. rewrite Hauthorized. cbn [negb].
  eexists. split; [reflexivity|]. split.
  - intros k v Hk. by apply assign_source.
  - intros k Hk. by apply assign_own.
Qed.

(** X18. When the authorization filters do not authorize the listing,
    [handleGetAssets] leaves the answer to
    [UtilsService.sendEmptyDataResult] and returns: the storage is not
    queried. *)
Theorem assets_unauthorized_listing_is_empty c d action req :
  mayList d req ->
  Crud.authorized (authorization d req c) = false ->
  Crud.result (Crud.handleGetAssets c d action req) = Crud.Returned tt ∧
  Crud.listed (Crud.effects (Crud.handleGetAssets c d action req)) = [] ∧
  Crud.effects (Crud.handleGetAssets c d action req) =
    [Crud.AuthorizationService_checkAndGetAssetsAuthorizationFilters
       (Crud.HttpRequest.tenant req) (Crud.HttpRequest.user req)
       (filterAssetsRequest c (Crud.HttpRequest.query req))
       (Crud.filterAssetsFlags d (Crud.HttpRequest.query req));
     Crud.UtilsService_sendEmptyDataResult].
Proof.
  intros [Hactive Hlist] Hauthorized.
  unfold Crud.handleGetAssets.
  rewrite Hactive, run_assert_None, Hlist. cbn [negb].
  rewrite run_perform. cbv beta. rewrite Hauthorized.
  repeat split; reflexivity.
Qed.

(** ** [handleCreateAsset] and [handleUpdateAsset] *)

Lemma creations_keys filteredRequest siteArea user now :
  (Crud.creations filteredRequest siteArea user now).*1 =
  ["name"; "siteAreaID"; "siteID"; "assetType"; "excludeFromSmartCharging";
   "fluctuationPercent"; "staticValueWatt"; "coordinates"; "image";
   "dynamicAsset"; "connectionID"; "meterID"; "createdBy"; "createdOn"].
Proof. reflexivity. Qed.

Lemma updates_keys filteredRequest siteArea user now :
  (Crud.updates filteredRequest siteArea user now).*1 =
  ["name"; "siteAreaID"; "siteID"; "assetType"; "excludeFromSmartCharging";
   "fluctuationPercent"; "staticValueWatt"; "coordinates"; "image";
   "dynamicAsset"; "connectionID"; "meterID"; "lastChangedBy"; "lastChangedOn"].
Proof. reflexivity. Qed.

Lemma checkSiteArea_known d action req filteredRequest method :
  Crud.siteAreaKnown d req filteredRequest ->
  Crud.checkSiteArea d action req filteredRequest method =
  (Crud.Returned (Crud.siteAreaOf d req filteredRequest),
   if toBoolean (get filteredRequest "siteAreaID")
   then [Crud.SiteAreaStorage_getSiteArea (tenantID (Crud.HttpRequest.user req))
           (get filteredRequest "siteAreaID")]
   else []).
Proof.
  intros Hknown. unfold Crud.checkSiteArea, Crud.siteAreaOf, Crud.siteAreaKnown in *.
  destruct (toBoolean _); [|reflexivity].
  destruct (Hknown eq_refl) as [siteArea Hsome].
  rewrite run_perform. cbv beta. rewrite Hsome. reflexivity.
Qed.


Lemma assign_is_Some ps (o : JsObj) k :
  is_Some (assign ps o !! k) <-> k ∈ ps.*1 ∨ is_Some (o !! k).
Proof.
  unfold assign. revert o.
  induction ps as [|[k' v] ps IH]; intros o.
  - cbn. rewrite elem_of_nil. tauto.
  - cbn [foldl fmap list_fmap fst snd]. rewrite IH, elem_of_cons.
    unfold set. destruct (decide (k' = k)) as [->|Hne].
    + rewrite lookup_insert_eq. split; [auto|]. intros _. right. by eexists.
    + rewrite lookup_insert_ne by assumption. split.
      * intros [?|?]; auto.
      * intros [[?|?]|?]; auto. congruence.
Qed.

Lemma creations_NoDup filteredRequest siteArea user now :
  NoDup (Crud.creations filteredRequest siteArea user now).*1.
Proof.
  rewrite creations_keys. apply (bool_decide_unpack _). vm_compute. reflexivity.
Qed.

Lemma updates_NoDup filteredRequest siteArea user now :
  NoDup (Crud.updates filteredRequest siteArea user now).*1.
Proof.
  rewrite updates_keys. apply (bool_decide_unpack _). vm_compute. reflexivity.
Qed.

Ltac among :=
  repeat first [apply list_elem_of_here | apply list_elem_of_further].

Lemma creations_request filteredRequest siteArea user now (o : JsObj) :
  Forall (fun k => assign (Crud.creations filteredRequest siteArea user now) o !! k
                   = Some (get filteredRequest k))
         Crud.requestProperties.
Proof.
  repeat constructor;
    (apply assign_property; [apply creations_NoDup | among]).
Qed.

Lemma updates_request filteredRequest siteArea user now (o : JsObj) :
  Forall (fun k => assign (Crud.updates filteredRequest siteArea user now) o !! k
                   = Some (get filteredRequest k))
         Crud.requestProperties.
Proof.
  repeat constructor;
    (apply assign_property; [apply updates_NoDup | among]).
Qed.

Local Abbreviation created d req :=
  (assign (Crud.creations
             (Crud.filterAssetCreateRequest d (Crud.HttpRequest.body req))
             (Crud.siteAreaOf d req
                (Crud.filterAssetCreateRequest d (Crud.HttpRequest.body req)))
             (Crud.HttpRequest.user req) (Crud.now d)) ∅).

Local Abbreviation mayCreate d req :=
  (Crud.assertComponentIsActiveFromToken d (Crud.HttpRequest.user req)
     TenantComponents.ASSET Crud.Action.CREATE Entity.ASSET
     MODULE_NAME "handleCreateAsset" = None ∧
   Crud.canCreateAsset d (Crud.HttpRequest.user req) = true ∧
   Crud.checkIfAssetValid d
     (Crud.filterAssetCreateRequest d (Crud.HttpRequest.body req)) req = None ∧
   Crud.siteAreaKnown d req
     (Crud.filterAssetCreateRequest d (Crud.HttpRequest.body req))).

(** X19. Whatever the collaborators answer, [handleCreateAsset] saves
    nothing, or saves once: for a caller who may create assets, a request
    that passed [checkIfAssetValid] and names no site area or one the
    storage knows, the asset made of the properties of its object
    literal. *)
Theorem create_saves_only_checked_assets c d action req :
  Crud.saved (Crud.effects (Crud.handleCreateAsset c d action req)) = [] ∨
  (Crud.canCreateAsset d (Crud.HttpRequest.user req) = true ∧
   Crud.checkIfAssetValid d
     (Crud.filterAssetCreateRequest d (Crud.HttpRequest.body req)) req = None ∧
   Crud.siteAreaKnown d req
     (Crud.filterAssetCreateRequest d (Crud.HttpRequest.body req)) ∧
   Crud.saved (Crud.effects (Crud.handleCreateAsset c d action req)) =
     [(tenantID (Crud.HttpRequest.user req), created d req)]).
Proof.
  unfold Crud.handleCreateAsset.
  destruct (Crud.assertComponentIsActiveFromToken _ _ _ _ _ _ _); [by left|].
  destruct (Crud.canCreateAsset _ _) eqn:Hauth; [|by left].
  destruct (Crud.checkIfAssetValid _ _ _) eqn:Hvalid; [by left|].
  unfold Crud.checkSiteArea, Crud.siteAreaOf, Crud.siteAreaKnown.
  destruct (toBoolean _) eqn:Hnamed.
  - destruct (Crud.getSiteArea _ _ _) as [siteArea|] eqn:Hknown; [|by left].
    right. split; [reflexivity|]. split; [reflexivity|].
    split; [intros _; by eexists | reflexivity].
  - right. split; [reflexivity|]. split; [reflexivity|].
    split; [discriminate | reflexivity].
Qed.

(** X20. The asset [handleCreateAsset] saves has the fourteen properties of
    its object literal and no other (no [id], no live-state field): the
    eleven properties of the request as they are, the [siteID] of the site
    area that was looked up (null without one), and the caller as
    [createdBy].  The answer carries, under [id], the identifier the
    storage returned, as long as the success constant has no [id]. *)
Theorem create_builds_asset_from_request c d action req :
  mayCreate d req ->
  REST_RESPONSE_SUCCESS c !! "id" = None ->
  let filteredRequest :=
    Crud.filterAssetCreateRequest d (Crud.HttpRequest.body req) in
  let tenant := tenantID (Crud.HttpRequest.user req) in
  let run := Crud.handleCreateAsset c d action req in
  exists newAsset body : JsObj,
    Crud.result run = Crud.Returned tt ∧
    Crud.saved (Crud.effects run) = [(tenant, newAsset)] ∧
    (forall k, is_Some (newAsset !! k) <->
       k ∈ ["name"; "siteAreaID"; "siteID"; "assetType";
            "excludeFromSmartCharging"; "fluctuationPercent";
            "staticValueWatt"; "coordinates"; "image"; "dynamicAsset";
            "connectionID"; "meterID"; "createdBy"; "createdOn"]) ∧
    Forall (fun k => newAsset !! k = Some (get filteredRequest k))
           Crud.requestProperties ∧
    newAsset !! "siteID" =
      Some (Crud.siteIDOf (Crud.siteAreaOf d req filteredRequest)) ∧
    newAsset !! "createdBy" =
      Some (JsObject {[ "id" := JsString (user_id (Crud.HttpRequest.user req)) ]}) ∧
    Crud.answers (Crud.effects run) = [JsObject body] ∧
    get body "id" = JsString (Crud.saveAsset d tenant newAsset).
Proof.
  intros (Hactive & Hauth & Hvalid & Hknown) Hfree filteredRequest tenant run.
  subst filteredRequest tenant run.
  exists (created d req). eexists.
  unfold Crud.handleCreateAsset.
  rewrite Hactive, run_assert_None, Hauth. cbn [negb].
  rewrite Hvalid, run_assert_None.
  rewrite (checkSiteArea_known d action req _ "handleCreateAsset" Hknown).
  split; [by destruct (toBoolean _)|].
  split; [by destruct (toBoolean _)|].
  split.
  { intros k. rewrite assign_is_Some, creations_keys, lookup_empty.
    split; [intros [?|[? ?]]; [assumption|discriminate] | auto]. }
  split; [apply creations_request|].
  split; [apply assign_property; [apply creations_NoDup | among]|].
  split; [apply assign_property; [apply creations_NoDup | among]|].
  split; [by destruct (toBoolean _)|].
  unfold get at 1. rewrite assign_own by assumption.
  rewrite lookup_singleton_eq. cbn [default]. apply get_set_eq.
Qed.

Local Abbreviation updateId d req :=
  (Crud.filterAssetUpdateRequest d (Crud.HttpRequest.body req)).1.

Local Abbreviation updateRequest d req :=
  (Crud.filterAssetUpdateRequest d (Crud.HttpRequest.body req)).2.

Local Abbreviation updated d req asset :=
  (assign (Crud.updates (updateRequest d req)
             (Crud.siteAreaOf d req (updateRequest d req))
             (Crud.HttpRequest.user req) (Crud.now d)) asset).

Local Abbreviation mayUpdate c d req asset :=
  (Crud.assertComponentIsActiveFromToken d (Crud.HttpRequest.user req)
     TenantComponents.ASSET Crud.Action.UPDATE Entity.ASSET
     MODULE_NAME "handleUpdateAsset" = None ∧
   Crud.canUpdateAsset d (Crud.HttpRequest.user req) = true ∧
   Crud.siteAreaKnown d req (updateRequest d req) ∧
   getAsset c (tenantID (Crud.HttpRequest.user req)) (updateId d req)
     None None = Some asset ∧
   Crud.checkIfAssetValid d (updateRequest d req) req = None).

(** X21. Whatever the collaborators answer, [handleUpdateAsset] saves
    nothing, or saves once: for a caller who may update assets, a request
    that names no site area or a known one and passed [checkIfAssetValid],
    the asset the storage returned for the identifier of the request, with
    the assignments of the handler made on it. *)
Theorem update_saves_only_checked_assets c d action req :
  Crud.saved (Crud.effects (Crud.handleUpdateAsset c d action req)) = [] ∨
  exists asset,
    mayUpdate c d req asset ∧
    Crud.saved (Crud.effects (Crud.handleUpdateAsset c d action req)) =
      [(tenantID (Crud.HttpRequest.user req), updated d req asset)].
Proof.
  unfold Crud.handleUpdateAsset.
  destruct (Crud.assertComponentIsActiveFromToken _ _ _ _ _ _ _) eqn:Hactive;
    [by left|].
  destruct (Crud.filterAssetUpdateRequest d (Crud.HttpRequest.body req))
    as [id filteredRequest] eqn:Hfiltered.
  cbn [fst snd].
  destruct (Crud.canUpdateAsset _ _) eqn:Hauth; [|by left].
  unfold Crud.checkSiteArea, Crud.siteAreaOf, Crud.siteAreaKnown.
  destruct (toBoolean _) eqn:Hnamed.
  - destruct (Crud.getSiteArea _ _ _) as [siteArea|] eqn:Hknown; [|by left].
    destruct (getAsset _ _ _ _ _) as [asset|] eqn:Hget; [|by left].
    destruct (Crud.checkIfAssetValid _ _ _) eqn:Hvalid; [by left|].
    right. exists asset. split; [|reflexivity].
    split; [reflexivity|]. split; [reflexivity|].
    split; [intros _; by eexists|]. by split.
  - destruct (getAsset _ _ _ _ _) as [asset|] eqn:Hget; [|by left].
    destruct (Crud.checkIfAssetValid _ _ _) eqn:Hvalid; [by left|].
    right. exists asset. split; [|reflexivity].
    split; [reflexivity|]. split; [reflexivity|].
    split; [discriminate|]. by split.
Qed.

(** X22. The asset [handleUpdateAsset] saves differs from the stored one
    in the fourteen properties it assigns only: the eleven properties of
    the request, [siteID] (that of the site area looked up, null without
    one), [lastChangedBy] (the caller) and [lastChangedOn].  Every other
    property, the [id], [createdBy], [createdOn] and the live-state fields
    among them, is as stored. *)
Theorem update_touches_assigned_properties_only c d action req asset :
  mayUpdate c d req asset ->
  let run := Crud.handleUpdateAsset c d action req in
  exists saved : JsObj,
    Crud.result run = Crud.Returned tt ∧
    Crud.saved (Crud.effects run) =
      [(tenantID (Crud.HttpRequest.user req), saved)] ∧
    Forall (fun k => saved !! k = Some (get (updateRequest d req) k))
           Crud.requestProperties ∧
    saved !! "siteID" =
      Some (Crud.siteIDOf (Crud.siteAreaOf d req (updateRequest d req))) ∧
    saved !! "lastChangedBy" =
      Some (JsObject {[ "id" := JsString (user_id (Crud.HttpRequest.user req)) ]}) ∧
    saved !! "lastChangedOn" = Some (JsDate (Crud.now d)) ∧
    (forall k,
       k ∉ ["name"; "siteAreaID"; "siteID"; "assetType";
            "excludeFromSmartCharging"; "fluctuationPercent";
            "staticValueWatt"; "coordinates"; "image"; "dynamicAsset";
            "connectionID"; "meterID"; "lastChangedBy"; "lastChangedOn"] ->
       saved !! k = asset !! k) ∧
    Forall (fun k => saved !! k = asset !! k)
           ("id" :: "createdBy" :: "createdOn" :: liveStateFields).
Proof.
  intros (Hactive & Hauth & Hknown & Hget & Hvalid) run. subst run.
  exists (updated d req asset).
  assert (forall k,
    k ∉ ["name"; "siteAreaID"; "siteID"; "assetType";
         "excludeFromSmartCharging"; "fluctuationPercent";
         "staticValueWatt"; "coordinates"; "image"; "dynamicAsset";
         "connectionID"; "meterID"; "lastChangedBy"; "lastChangedOn"] ->
    updated d req asset !! k = asset !! k) as Hkept.
  { intros k Hk. apply assign_other. by rewrite updates_keys. }
  unfold Crud.handleUpdateAsset.
  rewrite Hactive, run_assert_None.
  destruct (Crud.filterAssetUpdateRequest d (Crud.HttpRequest.body req))
    as [id filteredRequest] eqn:Hfiltered.
  cbn [fst snd] in *. rewrite Hauth. cbn [negb].
  rewrite (checkSiteArea_known d action req _ "handleUpdateAsset" Hknown).
  split; [destruct (toBoolean _); by rewrite Hget, Hvalid|].
  split; [destruct (toBoolean _); by rewrite Hget, Hvalid|].
  split; [apply updates_request|].
  split; [apply assign_property; [apply updates_NoDup | among]|].
  split; [apply assign_property; [apply updates_NoDup | among]|].
  split; [apply assign_property; [apply updates_NoDup | among]|].
  split; [exact Hkept|].
  repeat constructor; apply Hkept;
    apply (bool_decide_unpack _); vm_compute; reflexivity.
Qed.

(** X23. The assignments of [handleUpdateAsset] and the overlay of a
    sample by [handleRetrieveConsumption] touch different properties:
    made on the same asset, they give the same asset in either order. *)
Theorem update_and_merge_commute filteredRequest siteArea user now
    (consumption asset : JsObj) :
  overlay liveStateFields consumption
    (assign (Crud.updates filteredRequest siteArea user now) asset) =
  assign (Crud.updates filteredRequest siteArea user now)
    (overlay liveStateFields consumption asset).
Proof.
  apply overlay_assign. intros k Hk. rewrite updates_keys.
  revert k Hk. apply Forall_forall.
  repeat constructor; apply (bool_decide_unpack _); vm_compute; reflexivity.
Qed.

(** X24. A request that names a site area the storage does not know is
    refused with NotFound before anything is written: [handleCreateAsset]
    saves nothing, and [handleUpdateAsset] neither loads nor saves the
    asset. *)
Theorem unknown_site_area_writes_nothing c d action req :
  (Crud.assertComponentIsActiveFromToken d (Crud.HttpRequest.user req)
     TenantComponents.ASSET Crud.Action.CREATE Entity.ASSET
     MODULE_NAME "handleCreateAsset" = None ->
   Crud.canCreateAsset d (Crud.HttpRequest.user req) = true ->
   Crud.checkIfAssetValid d
     (Crud.filterAssetCreateRequest d (Crud.HttpRequest.body req)) req = None ->
   toBoolean (get (Crud.filterAssetCreateRequest d (Crud.HttpRequest.body req))
                "siteAreaID") = true ->
   Crud.getSiteArea d (tenantID (Crud.HttpRequest.user req))
     (get (Crud.filterAssetCreateRequest d (Crud.HttpRequest.body req))
        "siteAreaID") = None ->
   Crud.result (Crud.handleCreateAsset c d action req) =
     Crud.Threw (Crud.Base
       (NotFound action
          ("Site Area ID '" ++
           Crud.ToString (Crud.ToString_other d)
             (get (Crud.filterAssetCreateRequest d (Crud.HttpRequest.body req))
                "siteAreaID") ++
           "' does not exist")
          MODULE_NAME "handleCreateAsset" (Crud.HttpRequest.user req))) ∧
   Crud.saved (Crud.effects (Crud.handleCreateAsset c d action req)) = []) ∧
  (Crud.assertComponentIsActiveFromToken d (Crud.HttpRequest.user req)
     TenantComponents.ASSET Crud.Action.UPDATE Entity.ASSET
     MODULE_NAME "handleUpdateAsset" = None ->
   Crud.canUpdateAsset d (Crud.HttpRequest.user req) = true ->
   toBoolean (get (updateRequest d req) "siteAreaID") = true ->
   Crud.getSiteArea d (tenantID (Crud.HttpRequest.user req))
     (get (updateRequest d req) "siteAreaID") = None ->
   Crud.result (Crud.handleUpdateAsset c d action req) =
     Crud.Threw (Crud.Base
       (NotFound action
          ("Site Area ID '" ++
           Crud.ToString (Crud.ToString_other d)
             (get (updateRequest d req) "siteAreaID") ++
           "' does not exist")
          MODULE_NAME "handleUpdateAsset" (Crud.HttpRequest.user req))) ∧
   Crud.loaded (Crud.effects (Crud.handleUpdateAsset c d action req)) = [] ∧
   Crud.saved (Crud.effects (Crud.handleUpdateAsset c d action req)) = []).
Proof.
  split.
  - intros Hactive Hauth Hvalid Hnamed Hunknown.
    unfold Crud.handleCreateAsset, Crud.checkSiteArea.
    rewrite Hactive, Hauth, Hvalid, Hnamed, Hunknown. split; reflexivity.
  - intros Hactive Hauth Hnamed Hunknown.
    unfold Crud.handleUpdateAsset, Crud.checkSiteArea.
    destruct (Crud.filterAssetUpdateRequest d (Crud.HttpRequest.body req))
      as [id filteredRequest].
    cbn [fst snd] in *.
    rewrite Hactive, Hauth, Hnamed, Hunknown. repeat split; reflexivity.
Qed.

(** * The further properties on the scenarios *)


Lemma retrieve_refuses_before_loading_witness :
  calls (handleRetrieveConsumption Scenario.intruder Scenario.act
           (Scenario.request "A1")) = [].
Proof.
  exact (f_equal snd
           (retrieve_refuses_before_loading Scenario.intruder Scenario.act
              (Scenario.request "A1") eq_refl eq_refl)).
Defined.

Lemma consumption_invalid_date_reaches_store_witness :
  outcome (handleGetAssetConsumption CrudScenario.undated Scenario.act
             (Scenario.request "A1")) = Return tt ∧
  consumptionQueries (calls (handleGetAssetConsumption CrudScenario.undated
                               Scenario.act (Scenario.request "A1"))) =
    [{| assetID := "A1"; startDate := Some InvalidDate;
        endDate := Some (TimeValue 0) |}].
Proof.
  exact (consumption_invalid_date_reaches_store CrudScenario.undated
           Scenario.act (Scenario.request "A1") Scenario.A1
           InvalidDate (TimeValue 0)
           (conj eq_refl (conj eq_refl eq_refl))
           eq_refl eq_refl eq_refl (or_introl eq_refl)).
Defined.

Lemma consumption_answers_asset_with_values_witness :
  exists body : JsObj,
    responses (calls (handleGetAssetConsumption (Scenario.ranged 0 1000)
                        Scenario.act (Scenario.request "A1"))) =
      [JsObject body] ∧
    body !! "values" = Some (JsArray []) ∧
    body !! "name" = Some (JsString "Battery").
Proof.
  destruct (consumption_answers_asset_with_values (Scenario.ranged 0 1000)
              Scenario.act (Scenario.request "A1") Scenario.A1
              (TimeValue 0) (TimeValue 1000)
              (conj eq_refl (conj eq_refl eq_refl))
              eq_refl eq_refl eq_refl eq_refl)
    as (body & Hanswer & Hvalues & Hkept).
  exists body. split; [exact Hanswer|]. split; [exact Hvalues|].
  rewrite (Hkept "name"); [reflexivity | discriminate].
Defined.

Lemma listing_ids_are_bar_free_witness :
  exists filter dbParams ids,
    inErrorQueries (calls (handleGetAssetsInError Scenario.listing
                             Scenario.act (Scenario.request ""))) =
      [(filter, dbParams)] ∧
    siteAreaIDs filter = Some ids ∧
    join BAR ids = "s1|s2" ∧
    length ids = 2%nat.
Proof.
  destruct (listing_ids_are_bar_free Scenario.listing Scenario.act
              (Scenario.request "") "s1|s2" (conj eq_refl eq_refl) eq_refl
              ltac:(discriminate))
    as (filter & dbParams & ids & Hquery & Hids & Hjoin & _ & Hlength).
  exists filter, dbParams, ids. repeat split; assumption.
Defined.

Lemma check_answer_reads_back_witness :
  exists body : JsObj,
    responses (calls (handleCheckAssetConnection
                        (Scenario.metered (Rejected Scenario.probeError) [])
                        Scenario.act (Scenario.request "meter-7"))) =
      [JsObject body] ∧
    get body "connectionIsValid" = JsBool false ∧
    body !! "status" = Some (JsString "Success").
Proof.
  destruct (check_answer_reads_back
              (Scenario.metered (Rejected Scenario.probeError) [])
              Scenario.act (Scenario.request "meter-7")
              (Scenario.connector (Rejected Scenario.probeError) [])
              eq_refl eq_refl eq_refl eq_refl)
    as (body & Hanswer & Hvalid & Hconstant).
  exists body. split; [exact Hanswer|]. split; [exact Hvalid|].
  apply Hconstant. reflexivity.
Defined.

Lemma delete_existing_asset_only_witness :
  Crud.result (Crud.handleDeleteAsset Scenario.unconfigured
                 (CrudScenario.services true None CrudScenario.restricted)
                 Scenario.act (CrudScenario.request "A1" ∅)) =
    Crud.Returned tt ∧
  Crud.deleted (Crud.effects
    (Crud.handleDeleteAsset Scenario.unconfigured
       (CrudScenario.services true None CrudScenario.restricted)
       Scenario.act (CrudScenario.request "A1" ∅))) =
    [("t1", JsString "A1")].
Proof.
  destruct (delete_existing_asset_only Scenario.unconfigured
              (CrudScenario.services true None CrudScenario.restricted)
              Scenario.act (CrudScenario.request "A1" ∅)
              eq_refl eq_refl eq_refl)
    as (Hreturned & log & _ & Heffects).
  split; [exact Hreturned|]. by rewrite Heffects.
Defined.

Lemma get_asset_answers_stored_asset_witness :
  Crud.result (Crud.handleGetAsset Scenario.unconfigured
                 (CrudScenario.services true None CrudScenario.restricted)
                 Scenario.act (CrudScenario.request "A1" ∅)) =
    Crud.Returned tt ∧
  Crud.answers (Crud.effects
    (Crud.handleGetAsset Scenario.unconfigured
       (CrudScenario.services true None CrudScenario.restricted)
       Scenario.act (CrudScenario.request "A1" ∅))) =
    [JsObject Scenario.A1].
Proof.
  exact (get_asset_answers_stored_asset Scenario.unconfigured
           (CrudScenario.services true None CrudScenario.restricted)
           Scenario.act (CrudScenario.request "A1" ∅)
           eq_refl eq_refl eq_refl).
Defined.

Lemma image_data_url_is_taken_apart_witness :
  Crud.headers (Crud.effects
    (Crud.handleGetAssetImage Scenario.unconfigured
       (CrudScenario.services true (Some "data:image/png;base64,iVBORw0KGgo=")
          CrudScenario.restricted)
       Scenario.act (CrudScenario.request "A1" ∅))) =
    [("content-type", "image/png")] ∧
  Crud.sent (Crud.effects
    (Crud.handleGetAssetImage Scenario.unconfigured
       (CrudScenario.services true (Some "data:image/png;base64,iVBORw0KGgo=")
          CrudScenario.restricted)
       Scenario.act (CrudScenario.request "A1" ∅))) =
    [Some (list_byte_of_string "iVBORw0KGgo=")].
Proof.
  destruct (image_data_url_is_taken_apart Scenario.unconfigured
              (CrudScenario.services true
                 (Some "data:image/png;base64,iVBORw0KGgo=")
                 CrudScenario.restricted)
              Scenario.act (CrudScenario.request "A1" ∅)
              "image/png" "base64" "iVBORw0KGgo="
              eq_refl eq_refl eq_refl eq_refl eq_refl eq_refl)
    as (Hheader & _ & Hsent).
  split; [exact Hheader | exact Hsent].
Defined.

Lemma image_without_header_is_base64_witness :
  Crud.headers (Crud.effects
    (Crud.handleGetAssetImage Scenario.unconfigured
       (CrudScenario.services true (Some "iVBORw0KGgo=") CrudScenario.restricted)
       Scenario.act (CrudScenario.request "A1" ∅))) =
    [("content-type", "image")] ∧
  Crud.sent (Crud.effects
    (Crud.handleGetAssetImage Scenario.unconfigured
       (CrudScenario.services true (Some "iVBORw0KGgo=") CrudScenario.restricted)
       Scenario.act (CrudScenario.request "A1" ∅))) =
    [Some (list_byte_of_string "iVBORw0KGgo=")].
Proof.
  destruct (image_without_header_is_base64 Scenario.unconfigured
              (CrudScenario.services true (Some "iVBORw0KGgo=")
                 CrudScenario.restricted)
              Scenario.act (CrudScenario.request "A1" ∅) "iVBORw0KGgo="
              eq_refl eq_refl ltac:(discriminate) eq_refl)
    as (Hheader & _ & Hsent).
  split; [exact Hheader | exact Hsent].
Defined.

Lemma image_absent_sends_null_witness :
  Crud.headers (Crud.effects
    (Crud.handleGetAssetImage Scenario.unconfigured
       (CrudScenario.services true None CrudScenario.restricted)
       Scenario.act (CrudScenario.request "A1" ∅))) = [] ∧
  Crud.sent (Crud.effects
    (Crud.handleGetAssetImage Scenario.unconfigured
       (CrudScenario.services true None CrudScenario.restricted)
       Scenario.act (CrudScenario.request "A1" ∅))) = [None].
Proof.
  exact (proj2 (image_absent_sends_null Scenario.unconfigured
                  (CrudScenario.services true None CrudScenario.restricted)
                  Scenario.act (CrudScenario.request "A1" ∅)
                  eq_refl eq_refl)).
Defined.

Lemma image_without_semicolon_has_type_data_witness :
  Crud.headers (Crud.effects
    (Crud.handleGetAssetImage Scenario.unconfigured
       (CrudScenario.services true (Some "data:image/png,iVBORw0KGgo=")
          CrudScenario.restricted)
       Scenario.act (CrudScenario.request "A1" ∅))) =
    [("content-type", "data:")].
Proof.
  exact (image_without_semicolon_has_type_data Scenario.unconfigured
           (CrudScenario.services true (Some "data:image/png,iVBORw0KGgo=")
              CrudScenario.restricted)
           Scenario.act (CrudScenario.request "A1" ∅)
           "data:image/png,iVBORw0KGgo=" eq_refl eq_refl eq_refl eq_refl).
Defined.

Lemma assets_authorization_filters_prevail_witness :
  exists filter : JsObj,
    Crud.listed (Crud.effects
      (Crud.handleGetAssets Scenario.listing
         (CrudScenario.services true None CrudScenario.restricted)
         Scenario.act (CrudScenario.request "" ∅))) =
      [(filter, JsArray [JsString "id"; JsString "name"])] ∧
    filter !! "siteIDs" = Some (JsArray [JsString "site1"]) ∧
    filter !! "siteAreaIDs" = Some (JsArray [JsString "s1"; JsString "s2"]).
Proof.
  destruct (assets_authorization_filters_prevail Scenario.listing
              (CrudScenario.services true None CrudScenario.restricted)
              Scenario.act (CrudScenario.request "" ∅)
              (conj eq_refl eq_refl) eq_refl)
    as (filter & Hlisted & Hprevail & Hrequested).
  exists filter. split; [exact Hlisted|]. split.
  - apply Hprevail. reflexivity.
  - rewrite Hrequested; reflexivity.
Defined.

Lemma assets_unauthorized_listing_is_empty_witness :
  Crud.result (Crud.handleGetAssets Scenario.listing
                 (CrudScenario.services true None CrudScenario.unauthorized)
                 Scenario.act (CrudScenario.request "" ∅)) = Crud.Returned tt ∧
  Crud.listed (Crud.effects
    (Crud.handleGetAssets Scenario.listing
       (CrudScenario.services true None CrudScenario.unauthorized)
       Scenario.act (CrudScenario.request "" ∅))) = [].
Proof.
  destruct (assets_unauthorized_listing_is_empty Scenario.listing
              (CrudScenario.services true None CrudScenario.unauthorized)
              Scenario.act (CrudScenario.request "" ∅)
              (conj eq_refl eq_refl) eq_refl)
    as (Hreturned & Hlisted & _).
  split; [exact Hreturned | exact Hlisted].
Defined.

Lemma create_builds_asset_from_request_witness :
  exists newAsset body : JsObj,
    Crud.saved (Crud.effects
      (Crud.handleCreateAsset Scenario.unconfigured
         (CrudScenario.services true None CrudScenario.restricted)
         Scenario.act (CrudScenario.request "" (CrudScenario.move "sa1")))) =
      [("t1", newAsset)] ∧
    newAsset !! "siteID" = Some (JsString "site1") ∧
    newAsset !! "id" = None ∧
    Crud.answers (Crud.effects
      (Crud.handleCreateAsset Scenario.unconfigured
         (CrudScenario.services true None CrudScenario.restricted)
         Scenario.act (CrudScenario.request "" (CrudScenario.move "sa1")))) =
      [JsObject body] ∧
    get body "id" = JsString "A9".
Proof.
  destruct (create_builds_asset_from_request Scenario.unconfigured
              (CrudScenario.services true None CrudScenario.restricted)
              Scenario.act (CrudScenario.request "" (CrudScenario.move "sa1"))
              (conj eq_refl (conj eq_refl (conj eq_refl
                 (fun _ => ex_intro _ CrudScenario.siteArea eq_refl))))
              eq_refl)
    as (newAsset & body & _ & Hsaved & Hkeys & _ & Hsite & _ & Hanswer & Hid).
  exists newAsset, body. split; [exact Hsaved|]. split; [exact Hsite|].
  split; [|split; [exact Hanswer | exact Hid]].
  destruct (newAsset !! "id") eqn:Hnone; [|reflexivity].
  assert ("id" ∈ ["name"; "siteAreaID"; "siteID"; "assetType";
                  "excludeFromSmartCharging"; "fluctuationPercent";
                  "staticValueWatt"; "coordinates"; "image"; "dynamicAsset";
                  "connectionID"; "meterID"; "createdBy"; "createdOn"])
    as Hin by (apply Hkeys; by eexists).
  exfalso. revert Hin. apply (bool_decide_unpack _). vm_compute. reflexivity.
Defined.

Lemma update_touches_assigned_properties_only_witness :
  exists saved : JsObj,
    Crud.saved (Crud.effects
      (Crud.handleUpdateAsset Scenario.unconfigured
         (CrudScenario.services true None CrudScenario.restricted)
         Scenario.act (CrudScenario.request "" (CrudScenario.move "sa1")))) =
      [("t1", saved)] ∧
    saved !! "siteAreaID" = Some (JsString "sa1") ∧
    saved !! "siteID" = Some (JsString "site1") ∧
    saved !! "currentInstantWatts" = Some (JsNumber 10) ∧
    saved !! "id" = Some (JsString "A1").
Proof.
  destruct (update_touches_assigned_properties_only Scenario.unconfigured
              (CrudScenario.services true None CrudScenario.restricted)
              Scenario.act (CrudScenario.request "" (CrudScenario.move "sa1"))
              Scenario.A1
              (conj eq_refl (conj eq_refl
                 (conj (fun _ => ex_intro _ CrudScenario.siteArea eq_refl)
                    (conj eq_refl eq_refl)))))
    as (saved & _ & Hsaved & Hrequest & Hsite & _ & _ & Hkept & _).
  exists saved. split; [exact Hsaved|].
  split; [exact (Forall_inv (Forall_inv_tail Hrequest))|].
  split; [exact Hsite|].
  split; (rewrite Hkept; [reflexivity|]);
    apply (bool_decide_unpack _); vm_compute; reflexivity.
Defined.

Lemma unknown_site_area_writes_nothing_witness :
  Crud.saved (Crud.effects
    (Crud.handleCreateAsset Scenario.unconfigured
       (CrudScenario.services true None CrudScenario.restricted)
       Scenario.act (CrudScenario.request "" (CrudScenario.move "nowhere")))) = [] ∧
  Crud.loaded (Crud.effects
    (Crud.handleUpdateAsset Scenario.unconfigured
       (CrudScenario.services true None CrudScenario.restricted)
       Scenario.act (CrudScenario.request "" (CrudScenario.move "nowhere")))) = [].
Proof.
  split.
  - exact (proj2 (proj1 (unknown_site_area_writes_nothing Scenario.unconfigured
                           (CrudScenario.services true None CrudScenario.restricted)
                           Scenario.act
                           (CrudScenario.request "" (CrudScenario.move "nowhere")))
                        eq_refl eq_refl eq_refl eq_refl eq_refl)).
  - exact (proj1 (proj2 (proj2 (unknown_site_area_writes_nothing
                           Scenario.unconfigured
                           (CrudScenario.services true None CrudScenario.restricted)
                           Scenario.act
                           (CrudScenario.request "" (CrudScenario.move "nowhere")))
                        eq_refl eq_refl eq_refl eq_refl))).
Defined.
